(** * DING: the print-job pipeline of a thermal receipt printer

    A shallow embedding of the services of the DING application
    ([services/printer.py], [services/text.py], [services/image.py],
    [services/text_renderer.py], with the parts of [core/models.py],
    [core/config.py] and [core/yaml_config.py] they use), followed by the
    properties of the specification that were checked against it.

    Python values are modelled as follows.  An [int] is a [Z]; a [str] is a
    [string] whose characters are code points below 256; [None]-able values
    are [option]s; an exception is a class name with its [str(e)] message.
    Code that talks to the outside (the printer, the file store, the
    database, an external process) runs in a state-and-exception monad over
    a [world]; every call that leaves the process is recorded, with its
    outcome, in the world's [trace], and whether it fails is decided by the
    host, as a function of what has happened so far. *)

From stdpp Require Import gmap strings list pretty.
From Stdlib Require Import ZArith Lia Ascii String SpecFloat.

Open Scope string_scope.
Open Scope Z_scope.

(** ** The Python runtime *)

Module Py.

(** An exception: its class and the text [str(e)] gives. Every exception
    of the model is caught by [except Exception]. *)
Record exn := Exn { exn_class : string; exn_msg : string }.

Inductive result (A : Type) : Type :=
| Ok (a : A)
| Raise (e : exn).
Arguments Ok {A} a.
Arguments Raise {A} e.

(** [str(e)] *)
Definition str_exn (e : exn) : string := exn_msg e.

(** [str(n)] for an [int] *)
Definition str_int (n : Z) : string := pretty n.

(** Truth value of an optional string: [None] and [""] are false. *)
Definition truthy (s : option string) : bool :=
  match s with
  | Some (String _ _) => true
  | _ => false
  end.

(** [x or default] on an optional string *)
Definition or_default (s : option string) (d : string) : string :=
  match s with
  | Some (String c r) => String c r
  | _ => d
  end.

(** [str.isspace] on one character (code points below 256). *)
Definition isspace (c : ascii) : bool :=
  let n := Z.of_N (Ascii.N_of_ascii c) in
  ((9 <=? n) && (n <=? 13)) || ((28 <=? n) && (n <=? 32))
  || (n =? 133) || (n =? 160).

Fixpoint lstrip (s : string) : string :=
  match s with
  | "" => ""
  | String c r => if isspace c then lstrip r else s
  end.

Definition rstrip (s : string) : string :=
  String.rev (lstrip (String.rev s)).

(** [s.strip()] *)
Definition strip (s : string) : string := rstrip (lstrip s).

(** [s == ""], as a boolean *)
Definition is_empty (s : string) : bool :=
  match s with
  | "" => true
  | String _ _ => false
  end.

(** [s.split(sep)] for a one-character separator: never empty, [""]
    gives [[""]]. *)
Fixpoint split_on (sep : ascii) (s : string) : list string :=
  match s with
  | "" => [""]
  | String c r =>
      if Ascii.eqb c sep then "" :: split_on sep r
      else match split_on sep r with
           | [] => [String c ""]
           | l :: ls => String c l :: ls
           end
  end.

(** [s.split('\n')] *)
Definition split_lines (s : string) : list string := split_on "010"%char s.

(** [c.lower()] on one character (code points below 256). *)
Definition lower_char (c : ascii) : ascii :=
  let n := Z.of_N (Ascii.N_of_ascii c) in
  if ((65 <=? n) && (n <=? 90))
     || ((192 <=? n) && (n <=? 222) && negb (n =? 215))
  then Ascii.ascii_of_N (Z.to_N (n + 32)) else c.

(** [s.lower()] *)
Fixpoint lower (s : string) : string :=
  match s with
  | "" => ""
  | String c r => String (lower_char c) (lower r)
  end.

(** The one-character string ['\n']. *)
Definition nl : string := String "010"%char "".

(** ['\n'.join(lines)] *)
Fixpoint join_lines (ls : list string) : string :=
  match ls with
  | [] => ""
  | [l] => l
  | l :: ls' => l +:+ nl +:+ join_lines ls'
  end.

(** [bytes([n])]: one byte, or [ValueError] outside [range(256)]. *)
Definition bytes1 (n : Z) : result (list Z) :=
  if (0 <=? n) && (n <? 256) then Ok [n]
  else Raise (Exn "ValueError" "bytes must be in range(0, 256)").

(** *** Floats

    A Python [float] is an IEEE 754 binary64 number; the arithmetic is
    that of [SpecFloat], at precision 53 and maximal exponent 1024. *)

Definition prec : Z := 53.
Definition emax : Z := 1024.

(** [float(n)] for an [int]: rounded to nearest even, [OverflowError]
    when out of range. *)
Definition float_of_int (n : Z) : result spec_float :=
  match binary_normalize prec emax n 0 false with
  | S754_infinity _ => Raise (Exn "OverflowError" "int too large to convert to float")
  | f => Ok f
  end.

(** [x * y] *)
Definition fmul (x y : spec_float) : spec_float := SFmul prec emax x y.

(** [x / y]: [ZeroDivisionError] on a zero divisor. *)
Definition fdiv (x y : spec_float) : result spec_float :=
  match y with
  | S754_zero _ => Raise (Exn "ZeroDivisionError" "float division by zero")
  | _ => Ok (SFdiv prec emax x y)
  end.

(** [int(x)] for a [float]: truncation towards zero. *)
Definition int_of_float (x : spec_float) : result Z :=
  match x with
  | S754_zero _ => Ok 0
  | S754_finite s m e =>
      let a := match e with
               | Zneg p => Z.pos m / 2 ^ Z.pos p
               | _ => Z.pos m * 2 ^ e
               end in
      Ok (if s then - a else a)
  | S754_infinity _ => Raise (Exn "OverflowError" "cannot convert float infinity to integer")
  | S754_nan => Raise (Exn "ValueError" "cannot convert float NaN to integer")
  end.

(** The literal [0.7]: the binary64 number nearest to 7/10. *)
Definition float_0_7 : spec_float := S754_finite false 6305039478318694 (-53).

End Py.
Export Py.

(** ** Data model *)

(** *** Images, as the imaging library presents them

    An image has the format of the file it was decoded from (none for an
    image made in memory), a mode, a size, and for every position the
    colour the pixel has when read as RGB and the value of its alpha band
    (meaningful in the modes that have one). *)

Definition rgb : Type := Z * Z * Z.

Definition white : rgb := (255, 255, 255).

Record image := Image {
  img_format : option string;
  img_mode : string;
  img_width : Z;
  img_height : Z;
  img_rgb : Z -> Z -> rgb;
  img_alpha : Z -> Z -> Z
}.

(** [img.size] *)
Definition img_size (img : image) : Z * Z := (img_width img, img_height img).

(** A font: a TrueType file at a pixel size, or the built-in one. *)
Inductive font :=
| TrueType (path : string) (size : Z)
| DefaultFont.

(** *** Jobs ([core/models.py], class [DingJob]) *)

Record DingJob := {
  user_id : Z;
  job_type : string;               (* text, image, text_with_image *)
  content_type : string;           (* plain, cowsay, banner *)
  text_content : option string;
  image_path : option string;
  font_size : option string;       (* small, medium, large *)
  status : string;                 (* pending, processing, success, failed *)
  error_message : option string;
  created_at : Z;
  completed_at : option Z
}.

Definition set_status (s : string) (j : DingJob) : DingJob :=
  {| user_id := user_id j; job_type := job_type j;
     content_type := content_type j; text_content := text_content j;
     image_path := image_path j; font_size := font_size j;
     status := s; error_message := error_message j;
     created_at := created_at j; completed_at := completed_at j |}.

Definition set_error_message (m : option string) (j : DingJob) : DingJob :=
  {| user_id := user_id j; job_type := job_type j;
     content_type := content_type j; text_content := text_content j;
     image_path := image_path j; font_size := font_size j;
     status := status j; error_message := m;
     created_at := created_at j; completed_at := completed_at j |}.

Definition set_completed_at (t : option Z) (j : DingJob) : DingJob :=
  {| user_id := user_id j; job_type := job_type j;
     content_type := content_type j; text_content := text_content j;
     image_path := image_path j; font_size := font_size j;
     status := status j; error_message := error_message j;
     created_at := created_at j; completed_at := t |}.

(** *** Settings ([core/config.py]) *)

Record Settings := {
  printer_vendor_id : string;
  printer_product_id : string;
  printer_device_path : string;
  store_path : string
}.

(** *** The YAML configuration ([core/yaml_config.py]) *)

#[local] Unset Elimination Schemes.
Inductive yaml :=
| YNull
| YBool (b : bool)
| YInt (n : Z)
| YFloat (f : spec_float)
| YStr (s : string)
| YSeq (items : list yaml)
| YMap (entries : list (string * yaml)).
#[local] Set Elimination Schemes.

(** [d.get(k)] on a mapping; [None] when the key is absent. *)
Fixpoint dict_get (k : string) (d : list (string * yaml)) : option yaml :=
  match d with
  | [] => None
  | (k', v) :: d' => if String.eqb k k' then Some v else dict_get k d'
  end.

(** *** The device and the calls that leave the process *)

Inductive printer :=
| UsbPrinter (vendor product : Z)
| FilePrinter (path : string).

Inductive call :=
| UsbOpen (vendor product : Z)            (* Usb(vendor_id, product_id) *)
| FileOpen (path : string)                (* PrinterFile(path) *)
| DevText (p : printer) (s : string)      (* printer.text(s) *)
| DevRaw (p : printer) (bs : list Z)      (* printer._raw(bs) *)
| DevImage (p : printer) (path : string)  (* printer.image(path) *)
| DevCut (p : printer)                    (* printer.cut() *)
| DevClose (p : printer)                  (* printer.close() *)
| ImgOpen (path : string)                 (* Image.open(path) *)
| ImgSave (path : string)                 (* img.save(path) *)
| Unlink (path : string)                  (* Path(path).unlink(missing_ok=True) *)
| RunProcess (argv : list string).        (* subprocess.run(argv, timeout=5) *)

(** A call with its outcome: [None] when it returned, the exception when
    it raised. *)
Definition entry : Type := call * option exn.

(** *** The host: everything the code reads from its environment *)

Record Host := {
  settings : Settings;
  yaml_config : yaml;
  (* the outcome of a call, given the calls made so far *)
  respond : list entry -> call -> option exn;
  (* datetime.utcnow() *)
  utcnow : list entry -> Z;
  (* int(s, base) on a string; None for an invalid literal *)
  int_of_str : Z -> string -> option Z;
  (* emoji.demojize and unidecode *)
  demojize : string -> string;
  unidecode : string -> string;
  (* what emoji.demojize(None) raises *)
  demojize_none : exn;
  (* textwrap.fill(paragraph, width) for a positive width *)
  fill : string -> Z -> string;
  (* shutil.which(name) *)
  which : string -> option string;
  (* os.path.isfile(path) and os.access(path, os.X_OK) *)
  is_executable : string -> bool;
  (* returncode, stdout and stderr of a finished process *)
  completed_process : list entry -> list string -> Z * string * string;
  (* Path(path).exists() *)
  path_exists : string -> bool;
  (* whether ImageFont.truetype(path, size) loads *)
  truetype_loads : string -> Z -> bool;
  (* draw.textbbox((0, 0), text, font) *)
  textbbox : string -> font -> Z * Z * Z * Z;
  (* the pixels of a white canvas of the given size after
     draw.text((x, y), text, fill='black', font) *)
  draw_text : Z * Z -> Z * Z -> string -> font -> Z -> Z -> rgb;
  (* the pixels of img.convert('1') *)
  bilevel : image -> Z -> Z -> rgb;
  (* the pixels of img.resize((w, h), LANCZOS) *)
  lanczos : image -> Z * Z -> Z -> Z -> rgb;
  (* Path(p).parent and Path(p).name *)
  path_parent : string -> string;
  path_name : string -> string
}.

(** *** The world: what the code can change *)

Record world := World {
  trace : list entry;
  files : gmap string image;
  jobs : gmap Z DingJob
}.

Definition log (x : entry) (w : world) : world :=
  {| trace := trace w ++ [x]; files := files w; jobs := jobs w |}.

Definition set_files (f : gmap string image) (w : world) : world :=
  {| trace := trace w; files := f; jobs := jobs w |}.

Definition set_jobs (j : gmap Z DingJob) (w : world) : world :=
  {| trace := trace w; files := files w; jobs := j |}.

(** ** The monad of effectful code

    A computation over a state [S] returns a value or raises, and leaves a
    new state either way. *)

Definition M (S A : Type) : Type := S -> result A * S.

Definition ret {S A : Type} (a : A) : M S A := fun s => (Ok a, s).

Definition bind {S A B : Type} (m : M S A) (f : A -> M S B) : M S B :=
  fun s =>
    match m s with
    | (Ok a, s') => f a s'
    | (Raise e, s') => (Raise e, s')
    end.

Notation "x <- m ;; k" := (bind m (fun x => k))
  (at level 100, m at next level, right associativity).
Notation "m ;; k" := (bind m (fun _ => k))
  (at level 100, right associativity).

(** [raise e] *)
Definition raise {S A : Type} (e : exn) : M S A := fun s => (Raise e, s).

(** A pure step that may raise. *)
Definition lift_result {S A : Type} (r : result A) : M S A := fun s => (r, s).

(** [try: m  except Exception as e: handler(e)] *)
Definition try_except {S A : Type} (m : M S A) (handler : exn -> M S A) : M S A :=
  fun s =>
    match m s with
    | (Ok a, s') => (Ok a, s')
    | (Raise e, s') => handler e s'
    end.

(** [try: m  finally: fin]: [fin] runs on both exits; an exception of
    [fin] replaces the outcome of [m]. *)
Definition try_finally {S A : Type} (m : M S A) (fin : M S unit) : M S A :=
  fun s =>
    let (r, s') := m s in
    match fin s' with
    | (Ok _, s'') => (r, s'')
    | (Raise e, s'') => (Raise e, s'')
    end.

(** [for _ in range(n): m] *)
Fixpoint repeat_ {S : Type} (n : nat) (m : M S unit) : M S unit :=
  match n with
  | O => ret tt
  | Datatypes.S n' => m ;; repeat_ n' m
  end.

(** [for x in xs: f(x)], collecting the results *)
Fixpoint for_each {S A B : Type} (f : A -> M S B) (xs : list A) : M S (list B) :=
  match xs with
  | [] => ret []
  | x :: xs' => y <- f x ;; ys <- for_each f xs' ;; ret (y :: ys)
  end.

(** *** A local variable

    A function body that assigns a local variable which its [finally]
    clause reads runs over the state extended with that variable. *)

Definition lift {L S A : Type} (m : M S A) : M (L * S) A :=
  fun ls => let (r, s') := m (snd ls) in (r, (fst ls, s')).

Definition get_local {L S : Type} : M (L * S) L :=
  fun ls => (Ok (fst ls), ls).

Definition set_local {L S : Type} (l : L) : M (L * S) unit :=
  fun ls => (Ok tt, (l, snd ls)).

Definition with_local {L S A : Type} (init : L) (m : M (L * S) A) : M S A :=
  fun s => let (r, ls) := m (init, s) in (r, snd ls).

(** ** The imaging library

    The operations of the imaging library the services call, by their
    documented behaviour. *)

Module PIL.

(** The modes that carry an alpha band. *)
Definition alpha_modes : list string := ["RGBA"; "LA"; "PA"; "RGBa"; "La"].

Definition has_alpha (img : image) : bool :=
  bool_decide (img_mode img ∈ alpha_modes).

(** [Image.new('RGB', size, color)]; a negative size is refused. *)
Definition new_rgb (size : Z * Z) (color : rgb) : result image :=
  if (fst size <? 0) || (snd size <? 0)
  then Raise (Exn "ValueError" "Width and height must be >= 0")
  else Ok {| img_format := None; img_mode := "RGB";
             img_width := fst size; img_height := snd size;
             img_rgb := fun _ _ => color; img_alpha := fun _ _ => 255 |}.

(** [img.convert('RGB')]: the colours as read in RGB, no alpha band. The
    result is a new image, not tied to a file. *)
Definition convert_rgb (img : image) : image :=
  {| img_format := None; img_mode := "RGB";
     img_width := img_width img; img_height := img_height img;
     img_rgb := img_rgb img; img_alpha := fun _ _ => 255 |}.

(** One channel of a masked paste: [((t >> 8) + t) >> 8] for
    [t = dst * (255 - mask) + src * mask + 128]. *)
Definition blend8 (mask dst src : Z) : Z :=
  let t := dst * (255 - mask) + src * mask + 128 in
  Z.shiftr (Z.shiftr t 8 + t) 8.

Definition blend (mask : Z) (dst src : rgb) : rgb :=
  let '(r1, g1, b1) := dst in
  let '(r2, g2, b2) := src in
  (blend8 mask r1 r2, blend8 mask g1 g2, blend8 mask b1 b2).

(** [background.paste(img, mask=band)] for images of one size: where the
    mask is 255 the pasted pixel is copied, where it is 0 the background
    is kept, values between mix the two. The pasted image is read in the
    mode of the background. *)
Definition paste (background img : image) (mask : Z -> Z -> Z) : image :=
  {| img_format := img_format background; img_mode := img_mode background;
     img_width := img_width background; img_height := img_height background;
     img_rgb := fun x y => blend (mask x y) (img_rgb background x y) (img_rgb img x y);
     img_alpha := img_alpha background |}.

(** [img.transpose(ROTATE_90)]: a quarter turn counterclockwise. The
    right column becomes the top row. *)
Definition rotate_90 (img : image) : image :=
  {| img_format := None; img_mode := img_mode img;
     img_width := img_height img; img_height := img_width img;
     img_rgb := fun x y => img_rgb img (img_width img - 1 - y) x;
     img_alpha := fun x y => img_alpha img (img_width img - 1 - y) x |}.


End PIL.

(** ** The services *)

Section Services.

Variable h : Host.

(** *** Primitive steps *)

(** A call that leaves the process: recorded with its outcome. *)
Definition perform (c : call) : M world unit :=
  fun w =>
    match respond h (trace w) c with
    | None => (Ok tt, log (c, None) w)
    | Some e => (Raise e, log (c, Some e) w)
    end.

(** [int(s, base)] on a string *)
Definition int_str (base : Z) (s : string) : result Z :=
  match int_of_str h base s with
  | Some n => Ok n
  | None =>
      Raise (Exn "ValueError"
               ("invalid literal for int() with base " +:+ str_int base +:+ ": '" +:+ s +:+ "'"))
  end.

(** *** [core/yaml_config.py] *)

(** The loop of [YAMLConfig.get]: [None] stands for [return default]. *)
Fixpoint yaml_walk (keys : list string) (value : yaml) : option yaml :=
  match keys with
  | [] => Some value
  | k :: ks =>
      match value with
      | YMap d =>
          match dict_get k d with
          | None | Some YNull => None
          | Some v => yaml_walk ks v
          end
      | _ => None
      end
  end.

(** [int(value)] on a configuration value *)
Definition yaml_int (v : yaml) : result Z :=
  match v with
  | YBool b => Ok (if b then 1 else 0)
  | YInt n => Ok n
  | YFloat f => int_of_float f
  | YStr s => int_str 10 s
  | YNull | YSeq _ | YMap _ =>
      Raise (Exn "TypeError" "int() argument must be a string, a bytes-like object or a real number")
  end.

(** [yaml_config.get_int(key, default)] *)
Definition get_int (key : string) (default : Z) : result Z :=
  match yaml_walk (split_on "."%char key) (yaml_config h) with
  | None => Ok default
  | Some v => yaml_int v
  end.

(** [bool(value)] on a configuration value *)
Definition yaml_truth (v : yaml) : bool :=
  match v with
  | YNull => false
  | YBool b => b
  | YInt n => negb (n =? 0)
  | YFloat (S754_zero _) => false
  | YFloat _ => true
  | YStr s => negb (is_empty s)
  | YSeq l => match l with [] => false | _ => true end
  | YMap d => match d with [] => false | _ => true end
  end.

(** [yaml_config.get_bool(key, default)] *)
Definition get_bool (key : string) (default : bool) : bool :=
  match yaml_walk (split_on "."%char key) (yaml_config h) with
  | None => default
  | Some (YBool b) => b
  | Some (YStr s) => bool_decide (lower s ∈ ["true"; "yes"; "1"; "on"])
  | Some v => yaml_truth v
  end.

(** *** [services/printer.py]: the device adapter *)

(** The font-scale command [GS ! n] with [n = 0]: characters at 1x1. *)
Definition scale_reset : list Z := [29; 33; 0].

(** The primary transport of [_connect_printer]: USB, by the vendor and
    product identifiers of the settings, read as hexadecimal. *)
Definition connect_usb : M world printer :=
  vendor_id <- lift_result (int_str 16 (printer_vendor_id (settings h))) ;;
  product_id <- lift_result (int_str 16 (printer_product_id (settings h))) ;;
  perform (UsbOpen vendor_id product_id) ;;
  ret (UsbPrinter vendor_id product_id).

(** The fallback transport of [_connect_printer]: the device file. *)
Definition connect_file : M world printer :=
  perform (FileOpen (printer_device_path (settings h))) ;;
  ret (FilePrinter (printer_device_path (settings h))).

(** The message of the error raised when both transports fail. *)
Definition connection_error (e e2 : exn) : exn :=
  Exn "ConnectionError"
    ("Failed to connect to printer: USB failed (" +:+ str_exn e
     +:+ "), File failed (" +:+ str_exn e2 +:+ ")").

(** [PrinterService._connect_printer] *)
Definition _connect_printer : M world printer :=
  try_except connect_usb
    (fun e => try_except connect_file (fun e2 => raise (connection_error e e2))).

(** [PrinterService._close_printer] *)
Definition _close_printer (p : option printer) : M world unit :=
  try_except
    (match p with
     | Some p => perform (DevClose p)
     | None => ret tt
     end)
    (fun _ => ret tt).

(** [PrinterService._feed_and_cut] *)
Definition _feed_and_cut (p : printer) : M world unit :=
  feed_after <- lift_result (get_int "printer.feed_after_lines" 3) ;;
  let cut_paper := get_bool "printer.cut_paper" true in
  repeat_ (Z.to_nat feed_after) (perform (DevText p nl)) ;;
  if cut_paper then perform (DevCut p) else ret tt.

(** [PrinterService._get_font_size_config] *)
Definition _get_font_size_config (font_size : string) (is_cowsay : bool) : result Z :=
  let prefix := if is_cowsay then "cowsay" else "text" in
  get_int ("fonts." +:+ font_size +:+ "." +:+ prefix +:+ "_chars_per_line") 32.

(** The size byte of the font-scale command. *)
Definition size_byte (width height : Z) : Z :=
  Z.lor (Z.shiftl (width - 1) 4) (height - 1).

(** [PrinterService._set_font_size] *)
Definition _set_font_size (p : printer) (font_size : string) : M world unit :=
  width <- lift_result (get_int ("fonts." +:+ font_size +:+ ".width") 1) ;;
  height <- lift_result (get_int ("fonts." +:+ font_size +:+ ".height") 1) ;;
  perform (DevRaw p scale_reset) ;;
  b <- lift_result (bytes1 (size_byte width height)) ;;
  perform (DevRaw p ([29; 33] ++ b)).

(** [PrinterService._reset_font_size] *)
Definition _reset_font_size (p : printer) : M world unit :=
  perform (DevRaw p scale_reset).

(** *** [services/text.py]: the text preparer *)

(** [convert_emojis_to_text] *)
Definition convert_emojis_to_text (text : option string) : result string :=
  match text with
  | Some t => Ok (demojize h t)
  | None => Raise (demojize_none h)
  end.

(** [encode_for_escpos] *)
Definition encode_for_escpos (text : option string) : result string :=
  match convert_emojis_to_text text with
  | Ok t => Ok (unidecode h t)
  | Raise e => Raise e
  end.

(** [textwrap.fill(paragraph, width)]: refuses a width that is not
    positive. *)
Definition textwrap_fill (paragraph : string) (width : Z) : result string :=
  if width <=? 0
  then Raise (Exn "ValueError" ("invalid width " +:+ str_int width +:+ " (must be > 0)"))
  else Ok (fill h paragraph width).

(** The loop of [wrap_text_for_printer] over the paragraphs. *)
Fixpoint wrap_paragraphs (paragraphs : list string) (max_width : Z) : result (list string) :=
  match paragraphs with
  | [] => Ok []
  | paragraph :: rest =>
      match (if is_empty (strip paragraph) then Ok ""
             else textwrap_fill paragraph max_width) with
      | Raise e => Raise e
      | Ok line =>
          match wrap_paragraphs rest max_width with
          | Raise e => Raise e
          | Ok lines => Ok (line :: lines)
          end
      end
  end.

(** [wrap_text_for_printer] *)
Definition wrap_text_for_printer (text : string) (max_width : Z) : result string :=
  match wrap_paragraphs (split_lines text) max_width with
  | Ok lines => Ok (join_lines lines)
  | Raise e => Raise e
  end.

(** The fixed install locations [find_cowsay_command] looks at. *)
Definition common_paths : list string :=
  ["/usr/games/cowsay"; "/usr/local/bin/cowsay"; "/usr/bin/cowsay"; "/bin/cowsay"].

(** [find_cowsay_command] *)
Definition find_cowsay_command : option string :=
  if truthy (which h "cowsay") then which h "cowsay"
  else List.find (is_executable h) common_paths.

(** [subprocess.run(argv, capture_output=True, text=True, timeout=5)] *)
Definition subprocess_run (argv : list string) : M world (Z * string * string) :=
  fun w =>
    match perform (RunProcess argv) w with
    | (Ok _, w') => (Ok (completed_process h (trace w) argv), w')
    | (Raise e, w') => (Raise e, w')
    end.

(** [generate_cowsay] *)
Definition generate_cowsay (text : option string) (max_width : Z) : M world (option string) :=
  try_except
    (if negb (truthy find_cowsay_command) then ret None
     else
       let cowsay_cmd := or_default find_cowsay_command "" in
       encoded_text <- lift_result (encode_for_escpos text) ;;
       result <- subprocess_run [cowsay_cmd; "-W"; str_int max_width; encoded_text] ;;
       let '(returncode, stdout, _) := result in
       if returncode =? 0 then ret (Some stdout) else ret None)
    (fun _ => ret None).

(** [prepare_text_for_print] *)
Definition prepare_text_for_print
    (text : option string) (max_width : Z) (use_cowsay : bool) : M world string :=
  if use_cowsay then
    cowsay_output <- generate_cowsay text max_width ;;
    if truthy cowsay_output then ret (or_default cowsay_output "")
    else
      (* fallback to regular text if cowsay fails *)
      text' <- lift_result (encode_for_escpos text) ;;
      lift_result (wrap_text_for_printer text' max_width)
  else
    text' <- lift_result (encode_for_escpos text) ;;
    lift_result (wrap_text_for_printer text' max_width).

(** *** Files of the store *)

(** [Image.open(path)] *)
Definition image_open (path : string) : M world image :=
  perform (ImgOpen path) ;;
  fun w =>
    match files w !! path with
    | Some img => (Ok img, w)
    | None =>
        (Raise (Exn "FileNotFoundError"
                  ("[Errno 2] No such file or directory: '" +:+ path +:+ "'")), w)
    end.

(** [img.save(path)] *)
Definition image_save (img : image) (path : string) : M world unit :=
  perform (ImgSave path) ;;
  fun w => (Ok tt, set_files (<[path := img]> (files w)) w).

(** [Path(path).unlink(missing_ok=True)] *)
Definition unlink (path : string) : M world unit :=
  perform (Unlink path) ;;
  fun w => (Ok tt, set_files (delete path (files w)) w).

(** [str(Path(dir) / name)] *)
Definition path_join (dir name : string) : string := dir +:+ "/" +:+ name.

(** *** Imaging operations whose pixels the host decides *)

(** [img.convert('1')]: one bit per pixel, dithered. *)
Definition convert_1 (img : image) : image :=
  {| img_format := None; img_mode := "1";
     img_width := img_width img; img_height := img_height img;
     img_rgb := bilevel h img; img_alpha := fun _ _ => 255 |}.

(** [img.resize(size, LANCZOS)]; a size below one pixel is refused. *)
Definition resize_lanczos (img : image) (size : Z * Z) : result image :=
  if (fst size <? 1) || (snd size <? 1)
  then Raise (Exn "ValueError" "height and width must be > 0")
  else Ok {| img_format := None; img_mode := img_mode img;
             img_width := fst size; img_height := snd size;
             img_rgb := lanczos h img size; img_alpha := img_alpha img |}.

(** [ImageDraw.Draw(canvas).text(origin, text, fill='black', font=font)] *)
Definition draw_black_text (canvas : image) (origin : Z * Z) (text : string) (f : font) : image :=
  {| img_format := img_format canvas; img_mode := img_mode canvas;
     img_width := img_width canvas; img_height := img_height canvas;
     img_rgb := draw_text h (img_size canvas) origin text f;
     img_alpha := img_alpha canvas |}.

(** *** [services/text_renderer.py]: the banner renderer *)

Definition font_paths : list string :=
  ["/usr/share/fonts/truetype/dejavu/DejaVuSansMono.ttf";
   "/usr/share/fonts/truetype/liberation/LiberationMono-Regular.ttf";
   "/usr/share/fonts/truetype/freefont/FreeMono.ttf";
   "/usr/share/fonts/truetype/ubuntu/UbuntuMono-R.ttf";
   "/System/Library/Fonts/Courier.dfont";
   "C:\Windows\Fonts\cour.ttf"].

(** [find_monospace_font] *)
Definition find_monospace_font (size : Z) : font :=
  match List.find (fun font_path => path_exists h font_path && truetype_loads h font_path size)
                  font_paths with
  | Some font_path => TrueType font_path size
  | None => DefaultFont
  end.

(** The loop of [calculate_font_size], with [n] iterations left. *)
Fixpoint font_size_search (n : nat) (text : string) (target_height : Z)
    (min_size max_size best_size : Z) : Z :=
  match n with
  | O => best_size
  | Datatypes.S n' =>
      let mid_size := (min_size + max_size) / 2 in
      let font := find_monospace_font mid_size in
      let '(_, y0, _, y1) := textbbox h text font in
      let text_height := y1 - y0 in
      if text_height <? target_height then
        font_size_search n' text target_height (mid_size + 1) max_size mid_size
      else if text_height >? target_height then
        font_size_search n' text target_height min_size (mid_size - 1) best_size
      else mid_size
  end.

(** [calculate_font_size] *)
Definition calculate_font_size (text : string) (target_height : Z) (max_iterations : nat) : Z :=
  font_size_search max_iterations text target_height 10 500 50.

(** The message of the error [render_text_banner] raises on a text with
    nothing to print. *)
Definition empty_text_error : exn := Exn "ValueError" "Text cannot be empty".

(** The image [render_text_banner] draws for a text that passed its
    check: everything between the check and the save. *)
Definition banner_image (text : string) (dots_per_line : Z) : result image :=
  match float_of_int dots_per_line with
  | Raise e => Raise e
  | Ok dots =>
      (* target_height = int(dots_per_line * 0.7) *)
      match int_of_float (fmul dots float_0_7) with
      | Raise e => Raise e
      | Ok target_height =>
          let font_size := calculate_font_size text target_height 20 in
          let font := find_monospace_font font_size in
          let '(x0, y0, x1, y1) := textbbox h text font in
          let text_width := x1 - x0 in
          let text_height := y1 - y0 in
          let margin_x := 20 in
          let margin_y := (dots_per_line - text_height) / 2 in
          let img_width := text_width + 2 * margin_x in
          let img_height := dots_per_line in
          match PIL.new_rgb (img_width, img_height) white with
          | Raise e => Raise e
          | Ok canvas =>
              Ok (convert_1 (draw_black_text canvas (margin_x, margin_y) text font))
          end
      end
  end.

(** [render_text_banner] *)
Definition render_text_banner
    (text : option string) (output_path : string) (dots_per_line : Z) : M world string :=
  match text with
  | None => raise (Exn "AttributeError" "'NoneType' object has no attribute 'strip'")
  | Some text =>
      if is_empty (strip text) then raise empty_text_error
      else
        image <- lift_result (banner_image text dots_per_line) ;;
        image_save image output_path ;;
        ret output_path
  end.

(** *** [services/image.py]: the image pipeline *)

(** Step 1: of a GIF, the first frame, flattened to RGB. *)
Definition first_frame (img : image) : image :=
  if bool_decide (img_format img = Some "GIF") then PIL.convert_rgb img else img.

(** Step 2: an image with an alpha band is pasted on a white background,
    the alpha band as the mask. *)
Definition flatten_alpha (img : image) : result image :=
  if bool_decide (img_mode img ∈ ["RGBA"; "LA"; "PA"]) then
    match PIL.new_rgb (img_size img) white with
    | Ok background => Ok (PIL.paste background img (img_alpha img))
    | Raise e => Raise e
    end
  else Ok img.

(** Step 3: any mode but RGB and L is converted to RGB. *)
Definition ensure_rgb (img : image) : image :=
  if bool_decide (img_mode img ∉ ["RGB"; "L"]) then PIL.convert_rgb img else img.

(** Step 4: the quarter turn of banner mode. *)
Definition rotate_banner (rotate : bool) (img : image) : image :=
  if rotate then PIL.rotate_90 img else img.

(** The height of the resized image:
    [int(float(original_height) * (max_width / float(original_width)))]. *)
Definition scaled_height (max_width original_width original_height : Z) : result Z :=
  match float_of_int original_width with
  | Raise e => Raise e
  | Ok fw =>
      match float_of_int max_width with
      | Raise e => Raise e
      | Ok fm =>
          match fdiv fm fw with
          | Raise e => Raise e
          | Ok wpercent =>
              match float_of_int original_height with
              | Raise e => Raise e
              | Ok fh => int_of_float (fmul fh wpercent)
              end
          end
      end
  end.

(** Step 5: an image wider than [max_width] is scaled down to it. *)
Definition fit_width (max_width : Z) (img : image) : result image :=
  let '(original_width, original_height) := img_size img in
  if original_width >? max_width then
    match scaled_height max_width original_width original_height with
    | Ok hsize => resize_lanczos img (max_width, hsize)
    | Raise e => Raise e
    end
  else Ok img.

(** Step 6: black and white. *)
Definition to_black_white (convert_to_bw : bool) (img : image) : image :=
  if convert_to_bw then convert_1 img else img.

(** The steps of [process_image] between opening and saving. *)
Definition pipeline (max_width : Z) (rotate convert_to_bw : bool) (img : image) : result image :=
  match flatten_alpha (first_frame img) with
  | Raise e => Raise e
  | Ok img =>
      match fit_width max_width (rotate_banner rotate (ensure_rgb img)) with
      | Raise e => Raise e
      | Ok img => Ok (to_black_white convert_to_bw img)
      end
  end.

(** [process_image] *)
Definition process_image (image_path output_path : string) (max_width : Z)
    (rotate convert_to_bw : bool) : M world string :=
  try_except
    (img <- image_open image_path ;;
     img <- lift_result (pipeline max_width rotate convert_to_bw img) ;;
     image_save img output_path ;;
     ret output_path)
    (fun e => raise (Exn "ValueError" ("Error processing image: " +:+ str_exn e))).

(** *** [services/printer.py]: the print operations *)

(** [Path(p)] on a value that may be [None] *)
Definition as_path (p : option string) : result string :=
  match p with
  | Some s => Ok s
  | None =>
      Raise (Exn "TypeError"
               "expected str, bytes or os.PathLike object, not NoneType")
  end.

(** The file the banner of a job is rendered to, before it is rotated. *)
Definition banner_temp_path (job_id : Z) : string :=
  path_join (store_path (settings h)) ("banner_temp_" +:+ str_int job_id +:+ ".png").

(** The file that holds the rotated banner of a job. *)
Definition banner_path (job_id : Z) : string :=
  path_join (store_path (settings h)) ("banner_" +:+ str_int job_id +:+ ".png").

(** [PrinterService._print_text_banner] *)
Definition _print_text_banner (job_id : Z) (text : option string) : M world unit :=
  let temp_path := banner_temp_path job_id in
  let processed_path := banner_path job_id in
  with_local (None : option printer)
    (try_finally
       (try_except
          (lift (dots_per_line <- lift_result (get_int "printer.dots_per_line" 384) ;;
                 render_text_banner text temp_path dots_per_line ;;
                 img <- image_open temp_path ;;
                 image_save (PIL.rotate_90 img) processed_path) ;;
           p <- lift _connect_printer ;;
           set_local (Some p) ;;
           lift (feed_before <- lift_result (get_int "printer.feed_before_lines" 1) ;;
                 repeat_ (Z.to_nat feed_before) (perform (DevText p nl)) ;;
                 perform (DevImage p processed_path) ;;
                 _feed_and_cut p ;;
                 unlink temp_path))
          (fun e => raise (Exn "Exception" ("Error printing banner: " +:+ str_exn e))))
       (p <- get_local ;; lift (_close_printer p))).

(** [PrinterService.print_text] *)
Definition print_text (job_id : Z) (text : option string) (font_size : string)
    (use_cowsay : bool) : M world unit :=
  with_local (None : option printer)
    (try_finally
       (try_except
          (if String.eqb font_size "banner" then
             lift (_print_text_banner job_id text)
           else
             p <- lift _connect_printer ;;
             set_local (Some p) ;;
             lift (feed_before <- lift_result (get_int "printer.feed_before_lines" 1) ;;
                   repeat_ (Z.to_nat feed_before) (perform (DevText p nl)) ;;
                   max_width <- lift_result (_get_font_size_config font_size use_cowsay) ;;
                   prepared_text <- prepare_text_for_print text max_width use_cowsay ;;
                   _set_font_size p font_size ;;
                   perform (DevText p prepared_text) ;;
                   perform (DevText p nl) ;;
                   _reset_font_size p ;;
                   _feed_and_cut p))
          (fun e => raise (Exn "Exception" ("Error printing text: " +:+ str_exn e))))
       (p <- get_local ;; lift (_close_printer p))).

(** [PrinterService.print_image] *)
Definition print_image (job_id : Z) (image_path caption : option string)
    (font_size : string) (is_banner : bool) : M world unit :=
  with_local (None : option printer)
    (try_finally
       (try_except
          (p <- lift _connect_printer ;;
           set_local (Some p) ;;
           lift (feed_before <- lift_result (get_int "printer.feed_before_lines" 1) ;;
                 repeat_ (Z.to_nat feed_before) (perform (DevText p nl)) ;;
                 max_width <- lift_result (get_int "printer.dots_per_line" 384) ;;
                 image_path <- lift_result (as_path image_path) ;;
                 let processed_path :=
                   path_join (path_parent h image_path)
                             ("processed_" +:+ path_name h image_path) in
                 process_image image_path processed_path max_width is_banner true ;;
                 perform (DevImage p processed_path) ;;
                 (if truthy caption && negb is_banner then
                    perform (DevText p nl) ;;
                    _set_font_size p font_size ;;
                    max_chars <- lift_result (_get_font_size_config font_size false) ;;
                    prepared_caption <- prepare_text_for_print caption max_chars false ;;
                    perform (DevText p prepared_caption) ;;
                    perform (DevText p nl) ;;
                    _reset_font_size p
                  else ret tt) ;;
                 _feed_and_cut p))
          (fun e => raise (Exn "Exception" ("Error printing image: " +:+ str_exn e))))
       (p <- get_local ;; lift (_close_printer p))).

(** *** [services/printer.py]: the orchestrator *)

(** [db.query(DingJob).filter(DingJob.id == job_id).first()] *)
Definition query_job (job_id : Z) : M world (option DingJob) :=
  fun w => (Ok (jobs w !! job_id), w).

(** Assignments to the attributes of the job, then [db.commit()]. *)
Definition update_job (job_id : Z) (f : DingJob -> DingJob) : M world unit :=
  fun w => (Ok tt, set_jobs (alter f job_id (jobs w)) w).

(** [datetime.utcnow()] *)
Definition now : M world Z :=
  fun w => (Ok (utcnow h (trace w)), w).

(** The branch of [process_job] on the type of the job. *)
Definition dispatch (job_id : Z) (job : DingJob) : M world unit :=
  if String.eqb (job_type job) "text" then
    let use_cowsay := String.eqb (content_type job) "cowsay" in
    print_text job_id (text_content job) (or_default (font_size job) "medium") use_cowsay
  else if String.eqb (job_type job) "image" then
    let is_banner := String.eqb (content_type job) "banner" in
    print_image job_id (image_path job) None (or_default (font_size job) "medium") is_banner
  else if String.eqb (job_type job) "text_with_image" then
    print_image job_id (image_path job) (text_content job)
                (or_default (font_size job) "medium") false
  else ret tt.

(** [PrinterService.process_job]. The lock it holds around the body is
    not modelled: one job runs at a time. *)
Definition process_job (job_id : Z) : M world unit :=
  try_finally
    (try_except
       (job <- query_job job_id ;;
        match job with
        | None => raise (Exn "ValueError" ("Job " +:+ str_int job_id +:+ " not found"))
        | Some job =>
            update_job job_id (set_status "processing") ;;
            dispatch job_id job ;;
            t <- now ;;
            update_job job_id (fun j => set_completed_at (Some t) (set_status "success" j))
        end)
       (fun e =>
          job <- query_job job_id ;;
          match job with
          | Some _ =>
              t <- now ;;
              update_job job_id
                (fun j => set_completed_at (Some t)
                            (set_error_message (Some (str_exn e)) (set_status "failed" j)))
          | None => ret tt
          end))
    (ret tt).

End Services.

(** ** Further services: validation, the retry endpoint, the forms *)

Section FurtherServices.

Variable h : Host.

(** *** [services/image.py]: validation *)

Definition supported_formats : list string := ["JPEG"; "PNG"; "GIF"; "BMP"].

(** [validate_image] *)
Definition validate_image (image_path : string) : M world bool :=
  try_except
    (img <- image_open h image_path ;;
     match img_format img with
     | Some f => ret (bool_decide (f ∈ supported_formats))
     | None => ret false
     end)
    (fun _ => ret false).

(** *** [api/endpoints/jobs.py]: the retry endpoint *)

(** [HTTPException(status_code, detail)]; [str(e)] is the code, a colon
    and the detail. *)
Definition http_exception (status_code : Z) (detail : string) : exn :=
  Exn "HTTPException" (str_int status_code +:+ ": " +:+ detail).

(** [retry_job], up to its commit: the job is looked up, refused unless
    it has failed, and reset. The hand-over to the worker thread and the
    response are not modelled. *)
Definition retry_job (job_id : Z) : M world unit :=
  job <- query_job job_id ;;
  match job with
  | None => raise (http_exception 404 "Job not found")
  | Some job =>
      if bool_decide (status job ∉ ["failed"]) then
        raise (http_exception 400
                 ("Cannot retry job with status '" +:+ status job +:+ "'"))
      else
        update_job job_id
          (fun j => set_completed_at None (set_error_message None (set_status "pending" j)))
  end.

(** *** [ui/pages/ding.py]: the jobs the forms create *)

(** The job [show_text_tab] stores when the send button is pressed, for a
    message, the font size chosen, and the format chosen (asked for only
    when the font size is not [banner]); none for a blank message. *)
Definition text_form_job (user : Z) (text_content font_choice : string)
    (cowsay_choice : bool) (created : Z) : option DingJob :=
  let use_cowsay := if String.eqb font_choice "banner" then false else cowsay_choice in
  let font_size := if use_cowsay then "small" else font_choice in
  if is_empty (strip text_content) then None
  else Some {| user_id := user; job_type := "text";
               content_type := if use_cowsay then "cowsay" else "plain";
               text_content := Some text_content; image_path := None;
               font_size := Some font_size; status := "pending";
               error_message := None; created_at := created;
               completed_at := None |}.

(** The job [show_image_tab] stores for an uploaded file that passed
    validation: the caption is asked for only outside banner mode, its
    font size only when there is a caption. *)
Definition image_form_job (user : Z) (file_path : string) (is_banner : bool)
    (caption_input font_choice : string) (created : Z) : DingJob :=
  let caption := if is_banner then None else Some caption_input in
  let font_size := if truthy caption then font_choice else "medium" in
  {| user_id := user;
     job_type := if truthy caption then "text_with_image" else "image";
     content_type := if is_banner then "banner" else "plain";
     text_content := caption; image_path := Some file_path;
     font_size := if truthy caption then Some font_size else None;
     status := "pending"; error_message := None; created_at := created;
     completed_at := None |}.

End FurtherServices.

(** ** A sample host and store

    A host on which no call fails, with the configuration the application
    ships; used to run the services on concrete jobs. *)

Module Sample.

(** Digits of a literal in the given base, most significant first. *)
Fixpoint digits_value (base : Z) (acc : Z) (s : string) : option Z :=
  match s with
  | "" => Some acc
  | String c r =>
      let n := Z.of_N (Ascii.N_of_ascii c) in
      let d := if (48 <=? n) && (n <=? 57) then n - 48
               else if (97 <=? n) && (n <=? 102) then n - 87
               else if (65 <=? n) && (n <=? 70) then n - 55
               else 99 in
      if d <? base then digits_value base (base * acc + d) r else None
  end.

(** [int(s, base)] on plain literals: digits, with [0x] in base 16. *)
Definition parse_int (base : Z) (s : string) : option Z :=
  match s with
  | "" => None
  | String "0" (String "x" (String c r)) =>
      if base =? 16 then digits_value 16 0 (String c r) else None
  | _ => digits_value base 0 s
  end.

Definition font_entry (w ht chars cow : Z) : yaml :=
  YMap [("width", YInt w); ("height", YInt ht);
        ("text_chars_per_line", YInt chars); ("cowsay_chars_per_line", YInt cow)].

Definition config : yaml :=
  YMap [("printer",
         YMap [("dots_per_line", YInt 384); ("feed_before_lines", YInt 1);
               ("feed_after_lines", YInt 3); ("cut_paper", YBool true)]);
        ("fonts",
         YMap [("small", font_entry 1 1 32 28);
               ("medium", font_entry 2 2 16 14);
               ("large", font_entry 3 3 10 8)])].

Definition the_settings : Settings :=
  {| printer_vendor_id := "0x0416"; printer_product_id := "0x5011";
     printer_device_path := "/dev/usb/lp0"; store_path := "store" |}.

(** A host on which every call returns, no font file and no cowsay are
    installed, text is ASCII already and every paragraph fits its line. *)
Definition quiet : Host :=
  {| settings := the_settings;
     yaml_config := config;
     respond := fun _ _ => None;
     utcnow := fun t => 1000 + Z.of_nat (List.length t);
     int_of_str := parse_int;
     demojize := fun s => s;
     unidecode := fun s => s;
     demojize_none := Exn "TypeError" "object of type 'NoneType' has no len()";
     fill := fun p _ => p;
     which := fun _ => None;
     is_executable := fun _ => false;
     completed_process := fun _ _ => (0, "", "");
     path_exists := fun _ => false;
     truetype_loads := fun _ _ => false;
     textbbox := fun text _ => (0, 0, 6 * Z.of_nat (String.length text), 11);
     draw_text := fun _ _ _ _ _ _ => white;
     bilevel := fun img x y => img_rgb img x y;
     lanczos := fun img _ x y => img_rgb img x y;
     path_parent := fun _ => "store";
     path_name := fun _ => "photo.png" |}.

Definition text_job (style : string) (size : option string) (text : string) : DingJob :=
  {| user_id := 1; job_type := "text"; content_type := style;
     text_content := Some text; image_path := None; font_size := size;
     status := "pending"; error_message := None;
     created_at := 900; completed_at := None |}.

Definition empty_world : world :=
  {| trace := []; files := ∅; jobs := ∅ |}.

Definition world_with (id : Z) (j : DingJob) : world :=
  {| trace := []; files := ∅; jobs := {[ id := j ]} |}.

(** The host [h] with other answers to its calls. *)
Definition answering (r : list entry -> call -> option exn) (h : Host) : Host :=
  {| settings := settings h; yaml_config := yaml_config h;
     respond := r; utcnow := utcnow h; int_of_str := int_of_str h;
     demojize := demojize h; unidecode := unidecode h;
     demojize_none := demojize_none h; fill := fill h;
     which := which h; is_executable := is_executable h;
     completed_process := completed_process h;
     path_exists := path_exists h; truetype_loads := truetype_loads h;
     textbbox := textbbox h; draw_text := draw_text h;
     bilevel := bilevel h; lanczos := lanczos h;
     path_parent := path_parent h; path_name := path_name h |}.

(** A host with no printer attached: both transports fail. *)
Definition offline : Host :=
  answering
    (fun _ c =>
       match c with
       | UsbOpen _ _ => Some (Exn "USBNotFoundError" "Device not found")
       | FileOpen _ => Some (Exn "FileNotFoundError" "No such file or directory")
       | _ => None
       end)
    quiet.

(** The job of the examples: the text [hi] at the medium font. *)
Definition hi_job : DingJob := text_job "plain" (Some "medium") "hi".

(** The world in which job 7, [hi_job], has been marked as processing. *)
Definition processing_hi : world :=
  set_jobs (alter (set_status "processing") 7 (jobs (world_with 7 hi_job)))
           (world_with 7 hi_job).

(** What the offline host raises for it, and the world it leaves. *)
Definition offline_error : exn :=
  Exn "Exception"
      "Error printing text: Failed to connect to printer: USB failed (Device not found), File failed (No such file or directory)".

Definition offline_world : world := snd (dispatch offline 7 hi_job processing_hi).

(** A photograph of 500 by 100 pixels, black, with a transparent left
    column, and a store that holds it. *)
Definition photo : image :=
  {| img_format := Some "PNG"; img_mode := "RGBA";
     img_width := 500; img_height := 100;
     img_rgb := fun _ _ => (0, 0, 0);
     img_alpha := fun x _ => if x =? 0 then 0 else 255 |}.

Definition photo_world : world :=
  {| trace := []; files := {[ "store/photo.png" := photo ]}; jobs := ∅ |}.

(** The quiet host with the stylized-text generator installed outside
    the search path: every run of it prints a fixed picture. *)
Definition with_cowsay (picture : string) : Host :=
  {| settings := settings quiet; yaml_config := yaml_config quiet;
     respond := respond quiet; utcnow := utcnow quiet; int_of_str := int_of_str quiet;
     demojize := demojize quiet; unidecode := unidecode quiet;
     demojize_none := demojize_none quiet; fill := fill quiet;
     which := fun _ => None;
     is_executable := fun path => String.eqb path "/usr/bin/cowsay";
     completed_process := fun _ _ => (0, picture, "");
     path_exists := path_exists quiet; truetype_loads := truetype_loads quiet;
     textbbox := textbbox quiet; draw_text := draw_text quiet;
     bilevel := bilevel quiet; lanczos := lanczos quiet;
     path_parent := path_parent quiet; path_name := path_name quiet |}.

(** The quiet host with the first monospace font installed: a text is
    as tall as the font size, and six tenths of it wide per character. *)
Definition with_font : Host :=
  {| settings := settings quiet; yaml_config := yaml_config quiet;
     respond := respond quiet; utcnow := utcnow quiet; int_of_str := int_of_str quiet;
     demojize := demojize quiet; unidecode := unidecode quiet;
     demojize_none := demojize_none quiet; fill := fill quiet;
     which := which quiet; is_executable := is_executable quiet;
     completed_process := completed_process quiet;
     path_exists := fun path =>
       String.eqb path "/usr/share/fonts/truetype/dejavu/DejaVuSansMono.ttf";
     truetype_loads := fun _ _ => true;
     textbbox := fun text f =>
       match f with
       | TrueType _ size => (0, 0, 6 * size * Z.of_nat (String.length text) / 10, size)
       | DefaultFont => (0, 0, 6 * Z.of_nat (String.length text), 11)
       end;
     draw_text := draw_text quiet;
     bilevel := bilevel quiet; lanczos := lanczos quiet;
     path_parent := path_parent quiet; path_name := path_name quiet |}.



(** A job for the photograph of the store. *)
Definition photo_job (type style : string) (text size : option string) : DingJob :=
  {| user_id := 1; job_type := type; content_type := style;
     text_content := text; image_path := Some "store/photo.png"; font_size := size;
     status := "pending"; error_message := None;
     created_at := 900; completed_at := None |}.

(** A job of a type the orchestrator does not know. *)
Definition sticker_job : DingJob :=
  {| user_id := 1; job_type := "sticker"; content_type := "plain";
     text_content := Some "hi"; image_path := None; font_size := None;
     status := "pending"; error_message := None; created_at := 900;
     completed_at := None |}.

End Sample.

(** ** Vocabulary of the properties *)

(** The entries a run added to the trace. *)
Definition delta (w w' : world) : list entry :=
  drop (List.length (trace w)) (trace w').

(** A raw write that returned and carries a font-scale command. *)
Definition scale_cmd (x : entry) : option (list Z) :=
  match x with
  | (DevRaw _ (29 :: 33 :: bs), None) => Some (29 :: 33 :: bs)
  | _ => None
  end.

(** The font-scale commands sent to the device, in order. *)
Definition scale_cmds (d : list entry) : list (list Z) := omap scale_cmd d.

(** Whether a computation raised. *)
Definition is_raise {A : Type} (r : result A) : bool :=
  match r with
  | Raise _ => true
  | Ok _ => false
  end.

(** A text with nothing to print: empty, or whitespace only. *)
Fixpoint blank (s : string) : bool :=
  match s with
  | "" => true
  | String c r => isspace c && blank r
  end.

(** The stylized-text generator is unavailable, in world [w], for a text
    and a width: it is not found, or running it raises (a timeout is an
    exception of the run), or it exits with a nonzero code. *)
Definition generator_unavailable (h : Host) (text : string) (max_width : Z)
    (w : world) : Prop :=
  match find_cowsay_command h with
  | None | Some "" => True
  | Some cowsay_cmd =>
      let argv := [cowsay_cmd; "-W"; str_int max_width; unidecode h (demojize h text)] in
      match respond h (trace w) (RunProcess argv) with
      | Some _ => True
      | None => fst (fst (completed_process h (trace w) argv)) <> 0
      end
  end.

(** The states before and after a run that left the files alone and
    only added to the trace. *)
Definition appends (w w' : world) : Prop :=
  files w' = files w /\ exists d, trace w' = (trace w ++ d)%list.

(** The states before and after a run that left the jobs alone. *)
Definition same_jobs (w w' : world) : Prop := jobs w' = jobs w.

(** The states before and after a run that added to the trace only
    entries that satisfy [P]. *)
Definition extends (P : entry -> Prop) (w w' : world) : Prop :=
  exists d, trace w' = (trace w ++ d)%list /\ Forall P d.

(** The entries a banner print may leave: anything but a raw command or
    a text other than a line feed. *)
Definition banner_entry (x : entry) : Prop :=
  match fst x with
  | DevRaw _ _ => False
  | DevText _ s => s = nl
  | _ => True
  end.

(** Every run of [m] relates its initial and final states by [R]. *)
Definition keeps {S A : Type} (R : S -> S -> Prop) (m : M S A) : Prop :=
  forall s r s', m s = (r, s') -> R s s'.

(** A relation on worlds, on the states of a body with a local. *)
Definition framed {L : Type} (R : world -> world -> Prop) : L * world -> L * world -> Prop :=
  fun ls ls' => R (snd ls) (snd ls').


(** An entry that carries no font-scale command. *)
Definition no_scale (x : entry) : Prop := scale_cmd x = None.

(** Every run of [m] sends a prefix of the font-scale commands [cmds],
    and all of them when it returns; [tr] reads the trace of a state. *)
Definition sends {S A : Type} (tr : S -> list entry) (cmds : list (list Z))
    (m : M S A) : Prop :=
  forall s r s',
    m s = (r, s') ->
    exists d,
      tr s' = (tr s ++ d)%list
      /\ scale_cmds d `prefix_of` cmds
      /\ (is_raise r = false -> scale_cmds d = cmds).

(** The trace of the state of a body with a local. *)
Definition frame_trace {L : Type} (ls : L * world) : list entry := trace (snd ls).

(** The size byte the configuration gives a font size (0 when the
    configuration cannot be read as numbers). *)
Definition configured_size_byte (h : Host) (font_size : string) : Z :=
  match get_int h ("fonts." +:+ font_size +:+ ".width") 1,
        get_int h ("fonts." +:+ font_size +:+ ".height") 1 with
  | Ok width, Ok height => size_byte width height
  | _, _ => 0
  end.

(** The font-scale commands of a print at a font size: reset, set,
    reset. *)
Definition reset_set_reset (h : Host) (font_size : string) : list (list Z) :=
  [scale_reset; [29; 33; configured_size_byte h font_size]; scale_reset].

(** A normalized mantissa of a binary64 number: 53 digits. *)
Definition normal (M : positive) : Prop := 2 ^ 52 <= Z.pos M < 2 ^ 53.

(** The calls of a list of entries, without their outcomes. *)
Definition calls (d : list entry) : list call := List.map fst d.

(** The printer a call is made on, for the calls made on one. *)
Definition device_of (c : call) : option printer :=
  match c with
  | DevText p _ | DevRaw p _ | DevImage p _ | DevCut p | DevClose p => Some p
  | _ => None
  end.

(** The call [o] opens the printer [p]. *)
Definition opened (o : call) (p : printer) : Prop :=
  match o, p with
  | UsbOpen v pr, UsbPrinter v' pr' => v = v' /\ pr = pr'
  | FileOpen path, FilePrinter path' => path = path'
  | _, _ => False
  end.

(** An entry that involves no open printer: not a call on a printer,
    and not a transport that opened. *)
Definition off_device (x : entry) : Prop :=
  match x with
  | (UsbOpen _ _, r) | (FileOpen _, r) => r <> None
  | (c, _) => device_of c = None
  end.

(** An entry that may occur while the printer [p] is open: no transport
    is opened, [p] is not closed, and no other printer is used. *)
Definition during (p : printer) (x : entry) : Prop :=
  match fst x with
  | UsbOpen _ _ | FileOpen _ | DevClose _ => False
  | c => match device_of c with
         | Some q => q = p
         | None => True
         end
  end.

(** The calls of a print: either no printer was opened and none was
    used, or one printer was opened, every call on a printer after that
    was on this one, and closing it was the last call. *)
Inductive session : list entry -> Prop :=
| session_none (d : list entry) :
    Forall off_device d -> session d
| session_bracket (pre mid : list entry) (o : call) (p : printer) (r : option exn) :
    Forall off_device pre -> opened o p -> Forall (during p) mid ->
    session (pre ++ (o, None) :: mid ++ [(DevClose p, r)]).

(** What has happened when the body of a print ends, before its
    [finally] clause: the local is unset and no printer was used, or it
    holds the printer that was opened and is still open. *)
Definition open_session (l : option printer) (d : list entry) : Prop :=
  match l with
  | None => Forall off_device d
  | Some p =>
      exists pre o mid,
        d = (pre ++ (o, None) :: mid)%list
        /\ Forall off_device pre /\ opened o p /\ Forall (during p) mid
  end.

(** The height of a text at a font size, as [calculate_font_size]
    measures it. *)
Definition text_height_at (h : Host) (text : string) (size : Z) : Z :=
  let '(_, y0, _, y1) := textbbox h text (find_monospace_font h size) in y1 - y0.

(** The width of a text at a font size. *)
Definition text_width_at (h : Host) (text : string) (size : Z) : Z :=
  let '(x0, _, x1, _) := textbbox h text (find_monospace_font h size) in x1 - x0.

(** A job after the reset of the retry endpoint. *)
Definition reset_job (j : DingJob) : DingJob :=
  set_completed_at None (set_error_message None (set_status "pending" j)).

(** What a run of [process_job] leaves of a job but its outcome. *)
Definition same_request (j j' : DingJob) : Prop :=
  user_id j' = user_id j /\ job_type j' = job_type j
  /\ content_type j' = content_type j /\ text_content j' = text_content j
  /\ image_path j' = image_path j /\ font_size j' = font_size j
  /\ created_at j' = created_at j.

(** [n] entries of a call that returned. *)
Definition returned (n : Z) (c : call) : list entry :=
  replicate (Z.to_nat n) (c, None).

(** * Properties *)

(** ** Running computations *)

Lemma bind_run {S A B : Type} (m : M S A) (f : A -> M S B) (s : S) :
  bind m f s = match m s with
               | (Ok a, s') => f a s'
               | (Raise e, s') => (Raise e, s')
               end.
Proof. reflexivity. Qed.

Lemma bind_ok {S A B : Type} (m : M S A) (f : A -> M S B) (s s1 : S) (a : A) :
  m s = (Ok a, s1) -> bind m f s = f a s1.
Proof. intros E. unfold bind. now rewrite E. Qed.

Lemma bind_raise {S A B : Type} (m : M S A) (f : A -> M S B) (s s1 : S) (e : exn) :
  m s = (Raise e, s1) -> bind m f s = (Raise e, s1).
Proof. intros E. unfold bind. now rewrite E. Qed.

Lemma bind_ok_inv {S A B : Type} (m : M S A) (f : A -> M S B) (s s' : S) (b : B) :
  bind m f s = (Ok b, s') ->
  exists a s1, m s = (Ok a, s1) /\ f a s1 = (Ok b, s').
Proof.
  unfold bind. destruct (m s) as [[a | e] s1]; intros E.
  - now exists a, s1.
  - discriminate.
Qed.

Lemma perform_ok (h : Host) (c : call) (w : world) :
  respond h (trace w) c = None -> perform h c w = (Ok tt, log (c, None) w).
Proof. intros E. unfold perform. now rewrite E. Qed.

Lemma perform_raise (h : Host) (c : call) (w : world) (e : exn) :
  respond h (trace w) c = Some e -> perform h c w = (Raise e, log (c, Some e) w).
Proof. intros E. unfold perform. now rewrite E. Qed.

Lemma perform_ok_inv (h : Host) (c : call) (w w' : world) (u : unit) :
  perform h c w = (Ok u, w') ->
  respond h (trace w) c = None /\ w' = log (c, None) w.
Proof.
  unfold perform. destruct (respond h (trace w) c); intros E.
  - discriminate.
  - now inversion E.
Qed.

Lemma lift_result_ok_inv {S A : Type} (r : result A) (s s' : S) (a : A) :
  lift_result r s = (Ok a, s') -> r = Ok a /\ s' = s.
Proof. unfold lift_result. intros E. now inversion E. Qed.

(** ** The font-scale size byte *)

Lemma land_shiftl_low (a c : Z) :
  0 <= c < 16 -> Z.land (Z.shiftl a 4) c = 0.
Proof.
  intros Hc. apply Z.bits_inj'. intros n Hn.
  rewrite Z.land_spec, Z.bits_0.
  destruct (Z.lt_ge_cases n 4) as [Hlt | Hge].
  - rewrite Z.shiftl_spec_low by assumption. reflexivity.
  - assert (Z.testbit c n = false) as ->.
    { destruct (Z.eq_dec c 0) as [-> | Hnz]; [apply Z.bits_0 |].
      apply Z.bits_above_log2; [lia |].
      assert (Z.log2 c < 4) by (apply Z.log2_lt_pow2; simpl; lia). lia. }
    apply andb_false_r.
Qed.

Lemma size_byte_sum (width height : Z) :
  1 <= height <= 16 ->
  size_byte width height = 16 * (width - 1) + (height - 1).
Proof.
  intros Hh. unfold size_byte.
  pose proof (Z.add_lor_land (Z.shiftl (width - 1) 4) (height - 1)) as E.
  rewrite land_shiftl_low in E by lia.
  rewrite Z.shiftl_mul_pow2 in * by lia.
  change (2 ^ 4) with 16 in *. lia.
Qed.

(** C4. For width and height multipliers between 1 and 8, the size byte of
    the font-scale command is one byte that carries width-1 in bits 4 to 6
    and height-1 in bits 0 to 2 (bits 3 and 7 are clear), and it is the
    byte the adapter sends after the command prefix. *)
Theorem size_byte_layout (h : Host) (p : printer) (font_size : string)
    (width height : Z) (w : world) :
  get_int h ("fonts." +:+ font_size +:+ ".width") 1 = Ok width ->
  get_int h ("fonts." +:+ font_size +:+ ".height") 1 = Ok height ->
  1 <= width <= 8 ->
  1 <= height <= 8 ->
  let b := size_byte width height in
  0 <= b < 256
  /\ Z.land (Z.shiftr b 4) 7 = width - 1
  /\ Z.land b 7 = height - 1
  /\ Z.testbit b 3 = false
  /\ Z.testbit b 7 = false
  /\ (respond h (trace w) (DevRaw p scale_reset) = None ->
      respond h (trace w ++ [(DevRaw p scale_reset, None)]) (DevRaw p [29; 33; b]) = None ->
      _set_font_size h p font_size w
      = (Ok tt, log (DevRaw p [29; 33; b], None) (log (DevRaw p scale_reset, None) w))).
Proof.
  intros Hw Hh Wr Hr b.
  assert (Eb : b = 16 * (width - 1) + (height - 1))
    by (apply size_byte_sum; lia).
  assert (Rb : 0 <= b < 256) by lia.
  split; [exact Rb |].
  split.
  { rewrite Z.shiftr_div_pow2 by lia. change 7 with (Z.ones 3).
    rewrite Z.land_ones by lia. change (2 ^ 4) with 16. change (2 ^ 3) with 8.
    replace (b / 16) with (width - 1)
      by (rewrite Eb; apply Z.div_unique with (r := height - 1); lia).
    apply Z.mod_small. lia. }
  split.
  { change 7 with (Z.ones 3). rewrite Z.land_ones by lia. change (2 ^ 3) with 8.
    symmetry. apply Z.mod_unique with (q := 2 * (width - 1)); lia. }
  split.
  { rewrite Z.testbit_eqb by lia. change (2 ^ 3) with 8.
    replace (b / 8) with (2 * (width - 1))
      by (rewrite Eb; apply Z.div_unique with (r := height - 1); lia).
    rewrite Z.mul_comm, Z.mod_mul by lia. reflexivity. }
  split.
  { rewrite Z.testbit_eqb by lia. change (2 ^ 7) with 128.
    rewrite Z.div_small by lia. reflexivity. }
  intros R1 R2. unfold _set_font_size.
  rewrite (bind_ok _ _ w w width) by (unfold lift_result; now rewrite Hw).
  rewrite (bind_ok _ _ w w height) by (unfold lift_result; now rewrite Hh).
  rewrite (bind_ok _ _ _ _ tt (perform_ok h _ w R1)).
  fold b. unfold bytes1.
  assert ((0 <=? b) && (b <? 256) = true) as Hb
    by (apply andb_true_intro; split; [apply Z.leb_le | apply Z.ltb_lt]; lia).
  rewrite (bind_ok _ _ _ _ [b]) by (unfold lift_result; now rewrite Hb).
  apply perform_ok. exact R2.
Qed.

(** The sample host at its medium font: both multipliers are 2, the size
    byte is 17. *)
Lemma size_byte_layout_witness :
  let b := size_byte 2 2 in
  0 <= b < 256
  /\ Z.land (Z.shiftr b 4) 7 = 2 - 1
  /\ Z.land b 7 = 2 - 1
  /\ Z.testbit b 3 = false
  /\ Z.testbit b 7 = false
  /\ (respond Sample.quiet (trace Sample.empty_world)
        (DevRaw (FilePrinter "/dev/usb/lp0") scale_reset) = None ->
      respond Sample.quiet
        (trace Sample.empty_world ++ [(DevRaw (FilePrinter "/dev/usb/lp0") scale_reset, None)])
        (DevRaw (FilePrinter "/dev/usb/lp0") [29; 33; b]) = None ->
      _set_font_size Sample.quiet (FilePrinter "/dev/usb/lp0") "medium" Sample.empty_world
      = (Ok tt,
         log (DevRaw (FilePrinter "/dev/usb/lp0") [29; 33; b], None)
           (log (DevRaw (FilePrinter "/dev/usb/lp0") scale_reset, None) Sample.empty_world))).
Proof.
  apply (size_byte_layout Sample.quiet (FilePrinter "/dev/usb/lp0") "medium" 2 2
           Sample.empty_world).
  - reflexivity.
  - reflexivity.
  - lia.
  - lia.
Defined.

(** ** Relations every run keeps *)

Section Keeps.

Context {S : Type} (R : S -> S -> Prop) `{!PreOrder R}.

Lemma keeps_ret {A : Type} (a : A) : keeps R (ret a).
Proof. intros s r s' E. inversion E. reflexivity. Qed.

Lemma keeps_raise {A : Type} (e : exn) : keeps R (raise (A := A) e).
Proof. intros s r s' E. inversion E. reflexivity. Qed.

Lemma keeps_lift_result {A : Type} (x : result A) : keeps R (lift_result x).
Proof. intros s r s' E. inversion E. reflexivity. Qed.

Lemma keeps_bind {A B : Type} (m : M S A) (f : A -> M S B) :
  keeps R m -> (forall a, keeps R (f a)) -> keeps R (bind m f).
Proof.
  intros Hm Hf s r s'. unfold bind.
  destruct (m s) as [[a | e] s1] eqn:E; intros E'.
  - transitivity s1; [exact (Hm _ _ _ E) | exact (Hf a _ _ _ E')].
  - inversion E'; subst. exact (Hm _ _ _ E).
Qed.

Lemma keeps_try_except {A : Type} (m : M S A) (handler : exn -> M S A) :
  keeps R m -> (forall e, keeps R (handler e)) -> keeps R (try_except m handler).
Proof.
  intros Hm Hh s r s'. unfold try_except.
  destruct (m s) as [[a | e] s1] eqn:E; intros E'.
  - inversion E'; subst. exact (Hm _ _ _ E).
  - transitivity s1; [exact (Hm _ _ _ E) | exact (Hh e _ _ _ E')].
Qed.

Lemma keeps_try_finally {A : Type} (m : M S A) (fin : M S unit) :
  keeps R m -> keeps R fin -> keeps R (try_finally m fin).
Proof.
  intros Hm Hf s r s'. unfold try_finally.
  destruct (m s) as [r1 s1] eqn:E.
  destruct (fin s1) as [[u | e] s2] eqn:E2; intros E'; inversion E'; subst;
    (transitivity s1; [exact (Hm _ _ _ E) | exact (Hf _ _ _ E2)]).
Qed.

Lemma keeps_repeat (n : nat) (m : M S unit) :
  keeps R m -> keeps R (repeat_ n m).
Proof.
  intros Hm. induction n as [| n IH]; simpl.
  - apply keeps_ret.
  - apply keeps_bind; [exact Hm | intros _; exact IH].
Qed.

Lemma keeps_if {A : Type} (b : bool) (m1 m2 : M S A) :
  keeps R m1 -> keeps R m2 -> keeps R (if b then m1 else m2).
Proof. destruct b; auto. Qed.

End Keeps.

#[local] Instance framed_preorder {L : Type} (R : world -> world -> Prop) :
  PreOrder R -> PreOrder (framed (L := L) R).
Proof.
  intros HR. split.
  - intros ls. unfold framed. reflexivity.
  - intros a b c Hab Hbc. unfold framed in *. etransitivity; eassumption.
Qed.

Lemma keeps_lift {L A : Type} (R : world -> world -> Prop) (m : M world A) :
  keeps R m -> keeps (framed (L := L) R) (lift m).
Proof.
  intros Hm [l s] r [l' s']. unfold lift, framed. simpl.
  destruct (m s) as [r1 s1] eqn:E. intros E'. inversion E'; subst.
  exact (Hm _ _ _ E).
Qed.

Lemma keeps_get_local {L : Type} (R : world -> world -> Prop) `{!PreOrder R} :
  keeps (framed R) (get_local (L := L) (S := world)).
Proof. intros ls r ls' E. inversion E. unfold framed. reflexivity. Qed.

Lemma keeps_set_local {L : Type} (R : world -> world -> Prop) `{!PreOrder R} (l : L) :
  keeps (framed R) (set_local (S := world) l).
Proof. intros ls r ls' E. inversion E. unfold framed. reflexivity. Qed.

Lemma keeps_with_local {L A : Type} (R : world -> world -> Prop)
    (init : L) (m : M (L * world) A) :
  keeps (framed R) m -> keeps R (with_local init m).
Proof.
  intros Hm s r s'. unfold with_local.
  destruct (m (init, s)) as [r1 ls] eqn:E. intros E'. inversion E'; subst.
  exact (Hm _ _ _ E).
Qed.

#[local] Instance same_jobs_preorder : PreOrder same_jobs.
Proof.
  split.
  - intros w. reflexivity.
  - intros a b c Hab Hbc. unfold same_jobs in *. congruence.
Qed.

#[local] Instance extends_preorder (P : entry -> Prop) : PreOrder (extends P).
Proof.
  split.
  - intros w. exists []. split; [now rewrite app_nil_r | constructor].
  - intros a b c [d1 [E1 F1]] [d2 [E2 F2]]. exists (d1 ++ d2)%list. split.
    + rewrite E2, E1. now rewrite <- app_assoc.
    + apply Forall_app. now split.
Qed.

(** The primitive steps keep both relations. *)

Lemma perform_same_jobs (h : Host) (c : call) : keeps same_jobs (perform h c).
Proof.
  intros w r w'. unfold perform.
  destruct (respond h (trace w) c); intros E; inversion E; reflexivity.
Qed.

#[local] Instance appends_preorder : PreOrder appends.
Proof.
  split.
  - intros w. split; [reflexivity |]. exists []. now rewrite app_nil_r.
  - intros a b c [Fab [d1 Tab]] [Fbc [d2 Tbc]]. split; [congruence |].
    exists (d1 ++ d2)%list. rewrite Tbc, Tab. now rewrite <- app_assoc.
Qed.

Lemma perform_appends (h : Host) (c : call) : keeps appends (perform h c).
Proof.
  intros w r w'. unfold perform.
  destruct (respond h (trace w) c); intros E; inversion E; subst;
    (split; [reflexivity | eexists; reflexivity]).
Qed.

Lemma perform_extends (h : Host) (P : entry -> Prop) (c : call) :
  (forall r, P (c, r)) -> keeps (extends P) (perform h c).
Proof.
  intros HP w r w'. unfold perform.
  destruct (respond h (trace w) c) as [e |]; intros E; inversion E; subst;
    eexists; (split; [reflexivity | repeat constructor; apply HP]).
Qed.

Lemma silent_same_jobs {A : Type} (f : world -> result A) (g : world -> gmap string image) :
  keeps same_jobs (fun w => (f w, set_files (g w) w)).
Proof. intros w r w' E. inversion E. reflexivity. Qed.

Lemma silent_extends {A : Type} (P : entry -> Prop)
    (f : world -> result A) (g : world -> gmap string image) :
  keeps (extends P) (fun w => (f w, set_files (g w) w)).
Proof.
  intros w r w' E. inversion E. exists []. simpl.
  split; [now rewrite app_nil_r | constructor].
Qed.

Lemma reading_keeps {A : Type} (R : world -> world -> Prop) `{!PreOrder R}
    (f : world -> result A) :
  keeps R (fun w => (f w, w)).
Proof. intros w r w' E. inversion E. reflexivity. Qed.

Lemma image_open_body_keeps (R : world -> world -> Prop) `{!PreOrder R} (path : string) :
  keeps R (fun w : world =>
             match files w !! path with
             | Some img => (Ok img, w)
             | None =>
                 (Raise (Exn "FileNotFoundError"
                           ("[Errno 2] No such file or directory: '" +:+ path +:+ "'")), w)
             end).
Proof.
  intros w r w'. destruct (files w !! path); intros E; inversion E; reflexivity.
Qed.

Lemma subprocess_run_same_jobs (h : Host) (argv : list string) :
  keeps same_jobs (subprocess_run h argv).
Proof.
  intros w r w'. unfold subprocess_run.
  destruct (perform h (RunProcess argv) w) as [[u | e] w1] eqn:E;
    intros E'; inversion E'; subst; exact (perform_same_jobs _ _ _ _ _ E).
Qed.

Lemma subprocess_run_extends (h : Host) (P : entry -> Prop) (argv : list string) :
  (forall r, P (RunProcess argv, r)) -> keeps (extends P) (subprocess_run h argv).
Proof.
  intros HP w r w'. unfold subprocess_run.
  destruct (perform h (RunProcess argv) w) as [[u | e] w1] eqn:E;
    intros E'; inversion E'; subst; exact (perform_extends _ _ _ HP _ _ _ E).
Qed.

(** One step of the search for a proof that a service keeps a relation. *)
Ltac keeps_step :=
  match goal with
  | |- PreOrder _ => exact _
  | |- forall _, _ => intros ?
  | |- keeps _ (ret _) => apply keeps_ret
  | |- keeps _ (raise _) => apply keeps_raise
  | |- keeps _ (lift_result _) => apply keeps_lift_result
  | |- keeps _ (bind _ _) => apply keeps_bind
  | |- keeps _ (try_except _ _) => apply keeps_try_except
  | |- keeps _ (try_finally _ _) => apply keeps_try_finally
  | |- keeps _ (repeat_ _ _) => apply keeps_repeat
  | |- keeps _ (lift _) => apply keeps_lift
  | |- keeps _ get_local => apply keeps_get_local
  | |- keeps _ (set_local _) => apply keeps_set_local
  | |- keeps _ (with_local _ _) => apply keeps_with_local
  | |- keeps same_jobs (perform _ _) => apply perform_same_jobs
  | |- keeps appends (perform _ _) => apply perform_appends
  | |- keeps (extends _) (perform _ _) => apply perform_extends
  | |- keeps same_jobs (subprocess_run _ _) => apply subprocess_run_same_jobs
  | |- keeps same_jobs (fun w => (_, set_files _ w)) =>
      apply (silent_same_jobs (fun _ => _) (fun w => _))
  | |- keeps (extends _) (fun w => (_, set_files _ w)) =>
      apply (silent_extends _ (fun _ => _) (fun w => _))
  | |- keeps _ (fun w => match files w !! _ with _ => _ end) =>
      apply image_open_body_keeps
  | |- keeps _ (match ?x with _ => _ end) => destruct x
  | |- keeps _ (let '(_, _) := ?x in _) => destruct x
  | |- keeps (extends _) (subprocess_run _ _) => apply subprocess_run_extends
  | |- banner_entry _ => solve [unfold banner_entry; simpl; auto]
  | |- no_scale _ => solve [reflexivity]
  end.

Ltac keeps_auto := repeat keeps_step.

Lemma connect_same_jobs (h : Host) : keeps same_jobs (_connect_printer h).
Proof. unfold _connect_printer, connect_usb, connect_file. keeps_auto. Qed.

Lemma close_same_jobs (h : Host) (p : option printer) : keeps same_jobs (_close_printer h p).
Proof. unfold _close_printer. keeps_auto. Qed.

Lemma feed_and_cut_same_jobs (h : Host) (p : printer) : keeps same_jobs (_feed_and_cut h p).
Proof. unfold _feed_and_cut. keeps_auto. Qed.

Lemma set_font_size_same_jobs (h : Host) (p : printer) (fs : string) :
  keeps same_jobs (_set_font_size h p fs).
Proof. unfold _set_font_size. keeps_auto. Qed.

Lemma prepare_same_jobs (h : Host) (text : option string) (mw : Z) (b : bool) :
  keeps same_jobs (prepare_text_for_print h text mw b).
Proof. unfold prepare_text_for_print, generate_cowsay. keeps_auto. Qed.

Lemma render_same_jobs (h : Host) (text : option string) (path : string) (dots : Z) :
  keeps same_jobs (render_text_banner h text path dots).
Proof. unfold render_text_banner, image_save. keeps_auto. Qed.

Lemma process_image_same_jobs (h : Host) (src dst : string) (mw : Z) (r b : bool) :
  keeps same_jobs (process_image h src dst mw r b).
Proof. unfold process_image, image_open, image_save. keeps_auto. Qed.

Lemma print_text_banner_same_jobs (h : Host) (job_id : Z) (text : option string) :
  keeps same_jobs (_print_text_banner h job_id text).
Proof.
  pose proof (render_same_jobs h). pose proof (connect_same_jobs h).
  pose proof (close_same_jobs h). pose proof (feed_and_cut_same_jobs h).
  unfold _print_text_banner, image_open, image_save, unlink.
  keeps_auto; auto.
Qed.

Lemma print_text_same_jobs (h : Host) (job_id : Z) (text : option string)
    (fs : string) (b : bool) :
  keeps same_jobs (print_text h job_id text fs b).
Proof.
  pose proof (print_text_banner_same_jobs h). pose proof (connect_same_jobs h).
  pose proof (close_same_jobs h). pose proof (feed_and_cut_same_jobs h).
  pose proof (set_font_size_same_jobs h). pose proof (prepare_same_jobs h).
  unfold print_text, _reset_font_size.
  keeps_auto; auto.
Qed.

Lemma print_image_same_jobs (h : Host) (job_id : Z) (path caption : option string)
    (fs : string) (b : bool) :
  keeps same_jobs (print_image h job_id path caption fs b).
Proof.
  pose proof (process_image_same_jobs h). pose proof (connect_same_jobs h).
  pose proof (close_same_jobs h). pose proof (feed_and_cut_same_jobs h).
  pose proof (set_font_size_same_jobs h). pose proof (prepare_same_jobs h).
  unfold print_image, _reset_font_size.
  keeps_auto; auto.
Qed.

Lemma dispatch_same_jobs (h : Host) (job_id : Z) (job : DingJob) :
  keeps same_jobs (dispatch h job_id job).
Proof.
  unfold dispatch.
  repeat match goal with
         | |- keeps _ (if ?b then _ else _) => destruct b
         end;
    first [ apply print_text_same_jobs | apply print_image_same_jobs
          | apply keeps_ret; exact _ ].
Qed.

(** ** A guarded body: what a print operation can raise *)

Lemma close_printer_returns (h : Host) (p : option printer) (w : world) :
  exists w', _close_printer h p w = (Ok tt, w').
Proof.
  unfold _close_printer, try_except. destruct p as [p |].
  - unfold perform. destruct (respond h (trace w) (DevClose p)); eexists; reflexivity.
  - eexists; reflexivity.
Qed.

Lemma close_local_returns (h : Host) (ls : option printer * world) :
  exists ls', (p <- get_local ;; lift (_close_printer h p)) ls = (Ok tt, ls').
Proof.
  destruct ls as [l w]. unfold bind, get_local, lift. simpl.
  destruct (close_printer_returns h l w) as [w' ->]. eexists; reflexivity.
Qed.

(** A body run under [except Exception as e: raise wrap(e)] and a
    [finally] clause that returns raises nothing but wrapped errors. *)
Lemma guarded_raise {L A : Type} (init : L) (body : M (L * world) A)
    (wrap : exn -> exn) (fin : M (L * world) unit) (w w' : world) (e : exn) :
  (forall ls, exists ls', fin ls = (Ok tt, ls')) ->
  with_local init (try_finally (try_except body (fun e0 => raise (wrap e0))) fin) w
  = (Raise e, w') ->
  exists e0, e = wrap e0.
Proof.
  intros Hfin. unfold with_local, try_finally, try_except, raise.
  destruct (body (init, w)) as [[a | e0] ls1].
  - destruct (Hfin ls1) as [ls2 ->]. discriminate.
  - destruct (Hfin ls1) as [ls2 ->]. intros E. inversion E. now exists e0.
Qed.

Lemma print_text_raises (h : Host) (job_id : Z) (text : option string) (fs : string)
    (b : bool) (w w' : world) (e : exn) :
  print_text h job_id text fs b w = (Raise e, w') ->
  exists e0, e = Exn "Exception" ("Error printing text: " +:+ str_exn e0).
Proof. apply guarded_raise. apply close_local_returns. Qed.

Lemma print_image_raises (h : Host) (job_id : Z) (path caption : option string)
    (fs : string) (b : bool) (w w' : world) (e : exn) :
  print_image h job_id path caption fs b w = (Raise e, w') ->
  exists e0, e = Exn "Exception" ("Error printing image: " +:+ str_exn e0).
Proof. apply guarded_raise. apply close_local_returns. Qed.

Lemma dispatch_raises (h : Host) (job_id : Z) (job : DingJob) (w w' : world) (e : exn) :
  dispatch h job_id job w = (Raise e, w') ->
  exists cause,
    str_exn e = "Error printing text: " +:+ cause
    \/ str_exn e = "Error printing image: " +:+ cause.
Proof.
  unfold dispatch.
  destruct (String.eqb (job_type job) "text").
  { intros E. destruct (print_text_raises _ _ _ _ _ _ _ _ E) as [e0 ->].
    exists (str_exn e0). now left. }
  destruct (String.eqb (job_type job) "image").
  { intros E. destruct (print_image_raises _ _ _ _ _ _ _ _ _ E) as [e0 ->].
    exists (str_exn e0). now right. }
  destruct (String.eqb (job_type job) "text_with_image").
  { intros E. destruct (print_image_raises _ _ _ _ _ _ _ _ _ E) as [e0 ->].
    exists (str_exn e0). now right. }
  discriminate.
Qed.

(** ** The orchestrator *)

(** [process_job] always returns: whatever the body raises is handled. *)
Lemma process_job_returns (h : Host) (job_id : Z) (w : world) :
  fst (process_job h job_id w) = Ok tt.
Proof.
  unfold process_job, try_finally, try_except, bind, query_job, update_job, now, raise, ret.
  destruct (jobs w !! job_id) as [job |] eqn:Ej.
  - destruct (dispatch h job_id job _) as [[[] | e] w1]; simpl.
    + reflexivity.
    + destruct (jobs w1 !! job_id); reflexivity.
  - rewrite Ej. reflexivity.
Qed.

(** C2. When the print of a stored job raises, during rendering or
    device emission, [process_job] returns normally and leaves the job
    failed, its error message the text of the exception (a message that
    says which print failed and why), its completion time set; and no
    run of [process_job] lets an exception out. *)
Theorem process_job_failure (h : Host) (job_id : Z) (job : DingJob)
    (w w1 : world) (e : exn) :
  jobs w !! job_id = Some job ->
  dispatch h job_id job
    (set_jobs (alter (set_status "processing") job_id (jobs w)) w) = (Raise e, w1) ->
  (exists w',
      process_job h job_id w = (Ok tt, w')
      /\ trace w' = trace w1
      /\ exists job',
           jobs w' !! job_id = Some job'
           /\ status job' = "failed"
           /\ error_message job' = Some (str_exn e)
           /\ completed_at job' = Some (utcnow h (trace w1)))
  /\ (exists cause,
         str_exn e = "Error printing text: " +:+ cause
         \/ str_exn e = "Error printing image: " +:+ cause)
  /\ (forall w0, fst (process_job h job_id w0) = Ok tt).
Proof.
  intros Hjob Hrun. split; [| split].
  - pose proof (dispatch_same_jobs h job_id job _ _ _ Hrun) as Hsame.
    unfold same_jobs in Hsame. simpl in Hsame.
    assert (Hq : jobs w1 !! job_id = Some (set_status "processing" job)).
    { rewrite Hsame, lookup_alter_eq, Hjob. reflexivity. }
    unfold process_job, try_finally, try_except, bind, query_job, update_job, now, ret.
    rewrite Hjob, Hrun, Hq. eexists. split; [reflexivity |].
    split; [reflexivity |]. simpl.
    eexists. rewrite lookup_alter_eq, Hq. simpl.
    split; [reflexivity |]. repeat split.
  - exact (dispatch_raises _ _ _ _ _ _ Hrun).
  - intros w0. apply process_job_returns.
Qed.

(** Job 7 on the host without a printer. *)
Lemma process_job_failure_witness :
  (exists w',
      process_job Sample.offline 7 (Sample.world_with 7 Sample.hi_job) = (Ok tt, w')
      /\ trace w' = trace Sample.offline_world
      /\ exists job',
           jobs w' !! 7 = Some job'
           /\ status job' = "failed"
           /\ error_message job' = Some (str_exn Sample.offline_error)
           /\ completed_at job' = Some (utcnow Sample.offline (trace Sample.offline_world)))
  /\ (exists cause,
         str_exn Sample.offline_error = "Error printing text: " +:+ cause
         \/ str_exn Sample.offline_error = "Error printing image: " +:+ cause)
  /\ (forall w0, fst (process_job Sample.offline 7 w0) = Ok tt).
Proof.
  apply (process_job_failure Sample.offline 7 Sample.hi_job
           (Sample.world_with 7 Sample.hi_job) Sample.offline_world Sample.offline_error).
  - reflexivity.
  - vm_compute. reflexivity.
Defined.

(** C10. For a job id that matches no stored job, [process_job] returns
    normally and changes nothing: no job record is touched, and no call
    is made. *)
Theorem process_job_unknown (h : Host) (job_id : Z) (w : world) :
  jobs w !! job_id = None ->
  process_job h job_id w = (Ok tt, w)
  /\ forall id, jobs (snd (process_job h job_id w)) !! id = jobs w !! id.
Proof.
  intros Hjob.
  assert (E : process_job h job_id w = (Ok tt, w)).
  { unfold process_job, try_finally, try_except, bind, query_job, raise, ret.
    rewrite Hjob. rewrite Hjob. reflexivity. }
  split; [exact E |]. intros id. now rewrite E.
Qed.

(** Job 8 in a store that holds job 7 only. *)
Lemma process_job_unknown_witness :
  process_job Sample.quiet 8 (Sample.world_with 7 Sample.hi_job)
  = (Ok tt, Sample.world_with 7 Sample.hi_job)
  /\ forall id,
       jobs (snd (process_job Sample.quiet 8 (Sample.world_with 7 Sample.hi_job))) !! id
       = jobs (Sample.world_with 7 Sample.hi_job) !! id.
Proof.
  apply (process_job_unknown Sample.quiet 8 (Sample.world_with 7 Sample.hi_job)).
  reflexivity.
Defined.

(** ** Connecting to the device *)


(** ** Stripping a text *)

Lemma lstrip_blank (s : string) : blank s = true -> lstrip s = "".
Proof.
  induction s as [| c r IH]; simpl; [reflexivity |].
  destruct (isspace c); simpl; [exact IH | discriminate].
Qed.

Lemma lstrip_not_blank (s : string) :
  blank s = false -> exists c r, lstrip s = String c r /\ isspace c = false.
Proof.
  induction s as [| c r IH]; simpl; [discriminate |].
  destruct (isspace c) eqn:Ec; simpl.
  - exact IH.
  - intros _. now exists c, r.
Qed.

Lemma append_cons (c : ascii) (s t : string) : String c s +:+ t = String c (s +:+ t).
Proof. reflexivity. Qed.

Lemma append_snoc_assoc (t : string) (a : ascii) (acc : string) :
  t +:+ String a acc = (t +:+ String a "") +:+ acc.
Proof.
  induction t as [| b t IHt]; [reflexivity |].
  rewrite !append_cons. now rewrite IHt.
Qed.

Lemma rev_app_snoc (s acc : string) :
  String.rev_app s acc = String.rev_app s "" +:+ acc.
Proof.
  revert acc. induction s as [| a s IH]; intros acc; simpl; [reflexivity |].
  rewrite (IH (String a acc)), (IH (String a "")).
  apply append_snoc_assoc.
Qed.

Lemma is_empty_snoc (s : string) (c : ascii) : is_empty (s +:+ String c "") = false.
Proof. destruct s; reflexivity. Qed.

Lemma is_empty_rev (s : string) : is_empty (String.rev s) = is_empty s.
Proof.
  destruct s as [| a s]; [reflexivity |].
  unfold String.rev. simpl. rewrite rev_app_snoc. apply is_empty_snoc.
Qed.

Lemma lstrip_snoc (s : string) (c : ascii) :
  isspace c = false -> is_empty (lstrip (s +:+ String c "")) = false.
Proof.
  intros Hc. induction s as [| a s IH].
  - simpl. now rewrite Hc.
  - rewrite append_cons. simpl. destruct (isspace a); [exact IH | reflexivity].
Qed.

(** [not text.strip()] holds exactly of the blank texts. *)
Lemma strip_empty_blank (s : string) : is_empty (strip s) = blank s.
Proof.
  unfold strip, rstrip. rewrite is_empty_rev.
  destruct (blank s) eqn:Hb.
  - now rewrite (lstrip_blank s Hb).
  - destruct (lstrip_not_blank s Hb) as [c [r [-> Hc]]].
    unfold String.rev. simpl. rewrite rev_app_snoc. now apply lstrip_snoc.
Qed.

(** ** The banner renderer *)





(** ** The text preparer *)

Lemma wrap_paragraphs_returns (h : Host) (paragraphs : list string) (max_width : Z) :
  0 < max_width -> exists lines, wrap_paragraphs h paragraphs max_width = Ok lines.
Proof.
  intros Hw. induction paragraphs as [| p ps [lines IH]]; simpl.
  - now exists [].
  - unfold textwrap_fill.
    assert ((max_width <=? 0) = false) as -> by (apply Z.leb_gt; lia).
    rewrite IH. destruct (is_empty (strip p)); eexists; reflexivity.
Qed.

Lemma generate_cowsay_unavailable (h : Host) (text : string) (max_width : Z) (w : world) :
  generator_unavailable h text max_width w ->
  fst (generate_cowsay h (Some text) max_width w) = Ok None.
Proof.
  unfold generator_unavailable, generate_cowsay, try_except.
  destruct (find_cowsay_command h) as [[| c cmd] |]; simpl; try reflexivity.
  unfold bind, lift_result, subprocess_run, perform, ret. simpl.
  destruct (respond h (trace w) _) as [e |]; simpl; [reflexivity |].
  destruct (completed_process h (trace w) _) as [[returncode stdout] stderr]. simpl.
  intros Hcode. destruct (returncode =? 0) eqn:E; [| reflexivity].
  apply Z.eqb_eq in E. contradiction.
Qed.

(** C8, as the code has it. When the generator is unavailable, the
    stylized preparation of a text has the outcome of the plain one: the
    same string whenever the plain one returns a string, which it does
    for every width of at least 1. Nothing the generator raises reaches
    the caller. *)
Theorem stylized_falls_back_to_plain (h : Host) (text : string) (max_width : Z)
    (w : world) :
  generator_unavailable h text max_width w ->
  fst (prepare_text_for_print h (Some text) max_width true w)
  = fst (prepare_text_for_print h (Some text) max_width false w)
  /\ (0 < max_width ->
      exists prepared,
        fst (prepare_text_for_print h (Some text) max_width true w) = Ok prepared
        /\ fst (prepare_text_for_print h (Some text) max_width false w) = Ok prepared).
Proof.
  intros Hun.
  assert (E : fst (prepare_text_for_print h (Some text) max_width true w)
              = fst (prepare_text_for_print h (Some text) max_width false w)).
  { pose proof (generate_cowsay_unavailable h text max_width w Hun) as Hg.
    unfold prepare_text_for_print at 1. unfold bind.
    destruct (generate_cowsay h (Some text) max_width w) as [r w1].
    simpl in Hg. subst r. simpl.
    unfold prepare_text_for_print, bind, lift_result. simpl.
    destruct (wrap_text_for_printer h _ max_width); reflexivity. }
  split; [exact E |].
  intros Hw. rewrite E.
  unfold prepare_text_for_print, bind, lift_result, wrap_text_for_printer. simpl.
  destruct (wrap_paragraphs_returns h (split_lines (unidecode h (demojize h text)))
              max_width Hw) as [lines ->].
  eexists. split; reflexivity.
Qed.

(** On the sample host, where no generator is installed. *)
Lemma stylized_falls_back_to_plain_witness :
  fst (prepare_text_for_print Sample.quiet (Some "hi there") 16 true Sample.empty_world)
  = fst (prepare_text_for_print Sample.quiet (Some "hi there") 16 false Sample.empty_world)
  /\ (0 < 16 ->
      exists prepared,
        fst (prepare_text_for_print Sample.quiet (Some "hi there") 16 true Sample.empty_world)
        = Ok prepared
        /\ fst (prepare_text_for_print Sample.quiet (Some "hi there") 16 false Sample.empty_world)
           = Ok prepared).
Proof.
  apply (stylized_falls_back_to_plain Sample.quiet "hi there" 16 Sample.empty_world).
  vm_compute. exact I.
Defined.

(** C8, as stated, fails at a width of 0: the generator is unavailable,
    and the error of the wrapper reaches the caller of the stylized
    preparation (as it does that of the plain one). *)
Lemma stylized_width_counterexample :
  generator_unavailable Sample.quiet "a" 0 Sample.empty_world
  /\ fst (prepare_text_for_print Sample.quiet (Some "a") 0 true Sample.empty_world)
     = Raise (Exn "ValueError" "invalid width 0 (must be > 0)")
  /\ forall prepared,
       fst (prepare_text_for_print Sample.quiet (Some "a") 0 true Sample.empty_world)
       <> Ok prepared.
Proof.
  split; [exact I |]. split; [reflexivity | discriminate].
Qed.

(** ** The font-scale commands of a print *)

Lemma scale_cmds_app (d1 d2 : list entry) :
  scale_cmds (d1 ++ d2) = (scale_cmds d1 ++ scale_cmds d2)%list.
Proof. unfold scale_cmds. apply omap_app. Qed.

Lemma scale_cmds_none (d : list entry) : Forall no_scale d -> scale_cmds d = [].
Proof.
  induction 1 as [| x d Hx _ IH]; [reflexivity |].
  unfold scale_cmds in *. simpl. unfold no_scale in Hx. now rewrite Hx.
Qed.

Lemma delta_app (w w' : world) (d : list entry) :
  trace w' = (trace w ++ d)%list -> delta w w' = d.
Proof. intros E. unfold delta. rewrite E. apply drop_app_length. Qed.

Section Sends.

Context {S : Type} (tr : S -> list entry).

Lemma sends_raise {A : Type} (cmds : list (list Z)) (e : exn) :
  sends tr cmds (raise (A := A) e).
Proof.
  intros s r s' E. inversion E; subst. exists []. rewrite app_nil_r.
  split; [reflexivity |]. split; [apply prefix_nil | discriminate].
Qed.

Lemma sends_bind {A B : Type} (c1 c2 : list (list Z)) (m : M S A) (f : A -> M S B) :
  sends tr c1 m -> (forall a, sends tr c2 (f a)) -> sends tr (c1 ++ c2) (bind m f).
Proof.
  intros Hm Hf s r s'. unfold bind.
  destruct (m s) as [[a | e] s1] eqn:E; intros E'.
  - destruct (Hm _ _ _ E) as [d1 [T1 [_ F1]]].
    destruct (Hf a _ _ _ E') as [d2 [T2 [P2 F2]]].
    exists (d1 ++ d2)%list. rewrite T2, T1, <- app_assoc, scale_cmds_app.
    rewrite (F1 eq_refl).
    split; [reflexivity |]. split.
    + now apply prefix_app.
    + intros Hr. now rewrite (F2 Hr).
  - inversion E'; subst. destruct (Hm _ _ _ E) as [d1 [T1 [P1 _]]].
    exists d1. split; [exact T1 |]. split; [| discriminate].
    now apply prefix_app_r.
Qed.

Lemma sends_bind_l {A B : Type} (c : list (list Z)) (m : M S A) (f : A -> M S B) :
  sends tr [] m -> (forall a, sends tr c (f a)) -> sends tr c (bind m f).
Proof. intros Hm Hf. apply (sends_bind [] c); assumption. Qed.

Lemma sends_bind_r {A B : Type} (c : list (list Z)) (m : M S A) (f : A -> M S B) :
  sends tr c m -> (forall a, sends tr [] (f a)) -> sends tr c (bind m f).
Proof.
  intros Hm Hf. rewrite <- (app_nil_r c). apply sends_bind; assumption.
Qed.

Lemma sends_reraise {A : Type} (c : list (list Z)) (m : M S A) (wrap : exn -> exn) :
  sends tr c m -> sends tr c (try_except m (fun e => raise (wrap e))).
Proof.
  intros Hm s r s'. unfold try_except, raise.
  destruct (m s) as [[a | e] s1] eqn:E; intros E'; inversion E'; subst.
  - exact (Hm _ _ _ E).
  - destruct (Hm _ _ _ E) as [d [T [P _]]]. exists d.
    split; [exact T |]. split; [exact P | discriminate].
Qed.

Lemma sends_finally {A : Type} (c : list (list Z)) (m : M S A) (fin : M S unit) :
  sends tr c m -> sends tr [] fin -> sends tr c (try_finally m fin).
Proof.
  intros Hm Hf s r s'. unfold try_finally.
  destruct (m s) as [r1 s1] eqn:E.
  destruct (Hm _ _ _ E) as [d1 [T1 [P1 F1]]].
  destruct (fin s1) as [[u | e] s2] eqn:E2; intros E'; inversion E'; subst;
    destruct (Hf _ _ _ E2) as [d2 [T2 [P2 _]]];
    apply prefix_nil_inv in P2;
    exists (d1 ++ d2)%list; rewrite T2, T1, <- app_assoc, scale_cmds_app, P2, app_nil_r;
    (split; [reflexivity |]); (split; [exact P1 |]).
  - exact F1.
  - discriminate.
Qed.

End Sends.

Lemma silent_sends {A : Type} (m : M world A) :
  keeps (extends no_scale) m -> sends trace [] m.
Proof.
  intros Hm s r s' E. destruct (Hm _ _ _ E) as [d [T F]].
  exists d. rewrite (scale_cmds_none d F).
  split; [exact T |]. split; [reflexivity | intros _; reflexivity].
Qed.

Lemma silent_sends_frame {L A : Type} (m : M (L * world) A) :
  keeps (framed (extends no_scale)) m -> sends frame_trace [] m.
Proof.
  intros Hm s r s' E. destruct (Hm _ _ _ E) as [d [T F]].
  exists d. rewrite (scale_cmds_none d F).
  split; [exact T |]. split; [reflexivity | intros _; reflexivity].
Qed.

Lemma sends_lift {L A : Type} (c : list (list Z)) (m : M world A) :
  sends trace c m -> sends (frame_trace (L := L)) c (lift m).
Proof.
  intros Hm [l s] r [l' s']. unfold lift, frame_trace. simpl.
  destruct (m s) as [r1 s1] eqn:E. intros E'. inversion E'; subst.
  exact (Hm _ _ _ E).
Qed.

Lemma sends_with_local {L A : Type} (c : list (list Z)) (init : L)
    (m : M (L * world) A) :
  sends frame_trace c m -> sends trace c (with_local init m).
Proof.
  intros Hm s r s'. unfold with_local.
  destruct (m (init, s)) as [r1 ls] eqn:E. intros E'. inversion E'; subst.
  exact (Hm _ _ _ E).
Qed.

(** The steps of a print that send no font-scale command. *)

Lemma connect_no_scale (h : Host) : keeps (extends no_scale) (_connect_printer h).
Proof. unfold _connect_printer, connect_usb, connect_file. keeps_auto. Qed.

Lemma close_no_scale (h : Host) (p : option printer) :
  keeps (extends no_scale) (_close_printer h p).
Proof. unfold _close_printer. keeps_auto. Qed.

Lemma feed_and_cut_no_scale (h : Host) (p : printer) :
  keeps (extends no_scale) (_feed_and_cut h p).
Proof. unfold _feed_and_cut. keeps_auto. Qed.

Lemma prepare_no_scale (h : Host) (text : option string) (mw : Z) (b : bool) :
  keeps (extends no_scale) (prepare_text_for_print h text mw b).
Proof. unfold prepare_text_for_print, generate_cowsay. keeps_auto. Qed.

Lemma process_image_no_scale (h : Host) (src dst : string) (mw : Z) (r b : bool) :
  keeps (extends no_scale) (process_image h src dst mw r b).
Proof. unfold process_image, image_open, image_save. keeps_auto. Qed.

Lemma close_local_no_scale (h : Host) :
  sends frame_trace [] (p <- get_local ;; lift (_close_printer h p)).
Proof.
  pose proof (close_no_scale h).
  apply silent_sends_frame. keeps_auto; auto.
Qed.

(** The steps that send one. *)

Lemma scale_cmd_failed (c : call) (e : exn) : scale_cmd (c, Some e) = None.
Proof. destruct c; try reflexivity. simpl. repeat (case_match; try reflexivity). Qed.

Lemma scale_cmds_single (x : entry) :
  scale_cmds [x] = match scale_cmd x with Some bs => [bs] | None => [] end.
Proof. unfold scale_cmds. simpl. destruct (scale_cmd x); reflexivity. Qed.

Lemma perform_scale (h : Host) (c : call) (bs : list Z) :
  scale_cmd (c, None) = Some bs -> sends trace [bs] (perform h c).
Proof.
  intros Hc w r w'. unfold perform.
  destruct (respond h (trace w) c) as [e |]; intros E; inversion E; subst;
    eexists; (split; [reflexivity |]); rewrite scale_cmds_single.
  - rewrite scale_cmd_failed. split; [apply prefix_nil | discriminate].
  - rewrite Hc. split; [reflexivity | reflexivity].
Qed.

Lemma reset_font_size_sends (h : Host) (p : printer) :
  sends trace [scale_reset] (_reset_font_size h p).
Proof. unfold _reset_font_size. now apply perform_scale. Qed.

Lemma bind_lift_ok {S A B : Type} (a : A) (f : A -> M S B) :
  bind (lift_result (Ok a)) f = f a.
Proof. reflexivity. Qed.

Lemma bind_lift_raise {S A B : Type} (e : exn) (f : A -> M S B) :
  bind (lift_result (Raise e)) f = raise e.
Proof. reflexivity. Qed.

Lemma set_font_size_sends (h : Host) (p : printer) (font_size : string) :
  sends trace [scale_reset; [29; 33; configured_size_byte h font_size]]
        (_set_font_size h p font_size).
Proof.
  unfold _set_font_size, configured_size_byte.
  destruct (get_int h ("fonts." +:+ font_size +:+ ".width") 1) as [width | e];
    [rewrite bind_lift_ok | rewrite bind_lift_raise; apply sends_raise].
  destruct (get_int h ("fonts." +:+ font_size +:+ ".height") 1) as [height | e];
    [rewrite bind_lift_ok | rewrite bind_lift_raise; apply sends_raise].
  apply (sends_bind trace [scale_reset] [[29; 33; size_byte width height]]).
  { now apply perform_scale. }
  intros _. unfold bytes1.
  destruct ((0 <=? size_byte width height) && (size_byte width height <? 256)).
  - rewrite bind_lift_ok. now apply perform_scale.
  - rewrite bind_lift_raise. apply sends_raise.
Qed.

Ltac silent :=
  first [ apply silent_sends | apply silent_sends_frame ]; keeps_auto; auto.

Lemma print_text_sends (h : Host) (job_id : Z) (text : option string)
    (font_size : string) (use_cowsay : bool) :
  font_size <> "banner" ->
  sends trace (reset_set_reset h font_size)
        (print_text h job_id text font_size use_cowsay).
Proof.
  intros Hfs.
  pose proof (connect_no_scale h). pose proof (feed_and_cut_no_scale h).
  pose proof (prepare_no_scale h).
  unfold print_text.
  assert (String.eqb font_size "banner" = false) as -> by now apply String.eqb_neq.
  apply sends_with_local. apply sends_finally; [| apply close_local_no_scale].
  apply sends_reraise.
  apply sends_bind_l; [silent | intros p].
  apply sends_bind_l; [silent | intros _].
  apply sends_lift.
  apply sends_bind_l; [silent | intros feed_before].
  apply sends_bind_l; [silent | intros _].
  apply sends_bind_l; [silent | intros max_width].
  apply sends_bind_l; [silent | intros prepared_text].
  apply (sends_bind trace [scale_reset; [29; 33; configured_size_byte h font_size]]
           [scale_reset]); [apply set_font_size_sends | intros _].
  apply sends_bind_l; [silent | intros _].
  apply sends_bind_l; [silent | intros _].
  apply sends_bind_r; [apply reset_font_size_sends | intros _].
  silent.
Qed.

Lemma print_image_sends (h : Host) (job_id : Z) (image_path caption : option string)
    (font_size : string) :
  truthy caption = true ->
  sends trace (reset_set_reset h font_size)
        (print_image h job_id image_path caption font_size false).
Proof.
  intros Hcap.
  pose proof (connect_no_scale h). pose proof (feed_and_cut_no_scale h).
  pose proof (prepare_no_scale h). pose proof (process_image_no_scale h).
  unfold print_image. rewrite Hcap. simpl.
  apply sends_with_local. apply sends_finally; [| apply close_local_no_scale].
  apply sends_reraise.
  apply sends_bind_l; [silent | intros p].
  apply sends_bind_l; [silent | intros _].
  apply sends_lift.
  apply sends_bind_l; [silent | intros feed_before].
  apply sends_bind_l; [silent | intros _].
  apply sends_bind_l; [silent | intros max_width].
  apply sends_bind_l; [silent | intros path].
  apply sends_bind_l; [silent | intros _].
  apply sends_bind_l; [silent | intros _].
  apply sends_bind_r; [| intros _; silent].
  apply sends_bind_l; [silent | intros _].
  apply (sends_bind trace [scale_reset; [29; 33; configured_size_byte h font_size]]
           [scale_reset]); [apply set_font_size_sends | intros _].
  apply sends_bind_l; [silent | intros max_chars].
  apply sends_bind_l; [silent | intros prepared_caption].
  apply sends_bind_l; [silent | intros _].
  apply sends_bind_l; [silent | intros _].
  apply reset_font_size_sends.
Qed.

Lemma sends_delta {A : Type} (cmds : list (list Z)) (m : M world A) (w : world) :
  sends trace cmds m ->
  scale_cmds (delta w (snd (m w))) `prefix_of` cmds
  /\ (is_raise (fst (m w)) = false -> scale_cmds (delta w (snd (m w))) = cmds).
Proof.
  intros Hm. destruct (m w) as [r w'] eqn:E.
  destruct (Hm _ _ _ E) as [d [T [P F]]]. simpl.
  rewrite (delta_app _ _ _ T). now split.
Qed.

(** C3, as the code has it. For a text print at a font size other than
    [banner], and for an image print with a caption, at any configured
    font size: the font-scale commands sent are a prefix of reset, set,
    reset, and when the print completes they are exactly these three, so
    the first and the last one sent are the zero byte command. *)
Theorem font_scale_reset_set_reset (h : Host) (job_id : Z)
    (text image_path caption : option string) (font_size : string)
    (use_cowsay : bool) (w : world) :
  font_size <> "banner" ->
  truthy caption = true ->
  let text_run := print_text h job_id text font_size use_cowsay w in
  let image_run := print_image h job_id image_path caption font_size false w in
  let sent_text := scale_cmds (delta w (snd text_run)) in
  let sent_image := scale_cmds (delta w (snd image_run)) in
  (sent_text `prefix_of` reset_set_reset h font_size
   /\ (fst text_run = Ok tt ->
       sent_text = reset_set_reset h font_size
       /\ head sent_text = Some scale_reset
       /\ last sent_text = Some scale_reset))
  /\ (sent_image `prefix_of` reset_set_reset h font_size
      /\ (fst image_run = Ok tt ->
          sent_image = reset_set_reset h font_size
          /\ head sent_image = Some scale_reset
          /\ last sent_image = Some scale_reset)).
Proof.
  intros Hfs Hcap text_run image_run sent_text sent_image.
  split.
  - destruct (sends_delta _ _ w (print_text_sends h job_id text font_size use_cowsay Hfs))
      as [P F].
    split; [exact P |]. intros Hok.
    assert (E : sent_text = reset_set_reset h font_size)
      by (apply F; fold text_run; now rewrite Hok).
    rewrite E. repeat split.
  - destruct (sends_delta _ _ w (print_image_sends h job_id image_path caption font_size Hcap))
      as [P F].
    split; [exact P |]. intros Hok.
    assert (E : sent_image = reset_set_reset h font_size)
      by (apply F; fold image_run; now rewrite Hok).
    rewrite E. repeat split.
Qed.

(** The text [hi] and a captioned photograph at the medium font of the
    sample host. *)
Lemma font_scale_reset_set_reset_witness :
  let text_run := print_text Sample.quiet 7 (Some "hi") "medium" false Sample.photo_world in
  let image_run :=
    print_image Sample.quiet 7 (Some "store/photo.png") (Some "hi") "medium" false
                Sample.photo_world in
  let sent_text := scale_cmds (delta Sample.photo_world (snd text_run)) in
  let sent_image := scale_cmds (delta Sample.photo_world (snd image_run)) in
  (sent_text `prefix_of` reset_set_reset Sample.quiet "medium"
   /\ (fst text_run = Ok tt ->
       sent_text = reset_set_reset Sample.quiet "medium"
       /\ head sent_text = Some scale_reset
       /\ last sent_text = Some scale_reset))
  /\ (sent_image `prefix_of` reset_set_reset Sample.quiet "medium"
      /\ (fst image_run = Ok tt ->
          sent_image = reset_set_reset Sample.quiet "medium"
          /\ head sent_image = Some scale_reset
          /\ last sent_image = Some scale_reset)).
Proof.
  apply (font_scale_reset_set_reset Sample.quiet 7 (Some "hi") (Some "store/photo.png")
           (Some "hi") "medium" false Sample.photo_world).
  - discriminate.
  - reflexivity.
Defined.

(** Both prints complete on the sample host, with the size byte 17. *)
Example sample_prints_complete :
  fst (print_text Sample.quiet 7 (Some "hi") "medium" false Sample.photo_world) = Ok tt
  /\ fst (print_image Sample.quiet 7 (Some "store/photo.png") (Some "hi") "medium" false
            Sample.photo_world) = Ok tt
  /\ reset_set_reset Sample.quiet "medium" = [[29; 33; 0]; [29; 33; 17]; [29; 33; 0]].
Proof. vm_compute. repeat split. Qed.

(** C3, as stated, fails at the font size [banner]: the text print
    completes and sends no font-scale command at all, so there is no
    first one to be the zero byte command. *)
Lemma font_scale_banner_counterexample :
  let run := print_text Sample.quiet 7 (Some "hi") "banner" false Sample.empty_world in
  fst run = Ok tt
  /\ scale_cmds (delta Sample.empty_world (snd run)) = []
  /\ head (scale_cmds (delta Sample.empty_world (snd run))) <> Some scale_reset.
Proof. vm_compute. repeat split. discriminate. Qed.

(** ** A text job at the banner font *)

Lemma length_append (s t : string) :
  String.length (s +:+ t) = (String.length s + String.length t)%nat.
Proof.
  induction s as [| c s IH]; [reflexivity |].
  rewrite append_cons. simpl. now rewrite IH.
Qed.

Lemma banner_paths_differ (h : Host) (job_id : Z) :
  banner_path h job_id <> banner_temp_path h job_id.
Proof.
  unfold banner_path, banner_temp_path, path_join. intros E.
  apply (f_equal String.length) in E. rewrite !length_append in E.
  simpl in E. lia.
Qed.

Lemma guarded_ok {L A : Type} (init : L) (body : M (L * world) A)
    (wrap : exn -> exn) (fin : M (L * world) unit) (w w' : world) (a : A) :
  with_local init (try_finally (try_except body (fun e0 => raise (wrap e0))) fin) w
  = (Ok a, w') ->
  exists ls1 ls2 u, body (init, w) = (Ok a, ls1) /\ fin ls1 = (Ok u, ls2) /\ w' = snd ls2.
Proof.
  unfold with_local, try_finally, try_except, raise.
  destruct (body (init, w)) as [[a0 | e] ls1];
    destruct (fin ls1) as [[u | e'] ls2] eqn:Ef; intros E; inversion E; subst.
  exists ls1, ls2, u. repeat split. exact Ef.
Qed.

Lemma lift_ok_inv {L A : Type} (m : M world A) (ls ls' : L * world) (a : A) :
  lift m ls = (Ok a, ls') ->
  exists w', m (snd ls) = (Ok a, w') /\ ls' = (fst ls, w').
Proof.
  unfold lift. destruct (m (snd ls)) as [r w']. intros E. inversion E; subst. eauto.
Qed.

Lemma image_save_ok_inv (h : Host) (img : image) (path : string) (w w' : world) (u : unit) :
  image_save h img path w = (Ok u, w') ->
  w' = set_files (<[path := img]> (files w)) (log (ImgSave path, None) w).
Proof.
  unfold image_save. intros E. apply bind_ok_inv in E. destruct E as (? & w1 & E1 & E2).
  apply perform_ok_inv in E1. destruct E1 as [_ ->]. now inversion E2.
Qed.

Lemma image_open_ok_inv (h : Host) (path : string) (w w' : world) (img : image) :
  image_open h path w = (Ok img, w') ->
  files w !! path = Some img /\ w' = log (ImgOpen path, None) w.
Proof.
  unfold image_open. intros E. apply bind_ok_inv in E. destruct E as (? & w1 & E1 & E2).
  apply perform_ok_inv in E1. destruct E1 as [_ ->]. simpl in E2.
  destruct (files w !! path); inversion E2; subst. now split.
Qed.

Lemma unlink_ok_inv (h : Host) (path : string) (w w' : world) (u : unit) :
  unlink h path w = (Ok u, w') ->
  w' = set_files (delete path (files w)) (log (Unlink path, None) w).
Proof.
  unfold unlink. intros E. apply bind_ok_inv in E. destruct E as (? & w1 & E1 & E2).
  apply perform_ok_inv in E1. destruct E1 as [_ ->]. now inversion E2.
Qed.

Lemma render_ok_inv (h : Host) (text : option string) (path : string) (dots : Z)
    (w w' : world) (r : string) :
  render_text_banner h text path dots w = (Ok r, w') ->
  exists t img,
    text = Some t /\ blank t = false /\ banner_image h t dots = Ok img
    /\ w' = set_files (<[path := img]> (files w)) (log (ImgSave path, None) w).
Proof.
  unfold render_text_banner. destruct text as [t |]; [| discriminate].
  rewrite strip_empty_blank. destruct (blank t) eqn:Hb; [discriminate |].
  intros E. apply bind_ok_inv in E. destruct E as (img & w1 & E1 & E2).
  apply lift_result_ok_inv in E1. destruct E1 as [Himg ->].
  apply bind_ok_inv in E2. destruct E2 as (u & w2 & E2 & E3).
  apply image_save_ok_inv in E2. inversion E3; subst.
  exists t, img. repeat split; assumption.
Qed.

Lemma connect_appends (h : Host) : keeps appends (_connect_printer h).
Proof. unfold _connect_printer, connect_usb, connect_file. keeps_auto. Qed.

Lemma close_appends (h : Host) (p : option printer) : keeps appends (_close_printer h p).
Proof. unfold _close_printer. keeps_auto. Qed.

Lemma feed_and_cut_appends (h : Host) (p : printer) : keeps appends (_feed_and_cut h p).
Proof. unfold _feed_and_cut. keeps_auto. Qed.

Lemma feed_appends (h : Host) (p : printer) (n : nat) :
  keeps appends (repeat_ n (perform h (DevText p nl))).
Proof. keeps_auto. Qed.

Lemma trace_log (x : entry) (w : world) : trace (log x w) = (trace w ++ [x])%list.
Proof. reflexivity. Qed.

(** A banner print that completes: the text was rendered by the banner
    renderer, the file of the job holds that image after a quarter turn,
    and this file was sent to the printer as an image. *)
Lemma print_text_banner_ok (h : Host) (job_id : Z) (text : option string)
    (w w' : world) (u : unit) :
  _print_text_banner h job_id text w = (Ok u, w') ->
  exists t dots img p,
    text = Some t
    /\ get_int h "printer.dots_per_line" 384 = Ok dots
    /\ banner_image h t dots = Ok img
    /\ files w' !! banner_path h job_id = Some (PIL.rotate_90 img)
    /\ In (DevImage p (banner_path h job_id), None) (delta w w').
Proof.
  unfold _print_text_banner. intros E.
  apply guarded_ok in E. destruct E as (ls1 & ls2 & u' & Ebody & Efin & ->).
  (* the body *)
  apply bind_ok_inv in Ebody. destruct Ebody as (u1 & s1 & Epre & Ebody).
  apply lift_ok_inv in Epre. destruct Epre as (w1 & Epre & ->). simpl in Epre.
  apply bind_ok_inv in Ebody. destruct Ebody as (p & s2 & Econ & Ebody).
  apply lift_ok_inv in Econ. destruct Econ as (w2 & Econ & ->). simpl in Econ.
  apply bind_ok_inv in Ebody. destruct Ebody as (u2 & s3 & Eset & Epost).
  inversion Eset; subst s3. clear Eset.
  apply lift_ok_inv in Epost. destruct Epost as (w3 & Epost & ->). simpl in Epost.
  (* rendering and rotating *)
  apply bind_ok_inv in Epre. destruct Epre as (dots & wa & Edots & Epre).
  apply lift_result_ok_inv in Edots. destruct Edots as [Edots ->].
  apply bind_ok_inv in Epre. destruct Epre as (r & wb & Erender & Epre).
  apply render_ok_inv in Erender. destruct Erender as (t & img & -> & _ & Himg & ->).
  apply bind_ok_inv in Epre. destruct Epre as (img' & wc & Eopen & Esave).
  apply image_open_ok_inv in Eopen. destruct Eopen as [Hlook ->].
  simpl in Hlook. rewrite lookup_insert_eq in Hlook. inversion Hlook; subst img'.
  apply image_save_ok_inv in Esave.
  (* feeding and sending *)
  apply bind_ok_inv in Epost. destruct Epost as (feed_before & wd & Efb & Epost).
  apply lift_result_ok_inv in Efb. destruct Efb as [_ ->].
  apply bind_ok_inv in Epost. destruct Epost as (u3 & we & Efeed & Epost).
  apply bind_ok_inv in Epost. destruct Epost as (u4 & wf & Eimg & Epost).
  apply perform_ok_inv in Eimg. destruct Eimg as [_ ->].
  apply bind_ok_inv in Epost. destruct Epost as (u5 & wg & Ecut & Eunlink).
  apply unlink_ok_inv in Eunlink.
  (* closing *)
  unfold bind, get_local, lift in Efin. simpl in Efin.
  destruct (_close_printer h (Some p) w3) as [rc wh] eqn:Eclose.
  assert (ls2.2 = wh) as -> by (destruct rc; inversion Efin; reflexivity).
  clear Efin.
  destruct (connect_appends h _ _ _ Econ) as [F2 [d2 T2]].
  destruct (feed_appends h p _ _ _ _ Efeed) as [Fe [de Te]].
  destruct (feed_and_cut_appends h p _ _ _ Ecut) as [Fg [dg Tg]].
  destruct (close_appends h _ _ _ _ Eclose) as [Fh [dh Th]].
  exists t, dots, img, p. repeat split; try assumption.
  - rewrite Fh, Eunlink. simpl. rewrite Fg. simpl. rewrite Fe, F2, Esave. simpl.
    rewrite lookup_delete_ne by (intros E; symmetry in E; revert E; apply banner_paths_differ).
    apply lookup_insert_eq.
  - assert (T : trace wh
                = (trace w ++ ([(ImgSave (banner_temp_path h job_id), None);
                                (ImgOpen (banner_temp_path h job_id), None);
                                (ImgSave (banner_path h job_id), None)] ++ d2 ++ de)
                   ++ (DevImage p (banner_path h job_id), None)
                      :: (dg ++ [(Unlink (banner_temp_path h job_id), None)] ++ dh))%list).
    { rewrite Th, Eunlink. simpl. rewrite Tg. rewrite trace_log, Te, T2, Esave. simpl.
      rewrite <- !app_assoc. simpl. reflexivity. }
    rewrite (delta_app _ _ _ T). apply in_elt.
Qed.

Lemma render_banner_entries (h : Host) (text : option string) (path : string) (dots : Z) :
  keeps (extends banner_entry) (render_text_banner h text path dots).
Proof. unfold render_text_banner, image_save. keeps_auto. Qed.

Lemma connect_banner_entries (h : Host) : keeps (extends banner_entry) (_connect_printer h).
Proof. unfold _connect_printer, connect_usb, connect_file. keeps_auto. Qed.

Lemma close_banner_entries (h : Host) (p : option printer) :
  keeps (extends banner_entry) (_close_printer h p).
Proof. unfold _close_printer. keeps_auto. Qed.

Lemma feed_and_cut_banner_entries (h : Host) (p : printer) :
  keeps (extends banner_entry) (_feed_and_cut h p).
Proof. unfold _feed_and_cut. keeps_auto. Qed.

Lemma print_text_banner_entries (h : Host) (job_id : Z) (text : option string) :
  keeps (extends banner_entry) (_print_text_banner h job_id text).
Proof.
  pose proof (render_banner_entries h). pose proof (connect_banner_entries h).
  pose proof (close_banner_entries h). pose proof (feed_and_cut_banner_entries h).
  unfold _print_text_banner, image_open, image_save, unlink.
  keeps_auto; auto.
Qed.

Lemma print_text_at_banner_entries (h : Host) (job_id : Z) (text : option string)
    (use_cowsay : bool) :
  keeps (extends banner_entry) (print_text h job_id text "banner" use_cowsay).
Proof.
  pose proof (print_text_banner_entries h). pose proof (close_banner_entries h).
  unfold print_text. simpl.
  keeps_auto; auto.
Qed.

Lemma print_text_at_banner_ok (h : Host) (job_id : Z) (text : option string)
    (use_cowsay : bool) (w w' : world) (u : unit) :
  print_text h job_id text "banner" use_cowsay w = (Ok u, w') ->
  _print_text_banner h job_id text w = (Ok u, w').
Proof.
  unfold print_text. simpl. intros E.
  apply guarded_ok in E. destruct E as (ls1 & ls2 & u' & Ebody & Efin & ->).
  apply lift_ok_inv in Ebody. destruct Ebody as (w1 & Ebody & ->). simpl in *.
  rewrite Ebody. unfold bind, get_local, lift, _close_printer, try_except, ret in Efin.
  simpl in Efin. inversion Efin. reflexivity.
Qed.

(** C1, as the code has it. A text job is sent down the banner path
    when its font size is [banner], whatever its content style. Every
    call of its print is then a banner entry: no raw command (so no font
    scale) and no text but line feeds (so no caption and no text
    payload). When the print completes, the text went through the banner
    renderer, the image was turned by a quarter, saved as the banner
    file of the job, and that file was sent to the printer as an image. *)
Theorem banner_font_text_job (h : Host) (job_id : Z) (job : DingJob) (w : world) :
  job_type job = "text" ->
  font_size job = Some "banner" ->
  let run := dispatch h job_id job w in
  Forall banner_entry (delta w (snd run))
  /\ (fst run = Ok tt ->
      exists text dots img p,
        text_content job = Some text
        /\ get_int h "printer.dots_per_line" 384 = Ok dots
        /\ banner_image h text dots = Ok img
        /\ files (snd run) !! banner_path h job_id = Some (PIL.rotate_90 img)
        /\ In (DevImage p (banner_path h job_id), None) (delta w (snd run))).
Proof.
  intros Htype Hfont run. subst run. unfold dispatch. rewrite Htype, Hfont. simpl.
  destruct (print_text h job_id (text_content job) "banner"
              (String.eqb (content_type job) "cowsay") w) as [r w'] eqn:E.
  simpl. split.
  - destruct (print_text_at_banner_entries h _ _ _ _ _ _ E) as [d [T F]].
    now rewrite (delta_app _ _ _ T).
  - intros ->. apply print_text_at_banner_ok in E.
    apply print_text_banner_ok in E. exact E.
Qed.

(** Job 7 of the sample store, [hi] at the banner font. *)
Lemma banner_font_text_job_witness :
  let job := Sample.text_job "plain" (Some "banner") "hi" in
  let run := dispatch Sample.quiet 7 job Sample.empty_world in
  Forall banner_entry (delta Sample.empty_world (snd run))
  /\ (fst run = Ok tt ->
      exists text dots img p,
        text_content job = Some text
        /\ get_int Sample.quiet "printer.dots_per_line" 384 = Ok dots
        /\ banner_image Sample.quiet text dots = Ok img
        /\ files (snd run) !! banner_path Sample.quiet 7 = Some (PIL.rotate_90 img)
        /\ In (DevImage p (banner_path Sample.quiet 7), None)
              (delta Sample.empty_world (snd run))).
Proof.
  apply (banner_font_text_job Sample.quiet 7 (Sample.text_job "plain" (Some "banner") "hi")
           Sample.empty_world).
  - reflexivity.
  - reflexivity.
Defined.

(** The banner print of the witness completes. *)
Example sample_banner_completes :
  fst (dispatch Sample.quiet 7 (Sample.text_job "plain" (Some "banner") "hi")
         Sample.empty_world) = Ok tt.
Proof. vm_compute. reflexivity. Qed.

(** C1, as stated, fails: a text job whose content style is [banner]
    and whose font size is medium is printed as text. The font-scale
    commands and the text itself are sent, no image is sent, and no
    banner file is written. *)
Lemma banner_style_text_job_counterexample :
  let job := Sample.text_job "banner" (Some "medium") "hi" in
  let run := dispatch Sample.quiet 7 job Sample.empty_world in
  let d := delta Sample.empty_world (snd run) in
  job_type job = "text"
  /\ content_type job = "banner"
  /\ fst run = Ok tt
  /\ In (DevRaw (UsbPrinter 1046 20497) [29; 33; 17], None) d
  /\ In (DevText (UsbPrinter 1046 20497) "hi", None) d
  /\ (forall p path r, ~ In (DevImage p path, r) d)
  /\ files (snd run) !! banner_path Sample.quiet 7 = None.
Proof.
  intros job run d.
  assert (Ed : d = [(UsbOpen 1046 20497, None);
                    (DevText (UsbPrinter 1046 20497) nl, None);
                    (DevRaw (UsbPrinter 1046 20497) [29; 33; 0], None);
                    (DevRaw (UsbPrinter 1046 20497) [29; 33; 17], None);
                    (DevText (UsbPrinter 1046 20497) "hi", None);
                    (DevText (UsbPrinter 1046 20497) nl, None);
                    (DevRaw (UsbPrinter 1046 20497) [29; 33; 0], None);
                    (DevText (UsbPrinter 1046 20497) nl, None);
                    (DevText (UsbPrinter 1046 20497) nl, None);
                    (DevText (UsbPrinter 1046 20497) nl, None);
                    (DevCut (UsbPrinter 1046 20497), None);
                    (DevClose (UsbPrinter 1046 20497), None)])
    by (vm_compute; reflexivity).
  split; [reflexivity |]. split; [reflexivity |].
  split; [vm_compute; reflexivity |].
  rewrite Ed. split; [simpl; tauto |]. split; [simpl; tauto |].
  split.
  - intros p path r H. simpl in H.
    repeat (destruct H as [H | H]; [discriminate |]). exact H.
  - vm_compute. reflexivity.
Qed.

(** ** The image pipeline: transparency *)


Lemma flatten_alpha_mode (img flat : image) :
  flatten_alpha img = Ok flat ->
  img_mode img ∈ ["RGBA"; "LA"; "PA"] ->
  img_mode flat = "RGB".
Proof.
  unfold flatten_alpha. intros E Hm. rewrite bool_decide_eq_true_2 in E by exact Hm.
  unfold PIL.new_rgb in E.
  destruct ((fst (img_size img) <? 0) || (snd (img_size img) <? 0)); [discriminate |].
  inversion E. reflexivity.
Qed.




(** The transparent left column of the photograph comes out white, the
    opaque pixels stay black. *)
Example sample_photo_flattened :
  exists out,
    pipeline Sample.quiet 512 false true Sample.photo = Ok out
    /\ img_mode out = "1"
    /\ img_rgb out 0 5 = white
    /\ img_rgb out 1 5 = (0, 0, 0).
Proof. eexists. split; [reflexivity |]. repeat split. Qed.


(** ** Binary64 arithmetic

    What the image pipeline needs of the float operations: a small
    integer converts exactly, and a quotient and a product of normalized
    numbers are within one unit in the last place of the exact value. *)


Lemma digits2_pos_bounds (p : positive) :
  2 ^ (Z.pos (digits2_pos p) - 1) <= Z.pos p < 2 ^ Z.pos (digits2_pos p).
Proof.
  induction p as [p IH | p IH |]; simpl digits2_pos.
  - rewrite Pos2Z.inj_succ.
    replace (Z.succ (Z.pos (digits2_pos p)) - 1) with (Z.succ (Z.pos (digits2_pos p) - 1)) by lia.
    rewrite !Z.pow_succ_r by lia. lia.
  - rewrite Pos2Z.inj_succ.
    replace (Z.succ (Z.pos (digits2_pos p)) - 1) with (Z.succ (Z.pos (digits2_pos p) - 1)) by lia.
    rewrite !Z.pow_succ_r by lia. lia.
  - simpl. lia.
Qed.

Lemma digits_unique (n d : Z) :
  0 < d -> 2 ^ (d - 1) <= n < 2 ^ d -> Zdigits2 n = d.
Proof.
  intros Hd Hn.
  assert (0 < n) by (pose proof (Z.pow_pos_nonneg 2 (d - 1)); lia).
  destruct n as [| p | p]; try lia. simpl.
  pose proof (digits2_pos_bounds p) as Hp.
  set (d' := Z.pos (digits2_pos p)) in *.
  destruct (Z.lt_trichotomy d' d) as [Hlt | [Heq | Hgt]]; [| exact Heq |].
  - assert (2 ^ d' <= 2 ^ (d - 1)) by (apply Z.pow_le_mono_r; lia). lia.
  - assert (2 ^ d <= 2 ^ (d' - 1)) by (apply Z.pow_le_mono_r; lia). lia.
Qed.

Lemma shr_1_m (mrs : shr_record) :
  0 <= shr_m mrs -> shr_m (shr_1 mrs) = shr_m mrs / 2.
Proof.
  destruct mrs as [m r s]. cbn [shr_m]. intros Hm.
  destruct m as [| [p | p |] | p]; cbn [shr_1 shr_m]; try lia.
  - reflexivity.
  - apply Z.div_unique with (r := 1); lia.
  - apply Z.div_unique with (r := 0); lia.
  - reflexivity.
Qed.

Lemma iter_shr_m (k : positive) (mrs : shr_record) :
  0 <= shr_m mrs ->
  shr_m (iter_pos shr_1 k mrs) = shr_m mrs / 2 ^ Z.pos k.
Proof.
  revert mrs. induction k as [k IH | k IH |]; intros mrs Hm; simpl iter_pos.
  - assert (E : 2 ^ Z.pos k~1 = 2 * (2 ^ Z.pos k * 2 ^ Z.pos k)).
    { rewrite Pos2Z.inj_xI, <- Z.pow_add_r, <- Z.pow_succ_r by lia. f_equal. lia. }
    assert (Hp : 0 < 2 ^ Z.pos k) by (apply Z.pow_pos_nonneg; lia).
    assert (H1 : 0 <= shr_m (shr_1 mrs)) by (rewrite shr_1_m by lia; apply Z.div_pos; lia).
    assert (H2 : 0 <= shr_m (iter_pos shr_1 k (shr_1 mrs)))
      by (rewrite IH by lia; apply Z.div_pos; lia).
    rewrite IH by lia. rewrite IH by lia. rewrite shr_1_m by lia.
    rewrite E. rewrite !Z.div_div by lia. reflexivity.
  - assert (E : 2 ^ Z.pos k~0 = 2 ^ Z.pos k * 2 ^ Z.pos k).
    { rewrite Pos2Z.inj_xO, <- Z.pow_add_r by lia. f_equal. lia. }
    assert (Hp : 0 < 2 ^ Z.pos k) by (apply Z.pow_pos_nonneg; lia).
    assert (H2 : 0 <= shr_m (iter_pos shr_1 k mrs))
      by (rewrite IH by lia; apply Z.div_pos; lia).
    rewrite IH by lia. rewrite IH by lia.
    rewrite E. rewrite !Z.div_div by lia. reflexivity.
  - rewrite shr_1_m by lia. reflexivity.
Qed.

Lemma shr_record_of_loc_m (m : Z) (l : location) : shr_m (shr_record_of_loc m l) = m.
Proof. destruct l as [| []]; reflexivity. Qed.

Lemma round_nearest_even_near (m : Z) (l : location) :
  round_nearest_even m l = m \/ round_nearest_even m l = m + 1.
Proof. destruct l as [| []]; simpl; auto. destruct (Z.even m); auto. Qed.

Lemma fexp_normal (e : Z) : -1074 <= e - 53 -> fexp prec emax e = e - 53.
Proof. intros H. unfold fexp, emin, prec, emax. lia. Qed.

Lemma shr_m_shift (N ex k : Z) (lx : location) :
  0 <= N -> 0 <= k ->
  shr_m (fst (shr (shr_record_of_loc N lx) ex k)) = N / 2 ^ k
  /\ snd (shr (shr_record_of_loc N lx) ex k) = ex + k.
Proof.
  intros HN Hk. unfold shr. destruct k as [| kp | kp]; try lia; simpl fst; simpl snd.
  - rewrite shr_record_of_loc_m, Z.pow_0_r, Z.div_1_r. lia.
  - rewrite iter_shr_m by (rewrite shr_record_of_loc_m; lia).
    rewrite shr_record_of_loc_m. split; reflexivity.
Qed.

Lemma pow2_split (a b : Z) : 0 <= a -> 0 <= b -> 2 ^ (a + b) = 2 ^ a * 2 ^ b.
Proof. intros. apply Z.pow_add_r; lia. Qed.

Lemma binary_round_aux_spec (N ex : Z) (lx : location) :
  2 ^ 52 <= N ->
  -1074 <= Zdigits2 N + ex - 53 ->
  Zdigits2 N + ex - 53 + 1 <= 971 ->
  exists (M : positive) (c : Z),
    binary_round_aux prec emax false N ex lx = S754_finite false M (ex + c)
    /\ 0 <= c <= Zdigits2 N - 52
    /\ 2 ^ 52 <= Z.pos M < 2 ^ 53
    /\ (Z.pos M - 1) * 2 ^ c <= N < (Z.pos M + 1) * 2 ^ c
    /\ (N < 2 ^ 53 -> lx = loc_Exact -> Z.pos M = N /\ c = 0).
Proof.
  intros HN Hlo Hhi.
  assert (Npos : 0 < N) by (assert (0 < 2 ^ 52) by (apply Z.pow_pos_nonneg; lia); lia).
  set (d := Zdigits2 N) in *.
  assert (Hd : 2 ^ (d - 1) <= N < 2 ^ d /\ 0 < d).
  { subst d. destruct N as [| p | p]; try lia. simpl.
    split; [apply digits2_pos_bounds | lia]. }
  destruct Hd as [Hd Hdpos].
  assert (Hd53 : 53 <= d).
  { destruct (Z.lt_ge_cases d 53) as [Hlt | Hge]; [| exact Hge].
    assert (2 ^ d <= 2 ^ 52) by (apply Z.pow_le_mono_r; lia). lia. }
  set (k := d - 53).
  assert (Hk : 0 <= k) by (subst k; lia).
  assert (P2k : 0 < 2 ^ k) by (apply Z.pow_pos_nonneg; lia).
  assert (Ed1 : 2 ^ (d - 1) = 2 ^ 52 * 2 ^ k)
    by (rewrite <- pow2_split by lia; f_equal; subst k; lia).
  assert (Ed : 2 ^ d = 2 ^ 53 * 2 ^ k)
    by (rewrite <- pow2_split by lia; f_equal; subst k; lia).
  set (m' := N / 2 ^ k).
  assert (Hm' : 2 ^ 52 <= m' < 2 ^ 53).
  { subst m'. split.
    - apply Z.div_le_lower_bound; lia.
    - apply Z.div_lt_upper_bound; lia. }
  assert (Hdiv : m' * 2 ^ k <= N < (m' + 1) * 2 ^ k).
  { subst m'. pose proof (Z.div_mod N (2 ^ k)) as E.
    pose proof (Z.mod_pos_bound N (2 ^ k)) as B. lia. }
  unfold binary_round_aux, shr_fexp. fold d.
  rewrite (fexp_normal (d + ex)) by lia.
  replace (d + ex - 53 - ex) with k by (subst k; lia).
  destruct (shr_m_shift N ex k lx ltac:(lia) Hk) as [Em Ee].
  destruct (shr (shr_record_of_loc N lx) ex k) as [mrs' e'] eqn:Eshr.
  simpl in Em, Ee. fold m' in Em. subst e'.
  set (l' := loc_of_shr_record mrs').
  rewrite Em.
  set (Mr := round_nearest_even m' l').
  assert (HMr : Mr = m' \/ Mr = m' + 1) by apply round_nearest_even_near.
  assert (HMr_range : 2 ^ 52 <= Mr <= 2 ^ 53) by lia.
  assert (Hexact : N < 2 ^ 53 -> lx = loc_Exact -> k = 0 /\ Mr = N).
  { intros Hlt Hex.
    assert (k = 0).
    { destruct (Z.eq_dec k 0) as [| Hne]; [assumption |].
      assert (2 ^ 1 <= 2 ^ k) by (apply Z.pow_le_mono_r; lia).
      change (2 ^ 1) with 2 in *. lia. }
    split; [assumption |].
    assert (Em0 : m' = N) by (subst m'; rewrite H, Z.pow_0_r, Z.div_1_r; reflexivity).
    assert (El : l' = loc_Exact).
    { subst l' lx. rewrite H in Eshr. unfold shr in Eshr. inversion Eshr. reflexivity. }
    subst Mr. rewrite El, Em0. reflexivity. }
  destruct (Z.eq_dec Mr (2 ^ 53)) as [Ecarry | Hnc].
  - (* the rounding carried into a 54th digit *)
    assert (Edig : Zdigits2 Mr = 54) by (apply digits_unique; [lia | rewrite Ecarry; simpl; lia]).
    rewrite Edig. rewrite (fexp_normal (54 + (ex + k))) by (subst k; lia).
    replace (54 + (ex + k) - 53 - (ex + k)) with 1 by lia.
    rewrite Ecarry. cbn [shr shr_record_of_loc iter_pos shr_1 shr_m Z.pow Z.pow_pos Pos.iter Z.mul Pos.mul].
    exists (4503599627370496%positive), (k + 1).
    assert ((ex + k + 1 <=? emax - prec) = true) as ->
      by (apply Z.leb_le; unfold emax, prec; subst k; lia).
    replace (ex + (k + 1)) with (ex + k + 1) by lia.
    split; [reflexivity |]. split; [fold d; subst k; lia |].
    split; [simpl; lia |].
    assert (E2 : 2 ^ (k + 1) = 2 * 2 ^ k)
      by (rewrite pow2_split by lia; change (2 ^ 1) with 2; lia).
    assert (Em53 : m' + 1 = 2 ^ 53) by lia.
    split.
    + rewrite E2.
      assert (Em' : m' = 9007199254740991) by (simpl in Em53; lia).
      rewrite Em' in Hdiv. revert Hdiv P2k. generalize (2 ^ k). intros P. lia.
    + intros Hlt Hex. destruct (Hexact Hlt Hex) as [_ EN]. lia.
  - assert (Edig : Zdigits2 Mr = 53) by (apply digits_unique; [lia | simpl; lia]).
    rewrite Edig. rewrite (fexp_normal (53 + (ex + k))) by (subst k; lia).
    replace (53 + (ex + k) - 53 - (ex + k)) with 0 by lia.
    cbn [shr shr_record_of_loc shr_m].
    destruct Mr as [| M | M] eqn:EM; try (simpl in HMr_range; lia).
    exists M, k.
    assert ((ex + k <=? emax - prec) = true) as ->
      by (apply Z.leb_le; unfold emax, prec; subst k; lia).
    split; [reflexivity |]. split; [fold d; subst k; lia |].
    split; [lia |]. split; [nia |].
    intros Hlt Hex. destruct (Hexact Hlt Hex) as [Ek EN]. split; [lia | exact Ek].
Qed.

Lemma iter_xO (c p : positive) : Z.pos (Pos.iter xO p c) = Z.pos p * 2 ^ Z.pos c.
Proof.
  induction c as [| c IH] using Pos.peano_ind.
  - simpl. lia.
  - rewrite Pos.iter_succ, Pos2Z.inj_xO, IH, Pos2Z.inj_succ, Z.pow_succ_r by lia. ring.
Qed.


Lemma normal_digits (M : positive) : normal M -> Zdigits2 (Z.pos M) = 53.
Proof. intros H. apply digits_unique; [lia | exact H]. Qed.

Lemma float_of_small_int (n : Z) :
  0 < n < 2 ^ 53 ->
  exists (M : positive) (a : Z),
    binary_normalize prec emax n 0 false = S754_finite false M (- a)
    /\ 0 <= a <= 52 /\ normal M /\ Z.pos M = n * 2 ^ a.
Proof.
  intros Hn. destruct n as [| p | p]; try lia.
  unfold binary_normalize, binary_round.
  pose proof (digits2_pos_bounds p) as Hd.
  set (d := Z.pos (digits2_pos p)) in *.
  assert (Hd53 : d <= 53).
  { destruct (Z.le_gt_cases d 53) as [| Hgt]; [assumption |].
    assert (2 ^ 53 <= 2 ^ (d - 1)) by (apply Z.pow_le_mono_r; lia). lia. }
  assert (Hd1 : 1 <= d) by (subst d; lia).
  rewrite (fexp_normal (d + 0)) by lia.
  unfold shl_align.
  destruct (d + 0 - 53 - 0) as [| c | c] eqn:Ec; try lia.
  - (* already 53 digits *)
    assert (d = 53) by lia.
    assert (Hp : normal p) by (unfold normal; replace (52) with (d - 1) by lia; replace 53 with d by lia; exact Hd).
    destruct (binary_round_aux_spec (Z.pos p) 0 loc_Exact) as (M & c0 & E & _ & HM & _ & Hex).
    + apply Hp.
    + rewrite (normal_digits p Hp). lia.
    + rewrite (normal_digits p Hp). lia.
    + destruct Hex as [EM Ec0]; [apply Hp | reflexivity |].
      exists M, 0. rewrite E, Ec0. split; [reflexivity |]. split; [lia |].
      split; [exact HM |]. rewrite EM. simpl. lia.
  - (* shifted left by c = 53 - d *)
    pose proof (iter_xO c p) as Ei.
    set (mz := Pos.iter xO p c) in *.
    assert (Ecd : Z.pos c = 53 - d) by lia.
    assert (E1 : 2 ^ (d - 1) * 2 ^ Z.pos c = 2 ^ 52)
      by (rewrite <- Z.pow_add_r by lia; f_equal; lia).
    assert (E2 : 2 ^ d * 2 ^ Z.pos c = 2 ^ 53)
      by (rewrite <- Z.pow_add_r by lia; f_equal; lia).
    assert (P : 0 < 2 ^ Z.pos c) by (apply Z.pow_pos_nonneg; lia).
    assert (Hmz : normal mz) by (unfold normal; rewrite Ei; nia).
    destruct (binary_round_aux_spec (Z.pos mz) (d + 0 - 53) loc_Exact) as (M & c' & E & _ & HM & _ & Hex).
    + apply Hmz.
    + rewrite (normal_digits mz Hmz). lia.
    + rewrite (normal_digits mz Hmz). lia.
    + destruct Hex as [EM Ec0]; [apply Hmz | reflexivity |].
      exists M, (Z.pos c). rewrite E, Ec0. split; [f_equal; lia |]. split; [lia |].
      split; [exact HM |]. rewrite EM. exact Ei.
Qed.

Lemma div_normal (M1 M2 : positive) (e1 e2 : Z) :
  normal M1 -> normal M2 -> -500 <= e1 - e2 <= 500 ->
  exists (Mq : positive) (cq : Z),
    SFdiv prec emax (S754_finite false M1 e1) (S754_finite false M2 e2)
    = S754_finite false Mq (e1 - e2 - 53 + cq)
    /\ 0 <= cq <= 2 /\ normal Mq
    /\ (Z.pos Mq - 1) * 2 ^ cq * Z.pos M2 <= Z.pos M1 * 2 ^ 53
       < (Z.pos Mq + 1) * 2 ^ cq * Z.pos M2.
Proof.
  intros H1 H2 He. unfold SFdiv, SFdiv_core_binary.
  rewrite (normal_digits M1 H1), (normal_digits M2 H2).
  replace (53 + e1 - (53 + e2)) with (e1 - e2) by lia.
  rewrite (fexp_normal (e1 - e2)) by lia.
  replace (Z.min (e1 - e2 - 53) (e1 - e2)) with (e1 - e2 - 53) by lia.
  replace (e1 - e2 - (e1 - e2 - 53)) with 53 by lia.
  rewrite Z.shiftl_mul_pow2 by lia.
  pose proof (Z.div_mod (Z.pos M1 * 2 ^ 53) (Z.pos M2) ltac:(lia)) as Edm.
  pose proof (Z.mod_pos_bound (Z.pos M1 * 2 ^ 53) (Z.pos M2) ltac:(lia)) as Bm.
  unfold Z.div, Z.modulo in Edm, Bm.
  destruct (Z.div_eucl (Z.pos M1 * 2 ^ 53) (Z.pos M2)) as [q r].
  unfold normal in H1, H2.
  change (2 ^ 52) with 4503599627370496 in *. change (2 ^ 53) with 9007199254740992 in *.
  assert (Hq : 4503599627370496 <= q < 4 * 4503599627370496) by nia.
  assert (Hdq : Zdigits2 q = 53 \/ Zdigits2 q = 54).
  { destruct (Z.lt_ge_cases q 9007199254740992).
    - left. apply digits_unique; simpl; lia.
    - right. apply digits_unique; simpl; lia. }
  destruct (binary_round_aux_spec q (e1 - e2 - 53) (new_location (Z.pos M2) r))
    as (Mq & cq & E & Hc & HM & Bq & _).
  - simpl. lia.
  - lia.
  - lia.
  - exists Mq, cq. simpl xorb. split; [exact E |]. split; [lia |].
    split; [exact HM |].
    assert (P : 0 < 2 ^ cq) by (apply Z.pow_pos_nonneg; lia).
    split; nia.
Qed.

Lemma mul_normal (M1 M2 : positive) (e1 e2 : Z) :
  normal M1 -> normal M2 -> -500 <= e1 + e2 <= 500 ->
  exists (Mp : positive) (cp : Z),
    SFmul prec emax (S754_finite false M1 e1) (S754_finite false M2 e2)
    = S754_finite false Mp (e1 + e2 + cp)
    /\ 0 <= cp <= 54 /\ normal Mp
    /\ (Z.pos Mp - 1) * 2 ^ cp <= Z.pos M1 * Z.pos M2 < (Z.pos Mp + 1) * 2 ^ cp.
Proof.
  intros H1 H2 He. unfold SFmul. rewrite Pos2Z.inj_mul.
  unfold normal in H1, H2.
  change (2 ^ 52) with 4503599627370496 in *. change (2 ^ 53) with 9007199254740992 in *.
  assert (HN : 2 ^ 104 <= Z.pos M1 * Z.pos M2 < 2 ^ 106) by (simpl; nia).
  assert (Hd : Zdigits2 (Z.pos M1 * Z.pos M2) = 105 \/ Zdigits2 (Z.pos M1 * Z.pos M2) = 106).
  { destruct (Z.lt_ge_cases (Z.pos M1 * Z.pos M2) (2 ^ 105)).
    - left. apply digits_unique; simpl in *; lia.
    - right. apply digits_unique; simpl in *; lia. }
  destruct (binary_round_aux_spec (Z.pos M1 * Z.pos M2) (e1 + e2) loc_Exact)
    as (Mp & cp & E & Hc & HM & Bp & _).
  - simpl in *. lia.
  - lia.
  - lia.
  - exists Mp, cp. simpl xorb. split; [exact E |]. split; [lia |].
    split; [exact HM | exact Bp].
Qed.

(** The arithmetic of the scaled height, on the integers behind the
    floats: mantissas, and powers of two for the exponents. *)

Lemma scale_arith (mw w ht Mq Mp hs X Y H C G : Z) :
  1 <= mw < w -> w < 2 ^ 24 -> 1 <= ht ->
  2 ^ 52 <= Mq -> Mp < 2 ^ 53 ->
  0 < X -> 0 < Y -> 0 < H -> 0 < C ->
  (Mq - 1) * Y * w <= mw * X < (Mq + 1) * Y * w ->
  (Mp - 1) * C <= ht * H * Mq < (Mp + 1) * C ->
  G * C * Y = H * X -> 2 ^ 26 <= G ->
  hs * G <= Mp < (hs + 1) * G ->
  ht * mw - w <= hs * w <= ht * mw.
Proof.
  intros Hmw Hw Hht HMq HMp HX HY HH HC BQ BP EZ HG Hhs.
  change (2 ^ 24) with 16777216 in *. change (2 ^ 52) with 4503599627370496 in *.
  change (2 ^ 53) with 9007199254740992 in *. change (2 ^ 26) with 67108864 in *.
  (* ht * H < 2 * C *)
  assert (F1 : ht * H < 2 * C).
  { assert (ht * H * Mq < 2 * C * Mq) by nia.
    apply Z.mul_lt_mono_pos_r with (p := Mq); lia. }
  set (Z0 := G * C * Y) in *.
  assert (HZ : 0 < Z0) by (subst Z0; nia).
  split.
  - (* lower bound *)
    assert (S1 : (Mp + 1) * C * (Y * w) <= (hs + 1) * w * Z0).
    { subst Z0. assert (Mp + 1 <= (hs + 1) * G) by lia.
      assert (0 <= C * (Y * w)) by nia.
      replace ((hs + 1) * w * (G * C * Y)) with (((hs + 1) * G) * (C * (Y * w))) by ring.
      replace ((Mp + 1) * C * (Y * w)) with ((Mp + 1) * (C * (Y * w))) by ring.
      apply Z.mul_le_mono_nonneg_r; lia. }
    assert (S2 : ht * H * Mq * (Y * w) < (Mp + 1) * C * (Y * w)).
    { apply Z.mul_lt_mono_pos_r; nia. }
    assert (S3 : ht * H * (mw * X) < ht * H * ((Mq + 1) * Y * w)).
    { apply Z.mul_lt_mono_pos_l; nia. }
    assert (S4 : ht * H * (Y * w) < Z0).
    { subst Z0. assert (ht * H * (Y * w) < 2 * C * (Y * w)) by (apply Z.mul_lt_mono_pos_r; nia).
      assert (2 * C * (Y * w) <= G * C * Y); [| lia].
      replace (2 * C * (Y * w)) with ((2 * w) * (C * Y)) by ring.
      replace (G * C * Y) with (G * (C * Y)) by ring.
      apply Z.mul_le_mono_nonneg_r; nia. }
    assert (S5 : ht * mw * Z0 = ht * H * (mw * X)) by (rewrite EZ; ring).
    assert (S6 : ht * mw * Z0 - Z0 < (hs + 1) * w * Z0).
    { replace (ht * H * ((Mq + 1) * Y * w)) with (ht * H * Mq * (Y * w) + ht * H * (Y * w)) in S3 by ring.
      lia. }
    assert (S7 : (ht * mw - 1) * Z0 < ((hs + 1) * w) * Z0) by lia.
    apply Z.mul_lt_mono_pos_r in S7; lia.
  - (* upper bound *)
    assert (S1 : hs * w * Z0 <= Mp * C * (Y * w)).
    { subst Z0.
      replace (hs * w * (G * C * Y)) with ((hs * G) * (C * (Y * w))) by ring.
      replace (Mp * C * (Y * w)) with (Mp * (C * (Y * w))) by ring.
      apply Z.mul_le_mono_nonneg_r; nia. }
    assert (S2 : (Mp - 1) * C * (Y * w) <= ht * H * Mq * (Y * w)).
    { apply Z.mul_le_mono_nonneg_r; nia. }
    assert (S3 : ht * H * ((Mq - 1) * Y * w) <= ht * H * (mw * X)).
    { apply Z.mul_le_mono_nonneg_l; nia. }
    assert (S4 : C * (Y * w) + ht * H * (Y * w) < Z0).
    { subst Z0.
      assert (ht * H * (Y * w) < 2 * C * (Y * w)) by (apply Z.mul_lt_mono_pos_r; nia).
      assert (3 * C * (Y * w) <= G * C * Y); [| lia].
      replace (3 * C * (Y * w)) with ((3 * w) * (C * Y)) by ring.
      replace (G * C * Y) with (G * (C * Y)) by ring.
      apply Z.mul_le_mono_nonneg_r; nia. }
    assert (S5 : ht * mw * Z0 = ht * H * (mw * X)) by (rewrite EZ; ring).
    assert (S6 : hs * w * Z0 < ht * mw * Z0 + Z0).
    { replace (ht * H * ((Mq - 1) * Y * w)) with (ht * H * Mq * (Y * w) - ht * H * (Y * w)) in S3 by ring.
      replace ((Mp - 1) * C * (Y * w)) with (Mp * C * (Y * w) - C * (Y * w)) in S2 by ring.
      lia. }
    assert (S7 : (hs * w) * Z0 < (ht * mw + 1) * Z0) by lia.
    apply Z.mul_lt_mono_pos_r in S7; lia.
Qed.

Lemma gap_arith (mw w ht Mq Mp X Y H C : Z) :
  1 <= mw < w -> 1 <= ht < 2 ^ 24 ->
  2 ^ 52 <= Mq -> 2 ^ 52 <= Mp ->
  0 < X -> 0 < Y -> 0 < H -> 0 < C ->
  (Mq - 1) * Y * w <= mw * X ->
  (Mp - 1) * C <= ht * H * Mq ->
  H * X <= 2 ^ 25 * (C * Y) -> False.
Proof.
  intros Hmw Hht HMq HMp HX HY HH HC BQ BP Hgap.
  change (2 ^ 24) with 16777216 in *. change (2 ^ 52) with 4503599627370496 in *.
  change (2 ^ 25) with 33554432 in *.
  assert (P1 : 0 <= (Mq - 1) * Y * w)
    by (apply Z.mul_nonneg_nonneg; [apply Z.mul_nonneg_nonneg |]; lia).
  assert (P2 : 0 <= ht * H * Mq)
    by (apply Z.mul_nonneg_nonneg; [apply Z.mul_nonneg_nonneg |]; lia).
  assert (P3 : 0 <= ht * Mq * mw)
    by (apply Z.mul_nonneg_nonneg; [apply Z.mul_nonneg_nonneg |]; lia).
  assert (P4 : 0 < C * Y) by (apply Z.mul_pos_pos; lia).
  assert (S1 : (Mp - 1) * C * ((Mq - 1) * Y * w) <= ht * H * Mq * ((Mq - 1) * Y * w))
    by (apply Z.mul_le_mono_nonneg_r; assumption).
  assert (S2 : ht * H * Mq * ((Mq - 1) * Y * w) <= ht * H * Mq * (mw * X))
    by (apply Z.mul_le_mono_nonneg_l; assumption).
  assert (S3 : ht * Mq * mw * (H * X) <= ht * Mq * mw * (33554432 * (C * Y)))
    by (apply Z.mul_le_mono_nonneg_l; assumption).
  assert (S4 : ((Mp - 1) * (Mq - 1) * w) * (C * Y) <= (33554432 * ht * Mq * mw) * (C * Y)).
  { replace ((Mp - 1) * (Mq - 1) * w * (C * Y)) with ((Mp - 1) * C * ((Mq - 1) * Y * w)) by ring.
    replace (33554432 * ht * Mq * mw * (C * Y)) with (ht * Mq * mw * (33554432 * (C * Y))) by ring.
    replace (ht * H * Mq * (mw * X)) with (ht * Mq * mw * (H * X)) in S2 by ring.
    lia. }
  apply Z.mul_le_mono_pos_r in S4; [| assumption].
  assert (S5 : 33554432 * ht * Mq * mw <= 33554432 * 16777215 * Mq * (w - 1)).
  { assert (ht * mw <= 16777215 * (w - 1)).
    { transitivity (16777215 * mw).
      - apply Z.mul_le_mono_nonneg_r; lia.
      - apply Z.mul_le_mono_nonneg_l; lia. }
    replace (33554432 * ht * Mq * mw) with ((33554432 * Mq) * (ht * mw)) by ring.
    replace (33554432 * 16777215 * Mq * (w - 1)) with ((33554432 * Mq) * (16777215 * (w - 1))) by ring.
    apply Z.mul_le_mono_nonneg_l; lia. }
  assert (S6 : 4503599627370495 * ((Mq - 1) * w) <= (Mp - 1) * ((Mq - 1) * w)).
  { apply Z.mul_le_mono_nonneg_r; [| lia]. apply Z.mul_nonneg_nonneg; lia. }
  (* 4503599627370495 (Mq - 1) w <= 562949919866880 Mq (w - 1) is absurd *)
  assert (S7 : 4503599627370495 * ((Mq - 1) * w) <= 562949919866880 * (Mq * (w - 1))).
  { replace ((Mp - 1) * (Mq - 1) * w) with ((Mp - 1) * ((Mq - 1) * w)) in S4 by ring.
    replace (33554432 * 16777215 * Mq * (w - 1)) with (562949919866880 * (Mq * (w - 1))) in S5 by ring.
    lia. }
  assert (S8 : Mq * (w - 1) <= Mq * w) by (apply Z.mul_le_mono_nonneg_l; lia).
  assert (S9 : 2 * ((Mq - 1) * w) >= Mq * w).
  { replace (2 * ((Mq - 1) * w)) with ((2 * Mq - 2) * w) by ring.
    assert (Mq * w <= (2 * Mq - 2) * w) by (apply Z.mul_le_mono_nonneg_r; lia). lia. }
  assert (0 < Mq * w) by (apply Z.mul_pos_pos; lia).
  lia.
Qed.

Lemma scaled_height_bound (mw w ht : Z) :
  1 <= mw < w -> w < 2 ^ 24 -> 1 <= ht < 2 ^ 24 ->
  exists hs, scaled_height mw w ht = Ok hs /\ ht * mw - w <= hs * w <= ht * mw.
Proof.
  intros Hmw Hw Hht.
  assert (B24 : 2 ^ 24 < 2 ^ 53) by (simpl; lia).
  destruct (float_of_small_int w ltac:(lia)) as (M2 & a2 & E2 & Ha2 & N2 & V2).
  destruct (float_of_small_int mw ltac:(lia)) as (M1 & a1 & E1 & Ha1 & N1 & V1).
  destruct (float_of_small_int ht ltac:(lia)) as (Mh & ah & Eh & Hah & Nh & Vh).
  destruct (div_normal M1 M2 (- a1) (- a2) N1 N2 ltac:(lia)) as (Mq & cq & Eq & Hcq & Nq & BQ).
  destruct (mul_normal Mh Mq (- ah) (- a1 - - a2 - 53 + cq) Nh Nq ltac:(lia))
    as (Mp & cp & Ep & Hcp & Np & BP).
  (* the powers of two *)
  set (X := 2 ^ (a1 + 53)).
  set (Y := 2 ^ (cq + a2)).
  set (H := 2 ^ ah).
  set (C := 2 ^ cp).
  assert (PX : 0 < X) by (apply Z.pow_pos_nonneg; lia).
  assert (PY : 0 < Y) by (apply Z.pow_pos_nonneg; lia).
  assert (PH : 0 < H) by (apply Z.pow_pos_nonneg; lia).
  assert (PC : 0 < C) by (apply Z.pow_pos_nonneg; lia).
  assert (EX : X = 2 ^ a1 * 2 ^ 53) by (subst X; apply Z.pow_add_r; lia).
  assert (EY : Y = 2 ^ cq * 2 ^ a2) by (subst Y; apply Z.pow_add_r; lia).
  rewrite V1, V2 in BQ. rewrite Vh in BP. fold H C in BP.
  assert (BQ' : (Z.pos Mq - 1) * Y * w <= mw * X < (Z.pos Mq + 1) * Y * w).
  { rewrite EX, EY.
    replace ((Z.pos Mq - 1) * (2 ^ cq * 2 ^ a2) * w)
      with ((Z.pos Mq - 1) * 2 ^ cq * (w * 2 ^ a2)) by ring.
    replace ((Z.pos Mq + 1) * (2 ^ cq * 2 ^ a2) * w)
      with ((Z.pos Mq + 1) * 2 ^ cq * (w * 2 ^ a2)) by ring.
    replace (mw * (2 ^ a1 * 2 ^ 53)) with (mw * 2 ^ a1 * 2 ^ 53) by ring.
    exact BQ. }
  set (g := ah + a1 + 53 - a2 - cq - cp).
  assert (Hg : 26 <= g).
  { destruct (Z.le_gt_cases 26 g) as [| Hlt]; [assumption | exfalso].
    apply (gap_arith mw w ht (Z.pos Mq) (Z.pos Mp) X Y H C); try assumption; try apply Nq; try apply Np.
    - apply BQ'.
    - apply BP.
    - subst H X C Y. rewrite <- !Z.pow_add_r by lia.
      apply Z.pow_le_mono_r; lia. }
  set (G := 2 ^ g).
  assert (EG : G * C * Y = H * X).
  { subst G C Y H X. rewrite <- !Z.pow_add_r by lia. f_equal. subst g. lia. }
  assert (HG : 2 ^ 26 <= G) by (subst G; apply Z.pow_le_mono_r; lia).
  exists (Z.pos Mp / G).
  split.
  - unfold scaled_height, float_of_int, fdiv, fmul, int_of_float.
    rewrite E2, E1, Eh, Eq, Ep.
    replace (- ah + (- a1 - - a2 - 53 + cq) + cp) with (- g) by (subst g; lia).
    destruct g as [| gp | gp] eqn:Eg; try lia. simpl Z.opp. reflexivity.
  - apply (scale_arith mw w ht (Z.pos Mq) (Z.pos Mp) (Z.pos Mp / G) X Y H C G);
      try assumption; try lia; try apply Nq; try apply Np.
    assert (PG : 0 < G) by (assert (0 < 2 ^ 26) by (simpl; lia); lia).
    pose proof (Z.div_mod (Z.pos Mp) G ltac:(lia)).
    pose proof (Z.mod_pos_bound (Z.pos Mp) G PG). nia.
Qed.

(** ** The image pipeline: fitting the width *)

(** X1. An image no wider than [max_width] is left as it is. A wider
    one (sizes below 2^24, a width of at least one dot to fit) is scaled
    to a height within one pixel below the exact
    [height * max_width / width]: resized to [max_width] by that height
    when the height is at least 1, refused with a [ValueError] when the
    scaled height comes out as 0. *)
Theorem fit_width_scales (h : Host) (max_width : Z) (img : image) :
  1 <= max_width ->
  1 <= img_height img < 2 ^ 24 ->
  img_width img < 2 ^ 24 ->
  (img_width img <= max_width -> fit_width h max_width img = Ok img)
  /\ (max_width < img_width img ->
      exists hsize,
        scaled_height max_width (img_width img) (img_height img) = Ok hsize
        /\ img_height img * max_width - img_width img <= hsize * img_width img
           <= img_height img * max_width
        /\ (1 <= hsize ->
            exists out,
              fit_width h max_width img = Ok out
              /\ img_width out = max_width
              /\ img_height out = hsize
              /\ img_mode out = img_mode img)
        /\ (hsize < 1 ->
            fit_width h max_width img
            = Raise (Exn "ValueError" "height and width must be > 0"))).
Proof.
  intros Hmw Hht Hw. split.
  - intros Hfit. unfold fit_width, img_size.
    assert ((img_width img >? max_width) = false) as ->
      by (rewrite Z.gtb_ltb; apply Z.ltb_ge; exact Hfit).
    reflexivity.
  - intros Hwide.
    destruct (scaled_height_bound max_width (img_width img) (img_height img))
      as (hsize & Ehs & Bhs); [lia | lia | lia |].
    exists hsize. split; [exact Ehs |]. split; [exact Bhs |].
    unfold fit_width, img_size.
    assert ((img_width img >? max_width) = true) as ->
      by (rewrite Z.gtb_ltb; apply Z.ltb_lt; exact Hwide).
    rewrite Ehs. unfold resize_lanczos. simpl fst. simpl snd.
    assert ((max_width <? 1) = false) as -> by (apply Z.ltb_ge; lia).
    split.
    + intros H1. assert ((hsize <? 1) = false) as -> by (apply Z.ltb_ge; lia).
      simpl. eexists. split; [reflexivity |]. repeat split.
    + intros H0. assert ((hsize <? 1) = true) as -> by (apply Z.ltb_lt; lia).
      reflexivity.
Qed.

(** The photograph of the sample store, 500 by 100, on 384 dots. *)
Lemma fit_width_scales_witness :
  (img_width Sample.photo <= 384 -> fit_width Sample.quiet 384 Sample.photo = Ok Sample.photo)
  /\ (384 < img_width Sample.photo ->
      exists hsize,
        scaled_height 384 (img_width Sample.photo) (img_height Sample.photo) = Ok hsize
        /\ img_height Sample.photo * 384 - img_width Sample.photo
           <= hsize * img_width Sample.photo <= img_height Sample.photo * 384
        /\ (1 <= hsize ->
            exists out,
              fit_width Sample.quiet 384 Sample.photo = Ok out
              /\ img_width out = 384
              /\ img_height out = hsize
              /\ img_mode out = img_mode Sample.photo)
        /\ (hsize < 1 ->
            fit_width Sample.quiet 384 Sample.photo
            = Raise (Exn "ValueError" "height and width must be > 0"))).
Proof.
  apply (fit_width_scales Sample.quiet 384 Sample.photo).
  - lia.
  - simpl. lia.
  - simpl. lia.
Defined.

(** The floats at work: the photograph comes out 76 pixels high; an
    image of 18816 by 49, whose exact scaled height is 1, is refused,
    since 49 * (384 / 18816) is a float just below 1. *)
Example scaled_height_samples :
  scaled_height 384 500 100 = Ok 76
  /\ scaled_height 384 18816 49 = Ok 0.
Proof. vm_compute. split; reflexivity. Qed.

(** ** The image pipeline: what comes out *)

Lemma fit_width_le (h : Host) (max_width : Z) (img out : image) :
  fit_width h max_width img = Ok out ->
  img_width out <= max_width /\ img_mode out = img_mode img.
Proof.
  unfold fit_width, img_size. destruct (img_width img >? max_width) eqn:Hgt.
  - destruct (scaled_height max_width (img_width img) (img_height img)) as [hsize | e];
      [| discriminate].
    unfold resize_lanczos.
    destruct ((fst (max_width, hsize) <? 1) || (snd (max_width, hsize) <? 1));
      [discriminate |].
    intros E. inversion E. simpl. split; [lia | reflexivity].
  - intros E. inversion E; subst. rewrite Z.gtb_ltb in Hgt. apply Z.ltb_ge in Hgt.
    split; [lia | reflexivity].
Qed.

Lemma ensure_rgb_mode (img : image) : img_mode (ensure_rgb img) ∈ ["RGB"; "L"].
Proof.
  unfold ensure_rgb. case_bool_decide as Hm.
  - simpl. apply list_elem_of_here.
  - exact Hm.
Qed.

(** X2. Whatever image the pipeline is given, and whether or not it is
    turned, the image it returns is never wider than [max_width]; it is
    in mode 1 when black and white is asked for and in mode RGB or L
    otherwise, so it never has an alpha band. *)
Theorem pipeline_fits_printer (h : Host) (max_width : Z) (rotate convert_to_bw : bool)
    (img out : image) :
  pipeline h max_width rotate convert_to_bw img = Ok out ->
  img_width out <= max_width
  /\ img_mode out ∈ (if convert_to_bw then ["1"] else ["RGB"; "L"])
  /\ PIL.has_alpha out = false.
Proof.
  unfold pipeline. destruct (flatten_alpha (first_frame img)) as [flat | e]; [| discriminate].
  destruct (fit_width h max_width (rotate_banner rotate (ensure_rgb flat)))
    as [fitted | e] eqn:E; [| discriminate].
  intros Eo. inversion Eo; subst out. clear Eo.
  destruct (fit_width_le _ _ _ _ E) as [Hw Hm].
  assert (Hmode : img_mode fitted ∈ ["RGB"; "L"]).
  { rewrite Hm. pose proof (ensure_rgb_mode flat) as Hr.
    destruct rotate; exact Hr. }
  assert (Hfinal : img_mode (to_black_white h convert_to_bw fitted)
                   ∈ (if convert_to_bw then ["1"] else ["RGB"; "L"])).
  { destruct convert_to_bw; [apply list_elem_of_here | exact Hmode]. }
  split; [destruct convert_to_bw; exact Hw |]. split; [exact Hfinal |].
  unfold PIL.has_alpha. apply bool_decide_eq_false_2. intros Hin.
  revert Hfinal Hin. generalize (img_mode (to_black_white h convert_to_bw fitted)).
  intros m Hfinal Hin. apply list_elem_of_In in Hfinal, Hin.
  destruct convert_to_bw; simpl in Hfinal, Hin; intuition (subst; discriminate).
Qed.

(** The photograph of the sample store, turned for a printer 384 dots
    wide. *)
Lemma pipeline_fits_printer_witness :
  exists out,
    pipeline Sample.quiet 384 true true Sample.photo = Ok out
    /\ img_width out <= 384
    /\ img_mode out ∈ ["1"]
    /\ PIL.has_alpha out = false.
Proof.
  eexists. split; [vm_compute; reflexivity |].
  apply (pipeline_fits_printer Sample.quiet 384 true true Sample.photo).
  vm_compute. reflexivity.
Defined.

(** ** Processing and validating an image file *)

(** X3. [process_image] either returns the output path, having opened
    the input and written to the output what the pipeline makes of it, in
    these two calls; or it raises a [ValueError] whose message is the
    cause after a fixed prefix, and has written no file. The jobs are
    never touched. *)
Theorem process_image_outcome (h : Host) (image_path output_path : string)
    (max_width : Z) (rotate convert_to_bw : bool) (w : world) :
  let run := process_image h image_path output_path max_width rotate convert_to_bw w in
  jobs (snd run) = jobs w
  /\ match fst run with
     | Ok path =>
         path = output_path
         /\ delta w (snd run) = [(ImgOpen image_path, None); (ImgSave output_path, None)]
         /\ exists img out,
              files w !! image_path = Some img
              /\ pipeline h max_width rotate convert_to_bw img = Ok out
              /\ files (snd run) = <[output_path := out]> (files w)
     | Raise e =>
         files (snd run) = files w
         /\ exists cause,
              e = Exn "ValueError" ("Error processing image: " +:+ str_exn cause)
     end.
Proof.
  intros run. subst run.
  unfold process_image, try_except, image_open, image_save, bind, perform, lift_result,
    raise, ret.
  destruct (respond h (trace w) (ImgOpen image_path)) as [e1 |] eqn:R1; simpl.
  { split; [reflexivity |]. split; [reflexivity |]. now exists e1. }
  destruct (files w !! image_path) as [img |] eqn:F; simpl.
  2:{ split; [reflexivity |]. split; [reflexivity |].
      now exists (Exn "FileNotFoundError"
                    ("[Errno 2] No such file or directory: '" +:+ image_path +:+ "'")). }
  destruct (pipeline h max_width rotate convert_to_bw img) as [out | e2] eqn:P; simpl.
  2:{ split; [reflexivity |]. split; [reflexivity |]. now exists e2. }
  match goal with
  | |- context [respond h ?t (ImgSave output_path)] =>
      destruct (respond h t (ImgSave output_path)) as [e3 |] eqn:R3
  end; simpl.
  { split; [reflexivity |]. split; [reflexivity |]. now exists e3. }
  split; [reflexivity |]. split; [reflexivity |]. split.
  - unfold delta. simpl. rewrite <- app_assoc. rewrite drop_app_length. reflexivity.
  - exists img, out. repeat split; assumption.
Qed.

(** X4. [validate_image] never raises. It opens the file and does
    nothing else, and answers true exactly when the file could be opened
    and its format is one of JPEG, PNG, GIF and BMP. *)
Theorem validate_image_answer (h : Host) (image_path : string) (w : world) :
  exists valid,
    validate_image h image_path w
    = (Ok valid, log (ImgOpen image_path, respond h (trace w) (ImgOpen image_path)) w)
    /\ (valid = true <->
        respond h (trace w) (ImgOpen image_path) = None
        /\ exists img f,
             files w !! image_path = Some img
             /\ img_format img = Some f
             /\ f ∈ ["JPEG"; "PNG"; "GIF"; "BMP"]).
Proof.
  unfold validate_image, try_except, image_open, bind, perform, ret.
  destruct (respond h (trace w) (ImgOpen image_path)) as [e1 |] eqn:R1; simpl.
  { exists false. split; [reflexivity |]. split; [discriminate | intros [? _]; discriminate]. }
  destruct (files w !! image_path) as [img |] eqn:F; simpl.
  2:{ exists false. split; [reflexivity |].
      split; [discriminate | intros [_ (? & ? & ? & _)]; discriminate]. }
  destruct (img_format img) as [f |] eqn:Ff; simpl.
  2:{ exists false. split; [reflexivity |].
      split; [discriminate | intros [_ (i & f & Ei & Ef & _)]].
      inversion Ei; subst i. congruence. }
  eexists. split; [reflexivity |]. rewrite bool_decide_eq_true. split.
  - intros Hin. split; [reflexivity |]. exists img, f. repeat split; assumption.
  - intros [_ (i & f' & Ei & Ef & Hin)]. inversion Ei; subst i.
    rewrite Ff in Ef. inversion Ef; subst f'. exact Hin.
Qed.

(** ** The text preparer: wrapping *)

Lemma wrap_paragraphs_closed (h : Host) (paragraphs : list string) (max_width : Z) :
  wrap_paragraphs h paragraphs max_width
  = if (max_width <=? 0) && negb (forallb blank paragraphs)
    then Raise (Exn "ValueError"
                  ("invalid width " +:+ str_int max_width +:+ " (must be > 0)"))
    else Ok ((fun p => if blank p then "" else fill h p max_width) <$> paragraphs).
Proof.
  induction paragraphs as [| p ps IH]; simpl.
  - now rewrite andb_false_r.
  - rewrite strip_empty_blank, IH. unfold textwrap_fill.
    destruct (blank p), (max_width <=? 0), (forallb blank ps); reflexivity.
Qed.

(** X5. [wrap_text_for_printer] in closed form. It raises exactly when
    the width is not positive and some line of the text has something to
    print, and then the [ValueError] of the wrapping library; otherwise it
    returns the lines joined again, each line with nothing to print
    replaced by an empty line and every other line wrapped on its own. So
    a text of blank lines is accepted at any width. *)
Theorem wrap_text_for_printer_outcome (h : Host) (text : string) (max_width : Z) :
  wrap_text_for_printer h text max_width
  = if (max_width <=? 0) && negb (forallb blank (split_lines text))
    then Raise (Exn "ValueError"
                  ("invalid width " +:+ str_int max_width +:+ " (must be > 0)"))
    else Ok (join_lines
               ((fun p => if blank p then "" else fill h p max_width)
                  <$> split_lines text)).
Proof.
  unfold wrap_text_for_printer. rewrite wrap_paragraphs_closed.
  destruct ((max_width <=? 0) && negb (forallb blank (split_lines text))); reflexivity.
Qed.

Example wrap_text_samples :
  wrap_text_for_printer Sample.quiet (" " +:+ nl +:+ nl) 0 = Ok (nl +:+ nl)
  /\ wrap_text_for_printer Sample.quiet ("a" +:+ nl +:+ " ") 16 = Ok ("a" +:+ nl)
  /\ is_raise (wrap_text_for_printer Sample.quiet ("a" +:+ nl +:+ " ") 0) = true.
Proof. repeat split. Qed.

(** ** The text preparer: the stylized-text generator *)

Lemma find_first {A : Type} (f : A -> bool) (l : list A) :
  match List.find f l with
  | Some x =>
      exists before after,
        l = (before ++ x :: after)%list /\ f x = true
        /\ Forall (fun y => f y = false) before
  | None => Forall (fun y => f y = false) l
  end.
Proof.
  induction l as [| a l IH]; simpl; [constructor |].
  destruct (f a) eqn:Fa.
  - exists [], l. repeat split; [exact Fa | constructor].
  - destruct (List.find f l) as [x |].
    + destruct IH as (before & after & -> & Fx & Hb).
      exists (a :: before), after. repeat split; [exact Fx | now constructor].
    + now constructor.
Qed.

(** X6. [find_cowsay_command] prefers the search path: a command found
    there is the answer, whatever is installed elsewhere. Otherwise the
    answer is the first of the four fixed locations that holds an
    executable file, and none when no location does. *)
Theorem find_cowsay_command_priority (h : Host) :
  match which h "cowsay" with
  | Some (String c r) => find_cowsay_command h = Some (String c r)
  | _ =>
      match find_cowsay_command h with
      | Some path =>
          exists before after,
            ["/usr/games/cowsay"; "/usr/local/bin/cowsay"; "/usr/bin/cowsay"; "/bin/cowsay"]
            = (before ++ path :: after)%list
            /\ is_executable h path = true
            /\ Forall (fun q => is_executable h q = false) before
      | None =>
          Forall (fun q => is_executable h q = false)
            ["/usr/games/cowsay"; "/usr/local/bin/cowsay"; "/usr/bin/cowsay"; "/bin/cowsay"]
      end
  end.
Proof.
  unfold find_cowsay_command.
  destruct (which h "cowsay") as [[| c r] |]; simpl truthy; cbv iota;
    try reflexivity; exact (find_first (is_executable h) common_paths).
Qed.

(** The run of [generate_cowsay], case by case. *)
Lemma generate_cowsay_run (h : Host) (text : option string) (max_width : Z) (w : world) :
  generate_cowsay h text max_width w
  = match find_cowsay_command h, text with
    | Some (String c r), Some t =>
        let argv := [String c r; "-W"; str_int max_width; unidecode h (demojize h t)] in
        (Ok (match respond h (trace w) (RunProcess argv) with
             | None =>
                 if fst (fst (completed_process h (trace w) argv)) =? 0
                 then Some (snd (fst (completed_process h (trace w) argv)))
                 else None
             | Some _ => None
             end),
         log (RunProcess argv, respond h (trace w) (RunProcess argv)) w)
    | _, _ => (Ok None, w)
    end.
Proof.
  unfold generate_cowsay, try_except.
  destruct (find_cowsay_command h) as [[| c r] |]; simpl; try reflexivity.
  destruct text as [t |]; simpl.
  2:{ unfold bind, lift_result. reflexivity. }
  unfold bind, lift_result, subprocess_run, perform, ret. simpl.
  destruct (respond h (trace w) _) as [e |]; simpl; [reflexivity |].
  destruct (completed_process h (trace w) _) as [[code out] err]; simpl.
  destruct (code =? 0); reflexivity.
Qed.

(** X7. [generate_cowsay] never raises and touches neither files nor
    jobs. With no command found, or no text, it runs nothing and returns
    nothing. Otherwise it runs the command once, with the width and the
    encoded text as arguments, and returns the standard output when the
    run returned with exit code 0, nothing when it raised (a timeout
    included) or exited with another code. *)
Theorem generate_cowsay_outcome (h : Host) (text : option string) (max_width : Z)
    (w : world) :
  let run := generate_cowsay h text max_width w in
  is_raise (fst run) = false
  /\ files (snd run) = files w
  /\ jobs (snd run) = jobs w
  /\ match find_cowsay_command h, text with
     | Some (String c r), Some t =>
         let argv := [String c r; "-W"; str_int max_width; unidecode h (demojize h t)] in
         let outcome := respond h (trace w) (RunProcess argv) in
         let finished := completed_process h (trace w) argv in
         delta w (snd run) = [(RunProcess argv, outcome)]
         /\ fst run
            = Ok (match outcome with
                  | None =>
                      if fst (fst finished) =? 0 then Some (snd (fst finished)) else None
                  | Some _ => None
                  end)
     | _, _ => run = (Ok None, w)
     end.
Proof.
  intros run. subst run. rewrite generate_cowsay_run.
  destruct (find_cowsay_command h) as [[| c r] |]; try (repeat split; reflexivity).
  destruct text as [t |]; try (repeat split; reflexivity).
  cbv zeta. simpl. repeat split.
  unfold delta. simpl. now rewrite drop_app_length.
Qed.

(** X8. When the generator is found, runs and exits with code 0, the
    stylized preparation returns its standard output as it is, neither
    re-encoded nor wrapped, and at any width; but an empty output counts
    as a failure, and the text is prepared as plain text instead. *)
Theorem prepare_text_cowsay_output (h : Host) (text cmd : string) (max_width : Z)
    (w : world) (stdout stderr : string) :
  let argv := [cmd; "-W"; str_int max_width; unidecode h (demojize h text)] in
  find_cowsay_command h = Some cmd ->
  cmd <> "" ->
  respond h (trace w) (RunProcess argv) = None ->
  completed_process h (trace w) argv = (0, stdout, stderr) ->
  prepare_text_for_print h (Some text) max_width true w
  = (if is_empty stdout
     then wrap_text_for_printer h (unidecode h (demojize h text)) max_width
     else Ok stdout,
     log (RunProcess argv, None) w).
Proof.
  intros argv Hcmd Hne Hrun Hdone.
  pose proof (generate_cowsay_run h (Some text) max_width w) as G.
  rewrite Hcmd in G. destruct cmd as [| c r]; [congruence |].
  cbv zeta in G. fold argv in G. rewrite Hrun, Hdone in G. simpl in G.
  unfold prepare_text_for_print, bind. rewrite G.
  destruct stdout; reflexivity.
Qed.

(** The text [hi] on a host whose generator prints a cow. *)
Lemma prepare_text_cowsay_output_witness :
  prepare_text_for_print (Sample.with_cowsay "moo") (Some "hi") 0 true Sample.empty_world
  = (Ok "moo",
     log (RunProcess ["/usr/bin/cowsay"; "-W"; str_int 0; "hi"], None) Sample.empty_world).
Proof.
  apply (prepare_text_cowsay_output (Sample.with_cowsay "moo") "hi" "/usr/bin/cowsay" 0
           Sample.empty_world "moo" "").
  - reflexivity.
  - discriminate.
  - reflexivity.
  - reflexivity.
Defined.

(** ** The banner renderer: the font size and the image *)

Lemma font_size_search_range (h : Host) (text : string) (target_height : Z) (n : nat) :
  forall min_size max_size best_size,
    10 <= min_size <= 501 -> 8 <= max_size <= 500 -> min_size <= max_size + 2 ->
    9 <= best_size <= 500
    /\ (best_size = 50 \/ text_height_at h text best_size <= target_height) ->
    let size := font_size_search h n text target_height min_size max_size best_size in
    9 <= size <= 500 /\ (size = 50 \/ text_height_at h text size <= target_height).
Proof.
  induction n as [| n IH]; intros mn mx best Hmn Hmx Hgap Hbest; [exact Hbest |].
  cbn [font_size_search]. cbv zeta.
  assert (Hmid : 9 <= (mn + mx) / 2 <= 500).
  { split; [apply Z.div_le_lower_bound; lia |].
    assert ((mn + mx) / 2 < 501) by (apply Z.div_lt_upper_bound; lia). lia. }
  assert (Hlo : mn - 1 <= (mn + mx) / 2) by (apply Z.div_le_lower_bound; lia).
  assert (Hhi : (mn + mx) / 2 <= mx + 1) by (apply Z.div_le_upper_bound; lia).
  assert (Hat : text_height_at h text ((mn + mx) / 2)
                = let '(_, y0, _, y1) := textbbox h text (find_monospace_font h ((mn + mx) / 2))
                  in y1 - y0) by reflexivity.
  destruct (textbbox h text (find_monospace_font h ((mn + mx) / 2))) as [[[x0 y0] x1] y1].
  destruct (y1 - y0 <? target_height) eqn:Hlt.
  - apply Z.ltb_lt in Hlt.
    apply IH; lia.
  - destruct (y1 - y0 >? target_height) eqn:Hgt.
    + apply IH; lia.
    + rewrite Z.gtb_ltb in Hgt. apply Z.ltb_ge in Hlt, Hgt. lia.
Qed.

(** X9. Whatever the text, the target height and the number of
    iterations, [calculate_font_size] returns a size between 9 and 500;
    and the size it returns is the initial guess 50, or one at which the
    text is not taller than the target. *)
Theorem calculate_font_size_range (h : Host) (text : string) (target_height : Z)
    (max_iterations : nat) :
  let size := calculate_font_size h text target_height max_iterations in
  9 <= size <= 500
  /\ (size = 50 \/ text_height_at h text size <= target_height).
Proof.
  unfold calculate_font_size. apply font_size_search_range; lia.
Qed.

(** With a font as tall as its size: a target of 9 gives 9, below the
    lower end of the search, and a target no size reaches gives the
    initial guess, taller than the target. *)
Example calculate_font_size_samples :
  calculate_font_size Sample.with_font "hi" 9 20 = 9
  /\ calculate_font_size Sample.with_font "hi" 268 20 = 268
  /\ calculate_font_size Sample.with_font "hi" 5 20 = 50
  /\ text_height_at Sample.with_font "hi" 50 = 50.
Proof. vm_compute. repeat split. Qed.

(** X10. The image the banner renderer draws is as high as the printer
    is wide (so after its quarter turn it is exactly that wide), in
    black and white, and 40 pixels wider than the text at the font size
    that was calculated, a size between 9 and 500. *)
Theorem banner_image_shape (h : Host) (text : string) (dots_per_line : Z) (img : image) :
  banner_image h text dots_per_line = Ok img ->
  img_height img = dots_per_line
  /\ img_width (PIL.rotate_90 img) = dots_per_line
  /\ 0 <= dots_per_line
  /\ img_mode img = "1"
  /\ exists dots target_height,
       float_of_int dots_per_line = Ok dots
       /\ int_of_float (fmul dots float_0_7) = Ok target_height
       /\ let size := calculate_font_size h text target_height 20 in
          9 <= size <= 500
          /\ img_width img = text_width_at h text size + 40.
Proof.
  unfold banner_image.
  destruct (float_of_int dots_per_line) as [dots | e]; [| discriminate].
  destruct (int_of_float (fmul dots float_0_7)) as [target | e] eqn:Et; [| discriminate].
  assert (Hat : text_width_at h text (calculate_font_size h text target 20)
                = let '(x0, _, x1, _) :=
                    textbbox h text (find_monospace_font h (calculate_font_size h text target 20))
                  in x1 - x0) by reflexivity.
  destruct (textbbox h text (find_monospace_font h (calculate_font_size h text target 20)))
    as [[[x0 y0] x1] y1].
  unfold PIL.new_rgb. simpl fst. simpl snd.
  destruct ((x1 - x0 + 2 * 20 <? 0) || (dots_per_line <? 0)) eqn:Hneg; [discriminate |].
  apply orb_false_elim in Hneg. destruct Hneg as [_ Hd]. apply Z.ltb_ge in Hd.
  intros E. inversion E; subst img. clear E. simpl.
  split; [reflexivity |]. split; [reflexivity |]. split; [exact Hd |].
  split; [reflexivity |]. exists dots, target. split; [reflexivity |].
  split; [exact Et |].
  split; [unfold calculate_font_size; apply font_size_search_range; lia |].
  rewrite Hat. lia.
Qed.

(** The text [hi] for a printer 384 dots wide. *)
Lemma banner_image_shape_witness :
  exists img,
    banner_image Sample.with_font "hi" 384 = Ok img
    /\ img_height img = 384
    /\ img_width (PIL.rotate_90 img) = 384
    /\ 0 <= 384
    /\ img_mode img = "1"
    /\ exists dots target_height,
         float_of_int 384 = Ok dots
         /\ int_of_float (fmul dots float_0_7) = Ok target_height
         /\ let size := calculate_font_size Sample.with_font "hi" target_height 20 in
            9 <= size <= 500
            /\ img_width img = text_width_at Sample.with_font "hi" size + 40.
Proof.
  eexists. split; [vm_compute; reflexivity |].
  apply (banner_image_shape Sample.with_font "hi" 384).
  vm_compute. reflexivity.
Defined.

Example banner_image_sample :
  int_of_float (fmul (S754_finite false 6755399441055744 (-44)) float_0_7) = Ok 268
  /\ match banner_image Sample.with_font "hi" 384 with
     | Ok img => img_size img = (361, 384)
     | Raise _ => False
     end.
Proof. vm_compute. repeat split. Qed.

(** ** The connection of a print: opened once, closed last *)

Lemma open_session_app (l : option printer) (d1 d2 : list entry) :
  Forall off_device d1 -> open_session l d2 -> open_session l (d1 ++ d2).
Proof.
  intros H1. destruct l as [p |]; simpl.
  - intros (pre & o & mid & -> & Hpre & Ho & Hmid).
    exists (d1 ++ pre)%list, o, mid. rewrite <- app_assoc.
    repeat split; try assumption. apply Forall_app. now split.
  - intros H2. apply Forall_app. now split.
Qed.

Lemma connect_usb_session (h : Host) (w w' : world) (r : result printer) :
  connect_usb h w = (r, w') ->
  exists d,
    trace w' = (trace w ++ d)%list
    /\ match r with
       | Ok p => exists o, d = [(o, None)] /\ opened o p
       | Raise _ => Forall off_device d
       end.
Proof.
  unfold connect_usb, bind, lift_result, perform, ret.
  destruct (int_str h 16 (printer_vendor_id (settings h))) as [vendor | e1].
  2:{ intros E. inversion E; subst. exists []. rewrite app_nil_r. split; [reflexivity |].
      constructor. }
  destruct (int_str h 16 (printer_product_id (settings h))) as [product | e1].
  2:{ intros E. inversion E; subst. exists []. rewrite app_nil_r. split; [reflexivity |].
      constructor. }
  destruct (respond h (trace w) (UsbOpen vendor product)) as [e1 |];
    intros E; inversion E; subst; (eexists; split; [reflexivity |]).
  - repeat constructor. discriminate.
  - eexists. split; [reflexivity |]. simpl. now split.
Qed.

Lemma connect_file_session (h : Host) (w w' : world) (r : result printer) :
  connect_file h w = (r, w') ->
  exists d,
    trace w' = (trace w ++ d)%list
    /\ match r with
       | Ok p => exists o, d = [(o, None)] /\ opened o p
       | Raise _ => Forall off_device d
       end.
Proof.
  unfold connect_file, bind, perform, ret.
  destruct (respond h (trace w) (FileOpen (printer_device_path (settings h)))) as [e1 |];
    intros E; inversion E; subst; (eexists; split; [reflexivity |]).
  - repeat constructor. discriminate.
  - eexists. split; [reflexivity |]. reflexivity.
Qed.

(** What [_connect_printer] adds to the trace: transports that failed,
    and last the one that opened when it returns a printer. *)
Lemma connect_session (h : Host) (w w' : world) (r : result printer) :
  _connect_printer h w = (r, w') ->
  exists d,
    trace w' = (trace w ++ d)%list
    /\ match r with
       | Ok p => exists pre o, d = (pre ++ [(o, None)])%list
                               /\ Forall off_device pre /\ opened o p
       | Raise _ => Forall off_device d
       end.
Proof.
  unfold _connect_printer, try_except.
  destruct (connect_usb h w) as [[p | e] w1] eqn:E1;
    destruct (connect_usb_session _ _ _ _ E1) as (d1 & T1 & H1).
  - intros E. inversion E; subst. exists d1. split; [exact T1 |].
    destruct H1 as (o & -> & Ho). now exists [], o.
  - destruct (connect_file h w1) as [[p | e2] w2] eqn:E2;
      destruct (connect_file_session _ _ _ _ E2) as (d2 & T2 & H2);
      intros E; inversion E; subst; exists (d1 ++ d2)%list;
      (split; [rewrite T2, T1; now rewrite <- app_assoc |]).
    + destruct H2 as (o & -> & Ho). now exists d1, o.
    + apply Forall_app. now split.
Qed.

(** The body of a print from its connection on: when it ends, the local
    holds the printer that was opened, if one was. *)
Lemma connected_body_session (h : Host) (post : printer -> M world unit) :
  (forall p, keeps (extends (during p)) (post p)) ->
  forall w r ls,
    (p <- lift (_connect_printer h) ;; set_local (Some p) ;; lift (post p))
      (None, w) = (r, ls) ->
    exists d, trace (snd ls) = (trace w ++ d)%list /\ open_session (fst ls) d.
Proof.
  intros Hpost w r ls. unfold bind, lift, set_local. simpl.
  destruct (_connect_printer h w) as [[p | e] w1] eqn:E1;
    destruct (connect_session _ _ _ _ E1) as (d1 & T1 & H1).
  - simpl. destruct (post p w1) as [r2 w2] eqn:E2.
    destruct (Hpost p _ _ _ E2) as (d2 & T2 & H2).
    intros E. inversion E; subst. simpl.
    destruct H1 as (pre & o & -> & Hpre & Ho).
    exists ((pre ++ [(o, None)]) ++ d2)%list. split; [rewrite T2, T1; now rewrite <- !app_assoc |].
    exists pre, o, d2. rewrite <- app_assoc. repeat split; assumption.
  - intros E. inversion E; subst. simpl. exists d1. now split.
Qed.

(** Steps before the connection that use no printer. *)
Lemma prepared_body_session {A B : Type} (pre : M world A)
    (tail : A -> M (option printer * world) B) :
  keeps (extends off_device) pre ->
  (forall a w r ls, tail a (None, w) = (r, ls) ->
     exists d, trace (snd ls) = (trace w ++ d)%list /\ open_session (fst ls) d) ->
  forall w r ls,
    (a <- lift pre ;; tail a) (None, w) = (r, ls) ->
    exists d, trace (snd ls) = (trace w ++ d)%list /\ open_session (fst ls) d.
Proof.
  intros Hpre Htail w r ls. unfold bind, lift. simpl.
  destruct (pre w) as [[a | e] w1] eqn:E1;
    destruct (Hpre _ _ _ E1) as (d1 & T1 & H1).
  - intros E. destruct (Htail _ _ _ _ E) as (d2 & T2 & H2).
    exists (d1 ++ d2)%list. split; [rewrite T2, T1; now rewrite <- app_assoc |].
    now apply open_session_app.
  - intros E. inversion E; subst. simpl. exists d1. now split.
Qed.

(** The [finally] clause closes what the body left open. *)
Lemma guarded_session {A : Type} (h : Host) (body : M (option printer * world) A)
    (wrap : exn -> exn) :
  (forall w r ls, body (None, w) = (r, ls) ->
     exists d, trace (snd ls) = (trace w ++ d)%list /\ open_session (fst ls) d) ->
  forall w,
    session (delta w (snd (with_local None
                             (try_finally (try_except body (fun e => raise (wrap e)))
                                          (p <- get_local ;; lift (_close_printer h p)))
                             w))).
Proof.
  intros Hbody w. unfold with_local, try_finally.
  destruct (try_except body (fun e => raise (wrap e)) (None, w)) as [r1 ls1] eqn:E1.
  assert (H1 : exists d, trace (snd ls1) = (trace w ++ d)%list /\ open_session (fst ls1) d).
  { revert E1. unfold try_except, raise.
    destruct (body (None, w)) as [[a | e] ls] eqn:Eb; intros E; inversion E; subst;
      exact (Hbody _ _ _ Eb). }
  destruct H1 as (d & T & Hd). destruct ls1 as [l w1]. simpl in T, Hd.
  unfold bind, get_local, lift, _close_printer, try_except, perform, ret. simpl.
  destruct l as [p |].
  - destruct Hd as (pre & o & mid & -> & Hpre & Ho & Hmid).
    assert (S : forall oe, session (delta w (log (DevClose p, oe) w1))).
    { intros oe. rewrite (delta_app w _ ((pre ++ (o, None) :: mid) ++ [(DevClose p, oe)])).
      - rewrite <- app_assoc. simpl. now apply session_bracket.
      - rewrite trace_log, T. now rewrite <- app_assoc. }
    destruct (respond h (trace w1) (DevClose p)); simpl; apply S.
  - simpl. rewrite (delta_app _ _ _ T). now apply session_none.
Qed.

(** The steps of a print on an open printer. *)

Ltac during_step :=
  match goal with
  | |- during _ _ => solve [unfold during; simpl; auto]
  | |- off_device _ => solve [unfold off_device; simpl; auto]
  | _ => keeps_step
  end.

Lemma feed_and_cut_during (h : Host) (p : printer) :
  keeps (extends (during p)) (_feed_and_cut h p).
Proof. unfold _feed_and_cut. repeat during_step. Qed.

Lemma set_font_size_during (h : Host) (p : printer) (fs : string) :
  keeps (extends (during p)) (_set_font_size h p fs).
Proof. unfold _set_font_size. repeat during_step. Qed.

Lemma prepare_during (h : Host) (p : printer) (text : option string) (mw : Z) (b : bool) :
  keeps (extends (during p)) (prepare_text_for_print h text mw b).
Proof. unfold prepare_text_for_print, generate_cowsay. repeat during_step. Qed.

Lemma process_image_during (h : Host) (p : printer) (src dst : string) (mw : Z)
    (r b : bool) :
  keeps (extends (during p)) (process_image h src dst mw r b).
Proof. unfold process_image, image_open, image_save. repeat during_step. Qed.

Lemma render_off_device (h : Host) (text : option string) (path : string) (dots : Z) :
  keeps (extends off_device) (render_text_banner h text path dots).
Proof. unfold render_text_banner, image_save. repeat during_step. Qed.

Lemma print_text_banner_session (h : Host) (job_id : Z) (text : option string) (w : world) :
  session (delta w (snd (_print_text_banner h job_id text w))).
Proof.
  unfold _print_text_banner. apply guarded_session.
  apply prepared_body_session.
  - pose proof (render_off_device h).
    unfold image_open, image_save. repeat during_step; auto.
  - intros _. apply connected_body_session. intros p.
    pose proof (feed_and_cut_during h p).
    unfold unlink. repeat during_step; auto.
Qed.

Lemma print_image_session (h : Host) (job_id : Z) (image_path caption : option string)
    (font_size : string) (is_banner : bool) (w : world) :
  session (delta w (snd (print_image h job_id image_path caption font_size is_banner w))).
Proof.
  unfold print_image. apply guarded_session.
  apply connected_body_session. intros p.
  pose proof (feed_and_cut_during h p). pose proof (set_font_size_during h p).
  pose proof (prepare_during h p). pose proof (process_image_during h p).
  unfold _reset_font_size, as_path.
  repeat first [ during_step
               | match goal with
                 | |- keeps _ (if ?b then _ else _) => destruct b
                 end ]; auto.
Qed.

Lemma print_text_session (h : Host) (job_id : Z) (text : option string)
    (font_size : string) (use_cowsay : bool) (w : world) :
  session (delta w (snd (print_text h job_id text font_size use_cowsay w))).
Proof.
  unfold print_text. destruct (String.eqb font_size "banner").
  - pose proof (print_text_banner_session h job_id text w) as S.
    unfold with_local, try_finally, try_except, lift, bind, get_local, raise,
      _close_printer, ret. simpl.
    destruct (_print_text_banner h job_id text w) as [[u | e] w1]; exact S.
  - apply guarded_session. apply connected_body_session. intros p.
    pose proof (feed_and_cut_during h p). pose proof (set_font_size_during h p).
    pose proof (prepare_during h p).
    unfold _reset_font_size. repeat during_step; auto.
Qed.

Lemma dispatch_session (h : Host) (job_id : Z) (job : DingJob) (w : world) :
  session (delta w (snd (dispatch h job_id job w))).
Proof.
  unfold dispatch.
  repeat match goal with
         | |- context [if ?b then _ else _] => destruct b
         end;
    first [ apply print_text_session | apply print_image_session | idtac ].
  unfold ret, delta. simpl. rewrite drop_all. apply session_none. constructor.
Qed.

Lemma process_job_trace (h : Host) (job_id : Z) (w : world) :
  trace (snd (process_job h job_id w))
  = match jobs w !! job_id with
    | Some job =>
        trace (snd (dispatch h job_id job
                      (set_jobs (alter (set_status "processing") job_id (jobs w)) w)))
    | None => trace w
    end.
Proof.
  unfold process_job, try_finally, try_except, bind, query_job, update_job, now, raise, ret.
  destruct (jobs w !! job_id) as [job |] eqn:Ej.
  - destruct (dispatch h job_id job _) as [[[] | e] w1]; simpl.
    + reflexivity.
    + destruct (jobs w1 !! job_id); reflexivity.
  - rewrite Ej. reflexivity.
Qed.

(** X11. Whatever job [process_job] is given and however its print
    ends, the calls it makes use at most one connection: until a
    transport has opened no call is made on a printer; every call on a
    printer after that is on the one that was opened; no second
    connection is opened; and closing the printer is the last call, also
    when the print raised. *)
Theorem process_job_session (h : Host) (job_id : Z) (w : world) :
  session (delta w (snd (process_job h job_id w))).
Proof.
  unfold delta. rewrite process_job_trace.
  destruct (jobs w !! job_id) as [job |].
  - exact (dispatch_session h job_id job
             (set_jobs (alter (set_status "processing") job_id (jobs w)) w)).
  - rewrite drop_all. apply session_none. constructor.
Qed.

(** ** The orchestrator: what a run leaves of a job *)

(** The world [process_job] leaves for a stored job, from the outcome of
    its print. *)
Lemma process_job_run (h : Host) (job_id : Z) (job : DingJob) (w w1 : world)
    (r : result unit) :
  jobs w !! job_id = Some job ->
  dispatch h job_id job
    (set_jobs (alter (set_status "processing") job_id (jobs w)) w) = (r, w1) ->
  process_job h job_id w
  = (Ok tt,
     set_jobs
       (<[job_id := set_completed_at (Some (utcnow h (trace w1)))
                      match r with
                      | Ok _ => set_status "success" job
                      | Raise e => set_error_message (Some (str_exn e))
                                     (set_status "failed" job)
                      end]> (jobs w)) w1).
Proof.
  intros Hjob Hrun.
  pose proof (dispatch_same_jobs h job_id job _ _ _ Hrun) as Hsame.
  unfold same_jobs in Hsame. simpl in Hsame.
  assert (Hq : jobs w1 !! job_id = Some (set_status "processing" job)).
  { rewrite Hsame, lookup_alter_eq, Hjob. reflexivity. }
  assert (Hmap : forall f j,
             f (set_status "processing" job) = j ->
             alter f job_id (jobs w1) = <[job_id := j]> (jobs w)).
  { intros f j Hf. apply map_eq. intros i. destruct (decide (i = job_id)) as [-> | Hne].
    - rewrite lookup_alter_eq, Hq, lookup_insert_eq. simpl. now rewrite Hf.
    - rewrite lookup_alter_ne, lookup_insert_ne by congruence.
      rewrite Hsame. apply lookup_alter_ne. congruence. }
  unfold process_job, try_finally, try_except, bind, query_job, update_job, now, ret.
  rewrite Hjob, Hrun. destruct r as [[] | e]; simpl.
  - f_equal. unfold set_jobs. simpl. f_equal. now apply Hmap.
  - rewrite Hq. simpl. f_equal. unfold set_jobs. simpl. f_equal. now apply Hmap.
Qed.

(** X12. After [process_job] has run on a stored job, the job is in a
    final state: succeeded when the print returned, failed with the text
    of the exception when it raised, and in both cases with the time of
    completion. Nothing else of the job has changed, no other job has
    changed, and the files are as the print left them. A job that
    succeeds keeps the error message it had before. *)
Theorem process_job_terminal (h : Host) (job_id : Z) (job : DingJob) (w : world) :
  jobs w !! job_id = Some job ->
  let run := dispatch h job_id job
               (set_jobs (alter (set_status "processing") job_id (jobs w)) w) in
  let w' := snd (process_job h job_id w) in
  trace w' = trace (snd run)
  /\ files w' = files (snd run)
  /\ (forall other, other <> job_id -> jobs w' !! other = jobs w !! other)
  /\ exists job',
       jobs w' !! job_id = Some job'
       /\ same_request job job'
       /\ completed_at job' = Some (utcnow h (trace w'))
       /\ match fst run with
          | Ok _ => status job' = "success" /\ error_message job' = error_message job
          | Raise e => status job' = "failed" /\ error_message job' = Some (str_exn e)
          end.
Proof.
  intros Hjob run w'. subst run w'.
  destruct (dispatch h job_id job
              (set_jobs (alter (set_status "processing") job_id (jobs w)) w))
    as [r w1] eqn:Hrun.
  rewrite (process_job_run h job_id job w w1 r Hjob Hrun). simpl.
  split; [reflexivity |]. split; [reflexivity |].
  split; [intros other Hne; apply lookup_insert_ne; congruence |].
  eexists. rewrite lookup_insert_eq. split; [reflexivity |].
  destruct r as [[] | e]; repeat split.
Qed.

(** Job 7 of the sample store, on the host without a printer. *)
Lemma process_job_terminal_witness :
  let w := Sample.world_with 7 Sample.hi_job in
  let run := dispatch Sample.offline 7 Sample.hi_job
               (set_jobs (alter (set_status "processing") 7 (jobs w)) w) in
  let w' := snd (process_job Sample.offline 7 w) in
  trace w' = trace (snd run)
  /\ files w' = files (snd run)
  /\ (forall other, other <> 7 -> jobs w' !! other = jobs w !! other)
  /\ exists job',
       jobs w' !! 7 = Some job'
       /\ same_request Sample.hi_job job'
       /\ completed_at job' = Some (utcnow Sample.offline (trace w'))
       /\ match fst run with
          | Ok _ => status job' = "success"
                    /\ error_message job' = error_message Sample.hi_job
          | Raise e => status job' = "failed" /\ error_message job' = Some (str_exn e)
          end.
Proof.
  apply (process_job_terminal Sample.offline 7 Sample.hi_job
           (Sample.world_with 7 Sample.hi_job)).
  reflexivity.
Defined.

(** X13. A stored job whose type is none of text, image and
    text_with_image is not refused: [process_job] makes no call, writes
    no file, and marks the job as succeeded. *)
Theorem process_job_unknown_type (h : Host) (job_id : Z) (job : DingJob) (w : world) :
  jobs w !! job_id = Some job ->
  job_type job ∉ ["text"; "image"; "text_with_image"] ->
  process_job h job_id w
  = (Ok tt,
     set_jobs (<[job_id := set_completed_at (Some (utcnow h (trace w)))
                             (set_status "success" job)]> (jobs w)) w).
Proof.
  intros Hjob Htype.
  assert (Hd : forall w0, dispatch h job_id job w0 = (Ok tt, w0)).
  { intros w0. unfold dispatch.
    destruct (String.eqb_spec (job_type job) "text") as [E | _].
    { exfalso. apply Htype. rewrite E. set_solver. }
    destruct (String.eqb_spec (job_type job) "image") as [E | _].
    { exfalso. apply Htype. rewrite E. set_solver. }
    destruct (String.eqb_spec (job_type job) "text_with_image") as [E | _].
    { exfalso. apply Htype. rewrite E. set_solver. }
    reflexivity. }
  unfold process_job, try_finally, try_except, bind, query_job, update_job, now, ret.
  rewrite Hjob, Hd. simpl. f_equal. unfold set_jobs. simpl. f_equal.
  apply map_eq. intros i. destruct (decide (i = job_id)) as [-> | Hne].
  - rewrite lookup_alter_eq, lookup_alter_eq, Hjob, lookup_insert_eq. reflexivity.
  - rewrite !lookup_alter_ne, lookup_insert_ne by congruence. reflexivity.
Qed.

(** A job of type [sticker]. *)
Lemma process_job_unknown_type_witness :
  let w := Sample.world_with 7 Sample.sticker_job in
  process_job Sample.offline 7 w
  = (Ok tt,
     set_jobs (<[7 := set_completed_at (Some (utcnow Sample.offline (trace w)))
                        (set_status "success" Sample.sticker_job)]> (jobs w)) w).
Proof.
  apply (process_job_unknown_type Sample.offline 7 Sample.sticker_job
           (Sample.world_with 7 Sample.sticker_job)).
  - reflexivity.
  - intros Hin. apply list_elem_of_In in Hin. simpl in Hin. intuition discriminate.
Defined.

(** ** Image jobs print no text *)

Lemma process_image_banner_entries (h : Host) (src dst : string) (mw : Z) (r b : bool) :
  keeps (extends banner_entry) (process_image h src dst mw r b).
Proof. unfold process_image, image_open, image_save. keeps_auto. Qed.

Lemma print_image_plain_entries (h : Host) (job_id : Z) (image_path caption : option string)
    (font_size : string) (is_banner : bool) :
  truthy caption && negb is_banner = false ->
  keeps (extends banner_entry) (print_image h job_id image_path caption font_size is_banner).
Proof.
  intros Hc.
  pose proof (process_image_banner_entries h). pose proof (connect_banner_entries h).
  pose proof (close_banner_entries h). pose proof (feed_and_cut_banner_entries h).
  unfold print_image. rewrite Hc. unfold as_path.
  keeps_auto; auto.
Qed.

(** X14. The print of a job of type image sends the printer line feeds,
    the image and the cut, and nothing else: no text and no font-scale
    command, whatever text and font size the job carries. The same holds
    for a job of type text_with_image whose text is missing or empty. *)
Theorem image_job_prints_no_text (h : Host) (job_id : Z) (job : DingJob) (w : world) :
  job_type job = "image"
  \/ (job_type job = "text_with_image" /\ truthy (text_content job) = false) ->
  Forall banner_entry (delta w (snd (dispatch h job_id job w))).
Proof.
  intros Hjob.
  assert (K : keeps (extends banner_entry) (dispatch h job_id job)).
  { unfold dispatch. destruct Hjob as [-> | [-> Ht]]; simpl.
    - apply print_image_plain_entries. reflexivity.
    - apply print_image_plain_entries. now rewrite Ht. }
  destruct (dispatch h job_id job w) as [r w'] eqn:E.
  destruct (K _ _ _ E) as (d & T & F). simpl. now rewrite (delta_app _ _ _ T).
Qed.

(** The photograph of the sample store as an image job that carries a
    text. *)
Lemma image_job_prints_no_text_witness :
  Forall banner_entry
    (delta Sample.photo_world
       (snd (dispatch Sample.quiet 7
               (Sample.photo_job "image" "plain" (Some "hi") (Some "large"))
               Sample.photo_world))).
Proof.
  apply (image_job_prints_no_text Sample.quiet 7).
  left. reflexivity.
Defined.

(** The calls of that print, and of the same job as a text_with_image
    job. *)
Example sample_photo_prints :
  let p := UsbPrinter 1046 20497 in
  let feed := (DevText p nl, None) in
  fst (dispatch Sample.quiet 7
         (Sample.photo_job "image" "plain" (Some "hi") (Some "large"))
         Sample.photo_world) = Ok tt
  /\ delta Sample.photo_world
        (snd (dispatch Sample.quiet 7
                (Sample.photo_job "image" "plain" (Some "hi") (Some "large"))
                Sample.photo_world))
     = [(UsbOpen 1046 20497, None); feed;
        (ImgOpen "store/photo.png", None); (ImgSave "store/processed_photo.png", None);
        (DevImage p "store/processed_photo.png", None);
        feed; feed; feed; (DevCut p, None); (DevClose p, None)]
  /\ delta Sample.photo_world
        (snd (dispatch Sample.quiet 7
                (Sample.photo_job "text_with_image" "plain" (Some "hi") (Some "large"))
                Sample.photo_world))
     = [(UsbOpen 1046 20497, None); feed;
        (ImgOpen "store/photo.png", None); (ImgSave "store/processed_photo.png", None);
        (DevImage p "store/processed_photo.png", None);
        feed; (DevRaw p [29; 33; 0], None); (DevRaw p [29; 33; 34], None);
        (DevText p "hi", None); feed; (DevRaw p [29; 33; 0], None);
        feed; feed; feed; (DevCut p, None); (DevClose p, None)].
Proof. vm_compute. repeat split. Qed.

(** ** The forms: what the jobs they create print *)

(** X15. The text form stores no job for a message with nothing to
    print. The job it stores for any other message is pending, and its
    print is: the banner print of the message when the banner size was
    chosen, whatever the format; the stylized print at the small size when
    the stylized format was chosen, whatever the size; and the plain print
    at the chosen size otherwise. *)
Theorem text_form_job_dispatch (user : Z) (text font_choice : string)
    (cowsay_choice : bool) (created : Z) :
  font_choice ∈ ["small"; "medium"; "large"; "banner"] ->
  match text_form_job user text font_choice cowsay_choice created with
  | None => blank text = true
  | Some job =>
      blank text = false
      /\ status job = "pending"
      /\ forall h job_id,
           dispatch h job_id job
           = if String.eqb font_choice "banner"
             then print_text h job_id (Some text) "banner" false
             else if cowsay_choice
                  then print_text h job_id (Some text) "small" true
                  else print_text h job_id (Some text) font_choice false
  end.
Proof.
  intros Hfont. unfold text_form_job. rewrite strip_empty_blank.
  destruct (blank text); [reflexivity |].
  split; [reflexivity |]. split; [reflexivity |]. intros h job_id.
  apply list_elem_of_In in Hfont. simpl in Hfont.
  destruct Hfont as [<- | [<- | [<- | [<- | []]]]]; destruct cowsay_choice; reflexivity.
Qed.

(** The message [hi] at the banner size, with the stylized format still
    selected. *)
Lemma text_form_job_dispatch_witness :
  match text_form_job 1 "hi" "banner" true 900 with
  | None => blank "hi" = true
  | Some job =>
      blank "hi" = false
      /\ status job = "pending"
      /\ forall h job_id,
           dispatch h job_id job
           = if String.eqb "banner" "banner"
             then print_text h job_id (Some "hi") "banner" false
             else if true
                  then print_text h job_id (Some "hi") "small" true
                  else print_text h job_id (Some "hi") "banner" false
  end.
Proof.
  apply (text_form_job_dispatch 1 "hi" "banner" true 900).
  apply list_elem_of_In. simpl. tauto.
Defined.

(** X16. The print of the job the image form stores: the image alone,
    turned, in banner mode; the image alone when the caption was left
    empty; and the image with the caption at the chosen size otherwise.
    The caption and the size entered are dropped in the first two
    cases. *)
Theorem image_form_job_dispatch (h : Host) (job_id user : Z) (file_path : string)
    (is_banner : bool) (caption_input font_choice : string) (created : Z) :
  font_choice ∈ ["small"; "medium"; "large"] ->
  dispatch h job_id
    (image_form_job user file_path is_banner caption_input font_choice created)
  = if is_banner || is_empty caption_input
    then print_image h job_id (Some file_path) None "medium" is_banner
    else print_image h job_id (Some file_path) (Some caption_input) font_choice false.
Proof.
  intros Hfont. unfold image_form_job, dispatch.
  apply list_elem_of_In in Hfont. simpl in Hfont.
  destruct is_banner; [reflexivity |].
  destruct caption_input as [| c r]; [reflexivity |].
  destruct Hfont as [<- | [<- | [<- | []]]]; reflexivity.
Qed.

(** An upload in banner mode, and one with the caption [hi]. *)
Lemma image_form_job_dispatch_witness :
  dispatch Sample.quiet 7 (image_form_job 1 "store/photo.png" true "" "large" 900)
  = print_image Sample.quiet 7 (Some "store/photo.png") None "medium" true.
Proof.
  apply (image_form_job_dispatch Sample.quiet 7 1 "store/photo.png" true "" "large" 900).
  apply list_elem_of_In. simpl. tauto.
Defined.

(** ** The retry endpoint *)

(** X17. [retry_job] answers 404 for a job that is not stored and 400
    for a stored job in any state but failed, and changes nothing then.
    A failed job is reset: pending, no error message, no completion time,
    the rest of the world as it was. When [process_job] then runs on it,
    the job ends succeeded without an error message, or failed with a
    new one, and with a new completion time; what was requested is
    unchanged. *)
Theorem retry_job_then_process (h : Host) (job_id : Z) (w : world) :
  match jobs w !! job_id with
  | None => retry_job job_id w = (Raise (Exn "HTTPException" "404: Job not found"), w)
  | Some job =>
      if String.eqb (status job) "failed" then
        retry_job job_id w
        = (Ok tt, set_jobs (<[job_id := reset_job job]> (jobs w)) w)
        /\ let w' := snd (process_job h job_id (snd (retry_job job_id w))) in
           exists job',
             jobs w' !! job_id = Some job'
             /\ same_request job job'
             /\ completed_at job' = Some (utcnow h (trace w'))
             /\ (status job' = "success" /\ error_message job' = None
                 \/ status job' = "failed" /\ error_message job' <> None)
      else
        retry_job job_id w
        = (Raise (Exn "HTTPException"
                    ("400: Cannot retry job with status '" +:+ status job +:+ "'")), w)
  end.
Proof.
  unfold retry_job, bind, query_job, update_job, raise.
  destruct (jobs w !! job_id) as [job |] eqn:Hjob; [| reflexivity].
  destruct (String.eqb_spec (status job) "failed") as [Hs | Hs].
  - rewrite bool_decide_eq_false_2.
    2:{ intros Hn. apply Hn. rewrite Hs. apply list_elem_of_here. }
    assert (Hreset : set_jobs (alter (fun j => set_completed_at None
                                                 (set_error_message None
                                                    (set_status "pending" j)))
                                     job_id (jobs w)) w
                     = set_jobs (<[job_id := reset_job job]> (jobs w)) w).
    { unfold set_jobs. f_equal. apply map_eq. intros i.
      destruct (decide (i = job_id)) as [-> | Hne].
      - rewrite lookup_alter_eq, Hjob, lookup_insert_eq. reflexivity.
      - rewrite lookup_alter_ne, lookup_insert_ne by congruence. reflexivity. }
    rewrite Hreset. split; [reflexivity |]. simpl.
    set (w1 := set_jobs (<[job_id := reset_job job]> (jobs w)) w).
    assert (H1 : jobs w1 !! job_id = Some (reset_job job)) by apply lookup_insert_eq.
    destruct (dispatch h job_id (reset_job job)
                (set_jobs (alter (set_status "processing") job_id (jobs w1)) w1))
      as [r w2] eqn:Hrun.
    rewrite (process_job_run h job_id (reset_job job) w1 w2 r H1 Hrun). simpl.
    eexists. rewrite lookup_insert_eq. split; [reflexivity |].
    destruct r as [[] | e]; repeat split; try (left; split; reflexivity).
    right. split; [reflexivity | discriminate].
  - rewrite bool_decide_eq_true_2; [reflexivity |].
    intros Hin. apply list_elem_of_In in Hin. simpl in Hin. intuition.
Qed.

(** Job 7 failed on the host without a printer; retried there it fails
    again, retried with the printer attached it succeeds and its error
    message is gone. Processed again without the retry it succeeds too,
    but keeps the error message. *)
Example retry_samples :
  let failed := snd (process_job Sample.offline 7 (Sample.world_with 7 Sample.hi_job)) in
  let retried := snd (retry_job 7 failed) in
  (status <$> jobs failed !! 7) = Some "failed"
  /\ fst (retry_job 7 failed) = Ok tt
  /\ (status <$> jobs retried !! 7) = Some "pending"
  /\ (status <$> jobs (snd (process_job Sample.offline 7 retried)) !! 7) = Some "failed"
  /\ (status <$> jobs (snd (process_job Sample.quiet 7 retried)) !! 7) = Some "success"
  /\ (error_message <$> jobs (snd (process_job Sample.quiet 7 retried)) !! 7)
     = Some None
  /\ (error_message <$> jobs (snd (process_job Sample.quiet 7 failed)) !! 7)
     = Some (Some (str_exn Sample.offline_error))
  /\ (status <$> jobs (snd (process_job Sample.quiet 7 failed)) !! 7) = Some "success"
  /\ fst (retry_job 7 retried)
     = Raise (Exn "HTTPException" "400: Cannot retry job with status 'pending'")
  /\ fst (retry_job 8 retried) = Raise (Exn "HTTPException" "404: Job not found").
Proof. vm_compute. repeat split. Qed.

(** ** The font-scale command: what sizes are accepted *)

Lemma lt_pow2_log2 (a n : Z) : 0 <= a -> 0 < n -> (a < 2 ^ n <-> Z.log2 a < n).
Proof.
  intros Ha Hn. destruct (Z.eq_dec a 0) as [-> | Hne].
  - simpl. split; intros _; [exact Hn | apply Z.pow_pos_nonneg; lia].
  - apply Z.log2_lt_pow2. lia.
Qed.

Lemma lor_lt_pow2 (a b n : Z) :
  0 <= a -> 0 <= b -> 0 < n -> (Z.lor a b < 2 ^ n <-> a < 2 ^ n /\ b < 2 ^ n).
Proof.
  intros Ha Hb Hn.
  rewrite !lt_pow2_log2 by (try apply Z.lor_nonneg; auto).
  rewrite Z.log2_lor by assumption. lia.
Qed.

Lemma size_byte_range (width height : Z) :
  0 <= size_byte width height < 256 <-> 1 <= width <= 16 /\ 1 <= height <= 256.
Proof.
  unfold size_byte. split.
  - intros [H0 H1]. apply Z.lor_nonneg in H0. destruct H0 as [Hw Hh].
    rewrite Z.shiftl_nonneg in Hw.
    change 256 with (2 ^ 8) in H1. apply lor_lt_pow2 in H1; try lia.
    2:{ apply Z.shiftl_nonneg. lia. }
    rewrite Z.shiftl_mul_pow2 in H1 by lia. lia.
  - intros [Hw Hh]. split.
    + apply Z.lor_nonneg. split; [apply Z.shiftl_nonneg |]; lia.
    + change 256 with (2 ^ 8). apply lor_lt_pow2; try lia.
      * apply Z.shiftl_nonneg. lia.
      * rewrite Z.shiftl_mul_pow2 by lia. lia.
Qed.

(** X18. [_set_font_size] sends the reset first, whatever the size that
    is configured. It then sends the size command exactly when the
    configured width is between 1 and 16 and the height between 1 and
    256; for any other size it raises a [ValueError] and the printer has
    received the reset only. *)
Theorem set_font_size_accepts (h : Host) (p : printer) (font_size : string)
    (width height : Z) (w : world) :
  get_int h ("fonts." +:+ font_size +:+ ".width") 1 = Ok width ->
  get_int h ("fonts." +:+ font_size +:+ ".height") 1 = Ok height ->
  _set_font_size h p font_size w
  = match respond h (trace w) (DevRaw p [29; 33; 0]) with
    | Some e => (Raise e, log (DevRaw p [29; 33; 0], Some e) w)
    | None =>
        if (1 <=? width) && (width <=? 16) && (1 <=? height) && (height <=? 256)
        then perform h (DevRaw p [29; 33; size_byte width height])
                     (log (DevRaw p [29; 33; 0], None) w)
        else (Raise (Exn "ValueError" "bytes must be in range(0, 256)"),
              log (DevRaw p [29; 33; 0], None) w)
    end.
Proof.
  intros Hw Hh. unfold _set_font_size. rewrite Hw, Hh.
  unfold bind, lift_result, scale_reset, perform at 1.
  destruct (respond h (trace w) (DevRaw p [29; 33; 0])) as [e |]; [reflexivity |].
  unfold bytes1.
  destruct ((1 <=? width) && (width <=? 16) && (1 <=? height) && (height <=? 256)) eqn:Hin.
  - assert (Hr : 0 <= size_byte width height < 256) by (apply size_byte_range; lia).
    assert (((0 <=? size_byte width height) && (size_byte width height <? 256)) = true)
      as -> by lia.
    reflexivity.
  - assert (Hr : ~ (0 <= size_byte width height < 256)) by (rewrite size_byte_range; lia).
    assert (((0 <=? size_byte width height) && (size_byte width height <? 256)) = false)
      as -> by lia.
    reflexivity.
Qed.

(** The medium size of the sample configuration. *)
Lemma set_font_size_accepts_witness :
  _set_font_size Sample.quiet (FilePrinter "/dev/usb/lp0") "medium" Sample.empty_world
  = match respond Sample.quiet (trace Sample.empty_world)
            (DevRaw (FilePrinter "/dev/usb/lp0") [29; 33; 0]) with
    | Some e =>
        (Raise e, log (DevRaw (FilePrinter "/dev/usb/lp0") [29; 33; 0], Some e)
                      Sample.empty_world)
    | None =>
        if (1 <=? 2) && (2 <=? 16) && (1 <=? 2) && (2 <=? 256)
        then perform Sample.quiet (DevRaw (FilePrinter "/dev/usb/lp0") [29; 33; size_byte 2 2])
                     (log (DevRaw (FilePrinter "/dev/usb/lp0") [29; 33; 0], None)
                          Sample.empty_world)
        else (Raise (Exn "ValueError" "bytes must be in range(0, 256)"),
              log (DevRaw (FilePrinter "/dev/usb/lp0") [29; 33; 0], None)
                  Sample.empty_world)
    end.
Proof.
  apply (set_font_size_accepts Sample.quiet (FilePrinter "/dev/usb/lp0") "medium" 2 2
           Sample.empty_world).
  - reflexivity.
  - reflexivity.
Defined.

(** A height above 16 is accepted and changes the width. *)
Example size_byte_samples :
  size_byte 1 17 = size_byte 2 1 /\ size_byte 17 1 = 256 /\ size_byte 0 1 = -16.
Proof. repeat split. Qed.

(** ** The calls of a print that completes *)

Lemma repeat_perform_ok (h : Host) (c : call) (n : nat) :
  forall w w' u,
    repeat_ n (perform h c) w = (Ok u, w') ->
    trace w' = (trace w ++ replicate n (c, None))%list /\ files w' = files w.
Proof.
  induction n as [| n IH]; intros w w' u E.
  - inversion E; subst. simpl. now rewrite app_nil_r.
  - simpl in E. apply bind_ok_inv in E. destruct E as (u1 & w1 & E1 & E2).
    apply perform_ok_inv in E1. destruct E1 as [_ ->].
    destruct (IH _ _ _ E2) as [T F]. rewrite T, F. simpl.
    now rewrite <- app_assoc.
Qed.

Lemma feed_and_cut_ok (h : Host) (p : printer) (w w' : world) (u : unit) :
  _feed_and_cut h p w = (Ok u, w') ->
  exists feed_after,
    get_int h "printer.feed_after_lines" 3 = Ok feed_after
    /\ trace w' = (trace w ++ returned feed_after (DevText p nl)
                   ++ (if get_bool h "printer.cut_paper" true
                       then [(DevCut p, None)] else []))%list
    /\ files w' = files w.
Proof.
  unfold _feed_and_cut. intros E.
  apply bind_ok_inv in E. destruct E as (fa & w1 & E1 & E).
  apply lift_result_ok_inv in E1. destruct E1 as [Hfa ->].
  apply bind_ok_inv in E. destruct E as (u1 & w2 & E2 & E).
  apply repeat_perform_ok in E2. destruct E2 as [T2 F2].
  exists fa. split; [exact Hfa |].
  destruct (get_bool h "printer.cut_paper" true).
  - apply perform_ok_inv in E. destruct E as [_ ->]. simpl.
    rewrite T2, F2. split; [now rewrite <- app_assoc | reflexivity].
  - inversion E; subst. rewrite T2, F2, app_nil_r. now split.
Qed.

Lemma set_font_size_ok (h : Host) (p : printer) (font_size : string) (w w' : world)
    (u : unit) :
  _set_font_size h p font_size w = (Ok u, w') ->
  trace w' = (trace w ++ [(DevRaw p scale_reset, None);
                          (DevRaw p [29; 33; configured_size_byte h font_size], None)])%list
  /\ files w' = files w.
Proof.
  unfold _set_font_size, configured_size_byte. intros E.
  apply bind_ok_inv in E. destruct E as (width & w1 & E1 & E).
  apply lift_result_ok_inv in E1. destruct E1 as [-> ->].
  apply bind_ok_inv in E. destruct E as (height & w1 & E1 & E).
  apply lift_result_ok_inv in E1. destruct E1 as [-> ->].
  apply bind_ok_inv in E. destruct E as (u1 & w1 & E1 & E).
  apply perform_ok_inv in E1. destruct E1 as [_ ->].
  apply bind_ok_inv in E. destruct E as (b & w1 & E1 & E).
  apply lift_result_ok_inv in E1. destruct E1 as [Hb ->].
  apply perform_ok_inv in E. destruct E as [_ ->].
  unfold bytes1 in Hb.
  destruct ((0 <=? size_byte width height) && (size_byte width height <? 256));
    [| discriminate].
  inversion Hb; subst b. simpl. rewrite <- app_assoc. now split.
Qed.

Lemma close_local_trace (h : Host) (p : printer) (w : world)
    (ls : option printer * world) (u : unit) :
  (l <- get_local ;; lift (_close_printer h l)) (Some p, w) = (Ok u, ls) ->
  exists closed,
    trace (snd ls) = (trace w ++ [(DevClose p, closed)])%list /\ files (snd ls) = files w.
Proof.
  unfold bind, get_local, lift, _close_printer, try_except, perform, ret. simpl.
  destruct (respond h (trace w) (DevClose p)) as [e |]; intros E; inversion E; subst;
    eexists; split; reflexivity.
Qed.

(** X19. The calls of a plain text print that completes, in order:
    the transports that failed, the one that opened; the line feeds
    before; the font-scale reset and the command of the size; the text,
    encoded and wrapped to the line length of the size, and a line feed;
    the reset again; the line feeds after and the cut if it is
    configured; and the close. All of them returned, but for the close,
    whose failure is ignored. *)
Theorem print_text_emission (h : Host) (job_id : Z) (text : option string)
    (font_size : string) (w w' : world) (u : unit) :
  String.eqb font_size "banner" = false ->
  print_text h job_id text font_size false w = (Ok u, w') ->
  exists t pre o p feed_before max_width prepared feed_after closed,
    text = Some t
    /\ Forall off_device pre /\ opened o p
    /\ get_int h "printer.feed_before_lines" 1 = Ok feed_before
    /\ _get_font_size_config h font_size false = Ok max_width
    /\ wrap_text_for_printer h (unidecode h (demojize h t)) max_width = Ok prepared
    /\ get_int h "printer.feed_after_lines" 3 = Ok feed_after
    /\ delta w w'
       = (pre ++ (o, None) :: returned feed_before (DevText p nl)
          ++ [(DevRaw p [29; 33; 0], None);
              (DevRaw p [29; 33; configured_size_byte h font_size], None);
              (DevText p prepared, None);
              (DevText p nl, None);
              (DevRaw p [29; 33; 0], None)]
          ++ returned feed_after (DevText p nl)
          ++ (if get_bool h "printer.cut_paper" true then [(DevCut p, None)] else [])
          ++ [(DevClose p, closed)])%list
    /\ files w' = files w.
Proof.
  intros Hfont E. unfold print_text in E. rewrite Hfont in E.
  apply guarded_ok in E. destruct E as (ls1 & ls2 & u' & Ebody & Efin & ->).
  apply bind_ok_inv in Ebody. destruct Ebody as (p & s1 & Econ & Ebody).
  apply lift_ok_inv in Econ. destruct Econ as (w1 & Econ & ->). simpl in Econ.
  apply bind_ok_inv in Ebody. destruct Ebody as (u1 & s2 & Eset & Ebody).
  inversion Eset; subst s2. clear Eset. simpl in Ebody.
  apply lift_ok_inv in Ebody. destruct Ebody as (w2 & Ebody & ->). simpl in Ebody.
  simpl in Efin. apply close_local_trace in Efin. destruct Efin as (closed & Tc & Fc).
  destruct (connect_session _ _ _ _ Econ) as (d1 & T1 & pre & o & -> & Hpre & Ho).
  pose proof (connect_appends h _ _ _ Econ) as [F1 _].
  (* the body on the open printer *)
  apply bind_ok_inv in Ebody. destruct Ebody as (fb & wa & Ea & Ebody).
  apply lift_result_ok_inv in Ea. destruct Ea as [Hfb ->].
  apply bind_ok_inv in Ebody. destruct Ebody as (u2 & wb & Eb & Ebody).
  apply repeat_perform_ok in Eb. destruct Eb as [Tb Fb].
  apply bind_ok_inv in Ebody. destruct Ebody as (mw & wc & Ec & Ebody).
  apply lift_result_ok_inv in Ec. destruct Ec as [Hmw ->].
  apply bind_ok_inv in Ebody. destruct Ebody as (prepared & wd & Ed & Ebody).
  unfold prepare_text_for_print in Ed.
  apply bind_ok_inv in Ed. destruct Ed as (encoded & wd' & Ed1 & Ed2).
  apply lift_result_ok_inv in Ed1. destruct Ed1 as [Henc ->].
  apply lift_result_ok_inv in Ed2. destruct Ed2 as [Hwrap ->].
  destruct text as [t |]; [| discriminate]. simpl in Henc. inversion Henc; subst encoded.
  apply bind_ok_inv in Ebody. destruct Ebody as (u3 & we & Ee & Ebody).
  apply set_font_size_ok in Ee. destruct Ee as [Te Fe].
  apply bind_ok_inv in Ebody. destruct Ebody as (u4 & wf & Ef & Ebody).
  apply perform_ok_inv in Ef. destruct Ef as [_ ->].
  apply bind_ok_inv in Ebody. destruct Ebody as (u5 & wg & Eg & Ebody).
  apply perform_ok_inv in Eg. destruct Eg as [_ ->].
  apply bind_ok_inv in Ebody. destruct Ebody as (u6 & wh & Eh & Ebody).
  apply perform_ok_inv in Eh. destruct Eh as [_ ->].
  apply feed_and_cut_ok in Ebody. destruct Ebody as (fa & Hfa & Ti & Fi).
  exists t, pre, o, p, fb, mw, prepared, fa, closed.
  repeat (split; [assumption || reflexivity |]). split.
  - apply delta_app. rewrite Tc, Ti. rewrite !trace_log. rewrite Te, Tb, T1.
    unfold returned, scale_reset. rewrite <- !app_assoc. simpl. reflexivity.
  - rewrite Fc, Fi. simpl. rewrite Fe, Fb, F1. reflexivity.
Qed.

(** Job 7 of the sample store, [hi] at the medium size. *)
Lemma print_text_emission_witness :
  let w' := snd (print_text Sample.quiet 7 (Some "hi") "medium" false Sample.empty_world) in
  exists t pre o p feed_before max_width prepared feed_after closed,
    Some "hi" = Some t
    /\ Forall off_device pre /\ opened o p
    /\ get_int Sample.quiet "printer.feed_before_lines" 1 = Ok feed_before
    /\ _get_font_size_config Sample.quiet "medium" false = Ok max_width
    /\ wrap_text_for_printer Sample.quiet
         (unidecode Sample.quiet (demojize Sample.quiet t)) max_width = Ok prepared
    /\ get_int Sample.quiet "printer.feed_after_lines" 3 = Ok feed_after
    /\ delta Sample.empty_world w'
       = (pre ++ (o, None) :: returned feed_before (DevText p nl)
          ++ [(DevRaw p [29; 33; 0], None);
              (DevRaw p [29; 33; configured_size_byte Sample.quiet "medium"], None);
              (DevText p prepared, None);
              (DevText p nl, None);
              (DevRaw p [29; 33; 0], None)]
          ++ returned feed_after (DevText p nl)
          ++ (if get_bool Sample.quiet "printer.cut_paper" true
              then [(DevCut p, None)] else [])
          ++ [(DevClose p, closed)])%list
    /\ files w' = files Sample.empty_world.
Proof.
  apply (print_text_emission Sample.quiet 7 (Some "hi") "medium" Sample.empty_world _ tt).
  - reflexivity.
  - vm_compute. reflexivity.
Defined.

Lemma try_except_ok_inv {S A : Type} (m : M S A) (wrap : exn -> exn) (s s' : S) (a : A) :
  try_except m (fun e => raise (wrap e)) s = (Ok a, s') -> m s = (Ok a, s').
Proof.
  unfold try_except, raise. destruct (m s) as [[a0 | e] s1]; intros E; inversion E.
  reflexivity.
Qed.

Lemma process_image_ok_inv (h : Host) (src dst : string) (max_width : Z)
    (rotate convert_to_bw : bool) (w w' : world) (r : string) :
  process_image h src dst max_width rotate convert_to_bw w = (Ok r, w') ->
  exists img out,
    files w !! src = Some img
    /\ pipeline h max_width rotate convert_to_bw img = Ok out
    /\ w' = set_files (<[dst := out]> (files w))
              (log (ImgSave dst, None) (log (ImgOpen src, None) w)).
Proof.
  unfold process_image. intros E. apply try_except_ok_inv in E.
  apply bind_ok_inv in E. destruct E as (img & w1 & E1 & E).
  apply image_open_ok_inv in E1. destruct E1 as [Himg ->].
  apply bind_ok_inv in E. destruct E as (out & w2 & E2 & E).
  apply lift_result_ok_inv in E2. destruct E2 as [Hout ->].
  apply bind_ok_inv in E. destruct E as (u & w3 & E3 & E).
  apply image_save_ok_inv in E3. inversion E; subst.
  exists img, out. repeat split; assumption.
Qed.

Lemma pipeline_width_le (h : Host) (max_width : Z) (rotate convert_to_bw : bool)
    (img out : image) :
  pipeline h max_width rotate convert_to_bw img = Ok out -> img_width out <= max_width.
Proof.
  unfold pipeline. destruct (flatten_alpha (first_frame img)) as [flat | e]; [| discriminate].
  destruct (fit_width h max_width (rotate_banner rotate (ensure_rgb flat)))
    as [fitted | e] eqn:E; [| discriminate].
  intros Eo. inversion Eo; subst out.
  destruct (fit_width_le _ _ _ _ E) as [Hw _]. destruct convert_to_bw; exact Hw.
Qed.

Lemma prepare_plain_ok_inv (h : Host) (text : option string) (max_width : Z)
    (w w' : world) (prepared : string) :
  prepare_text_for_print h text max_width false w = (Ok prepared, w') ->
  exists t,
    text = Some t
    /\ wrap_text_for_printer h (unidecode h (demojize h t)) max_width = Ok prepared
    /\ w' = w.
Proof.
  unfold prepare_text_for_print. intros E.
  apply bind_ok_inv in E. destruct E as (encoded & w1 & E1 & E2).
  apply lift_result_ok_inv in E1. destruct E1 as [Henc ->].
  apply lift_result_ok_inv in E2. destruct E2 as [Hwrap ->].
  destruct text as [t |]; [| discriminate]. simpl in Henc. inversion Henc; subst encoded.
  now exists t.
Qed.

(** X20. The calls of an image print that completes, in order: the
    connection and the line feeds before; the image file opened and the
    processed image saved beside it, under the name of the file after
    [processed_]; that file sent as an image; for a caption outside
    banner mode a line feed, the font-scale reset and size command, the
    caption, a line feed and the reset; the line feeds after, the cut if
    configured, and the close. The file sent holds what the pipeline
    makes of the image at the configured width, turned in banner mode, in
    black and white; it is never wider than that width, and it is the
    only file written. *)
Theorem print_image_emission (h : Host) (job_id : Z) (image_path caption : option string)
    (font_size : string) (is_banner : bool) (w w' : world) (u : unit) :
  print_image h job_id image_path caption font_size is_banner w = (Ok u, w') ->
  exists src img out dots pre o p feed_before feed_after closed lines,
    let processed := path_join (path_parent h src) ("processed_" +:+ path_name h src) in
    image_path = Some src
    /\ get_int h "printer.dots_per_line" 384 = Ok dots
    /\ files w !! src = Some img
    /\ pipeline h dots is_banner true img = Ok out
    /\ img_width out <= dots
    /\ files w' = <[processed := out]> (files w)
    /\ Forall off_device pre /\ opened o p
    /\ get_int h "printer.feed_before_lines" 1 = Ok feed_before
    /\ get_int h "printer.feed_after_lines" 3 = Ok feed_after
    /\ delta w w'
       = (pre ++ (o, None) :: returned feed_before (DevText p nl)
          ++ [(ImgOpen src, None); (ImgSave processed, None);
              (DevImage p processed, None)]
          ++ lines
          ++ returned feed_after (DevText p nl)
          ++ (if get_bool h "printer.cut_paper" true then [(DevCut p, None)] else [])
          ++ [(DevClose p, closed)])%list
    /\ if truthy caption && negb is_banner
       then exists t max_chars prepared,
              caption = Some t
              /\ _get_font_size_config h font_size false = Ok max_chars
              /\ wrap_text_for_printer h (unidecode h (demojize h t)) max_chars
                 = Ok prepared
              /\ lines = [(DevText p nl, None);
                          (DevRaw p [29; 33; 0], None);
                          (DevRaw p [29; 33; configured_size_byte h font_size], None);
                          (DevText p prepared, None);
                          (DevText p nl, None);
                          (DevRaw p [29; 33; 0], None)]
       else lines = [].
Proof.
  intros E. unfold print_image in E.
  apply guarded_ok in E. destruct E as (ls1 & ls2 & u' & Ebody & Efin & ->).
  apply bind_ok_inv in Ebody. destruct Ebody as (p & s1 & Econ & Ebody).
  apply lift_ok_inv in Econ. destruct Econ as (w1 & Econ & ->). simpl in Econ.
  apply bind_ok_inv in Ebody. destruct Ebody as (u1 & s2 & Eset & Ebody).
  inversion Eset; subst s2. clear Eset. simpl in Ebody.
  apply lift_ok_inv in Ebody. destruct Ebody as (w2 & Ebody & ->). simpl in Ebody.
  simpl in Efin. apply close_local_trace in Efin. destruct Efin as (closed & Tc & Fc).
  destruct (connect_session _ _ _ _ Econ) as (d1 & T1 & pre & o & -> & Hpre & Ho).
  pose proof (connect_appends h _ _ _ Econ) as [F1 _].
  (* the body on the open printer *)
  apply bind_ok_inv in Ebody. destruct Ebody as (fb & wa & Ea & Ebody).
  apply lift_result_ok_inv in Ea. destruct Ea as [Hfb ->].
  apply bind_ok_inv in Ebody. destruct Ebody as (u2 & wb & Eb & Ebody).
  apply repeat_perform_ok in Eb. destruct Eb as [Tb Fb].
  apply bind_ok_inv in Ebody. destruct Ebody as (dots & wc & Ec & Ebody).
  apply lift_result_ok_inv in Ec. destruct Ec as [Hdots ->].
  apply bind_ok_inv in Ebody. destruct Ebody as (src & wd & Ed & Ebody).
  apply lift_result_ok_inv in Ed. destruct Ed as [Hsrc ->].
  destruct image_path as [src' |]; [| discriminate]. simpl in Hsrc.
  inversion Hsrc; subst src'. clear Hsrc.
  apply bind_ok_inv in Ebody. destruct Ebody as (r & we & Ee & Ebody).
  apply process_image_ok_inv in Ee. destruct Ee as (img & out & Himg & Hout & ->).
  apply bind_ok_inv in Ebody. destruct Ebody as (u3 & wf & Ef & Ebody).
  apply perform_ok_inv in Ef. destruct Ef as [_ ->].
  apply bind_ok_inv in Ebody. destruct Ebody as (u4 & wg & Eg & Ebody).
  apply feed_and_cut_ok in Ebody. destruct Ebody as (fa & Hfa & Ti & Fi).
  rewrite Fb, F1 in Himg.
  assert (Hcap : exists lines,
             trace wg = (trace wb ++ [(ImgOpen src, None);
                                      (ImgSave (path_join (path_parent h src)
                                                  ("processed_" +:+ path_name h src)), None);
                                      (DevImage p (path_join (path_parent h src)
                                                     ("processed_" +:+ path_name h src)), None)]
                         ++ lines)%list
             /\ files wg = <[path_join (path_parent h src) ("processed_" +:+ path_name h src)
                             := out]> (files w)
             /\ if truthy caption && negb is_banner
                then exists t max_chars prepared,
                       caption = Some t
                       /\ _get_font_size_config h font_size false = Ok max_chars
                       /\ wrap_text_for_printer h (unidecode h (demojize h t)) max_chars
                          = Ok prepared
                       /\ lines = [(DevText p nl, None);
                                   (DevRaw p [29; 33; 0], None);
                                   (DevRaw p [29; 33; configured_size_byte h font_size], None);
                                   (DevText p prepared, None);
                                   (DevText p nl, None);
                                   (DevRaw p [29; 33; 0], None)]
                else lines = []).
  { destruct (truthy caption && negb is_banner).
    - apply bind_ok_inv in Eg. destruct Eg as (v1 & x1 & G1 & Eg).
      apply perform_ok_inv in G1. destruct G1 as [_ ->].
      apply bind_ok_inv in Eg. destruct Eg as (v2 & x2 & G2 & Eg).
      apply set_font_size_ok in G2. destruct G2 as [T2 F2].
      apply bind_ok_inv in Eg. destruct Eg as (mc & x3 & G3 & Eg).
      apply lift_result_ok_inv in G3. destruct G3 as [Hmc ->].
      apply bind_ok_inv in Eg. destruct Eg as (prepared & x4 & G4 & Eg).
      apply prepare_plain_ok_inv in G4. destruct G4 as (t & -> & Hwrap & ->).
      apply bind_ok_inv in Eg. destruct Eg as (v5 & x5 & G5 & Eg).
      apply perform_ok_inv in G5. destruct G5 as [_ ->].
      apply bind_ok_inv in Eg. destruct Eg as (v6 & x6 & G6 & Eg).
      apply perform_ok_inv in G6. destruct G6 as [_ ->].
      unfold _reset_font_size in Eg. apply perform_ok_inv in Eg. destruct Eg as [_ ->].
      exists [(DevText p nl, None);
              (DevRaw p [29; 33; 0], None);
              (DevRaw p [29; 33; configured_size_byte h font_size], None);
              (DevText p prepared, None);
              (DevText p nl, None);
              (DevRaw p [29; 33; 0], None)].
      split; [| split].
      + rewrite !trace_log, T2. unfold scale_reset. simpl.
        rewrite <- !app_assoc. reflexivity.
      + simpl. rewrite F2. simpl. rewrite Fb, F1. reflexivity.
      + exists t, mc, prepared. repeat split; assumption.
    - inversion Eg; subst wg. exists []. split; [| split].
      + rewrite !trace_log. simpl. rewrite <- !app_assoc. reflexivity.
      + simpl. rewrite Fb, F1. reflexivity.
      + reflexivity. }
  destruct Hcap as (lines & Tg & Fg & Hlines).
  exists src, img, out, dots, pre, o, p, fb, fa, closed, lines. cbv zeta.
  split; [reflexivity |]. split; [exact Hdots |]. split; [exact Himg |].
  split; [exact Hout |]. split; [exact (pipeline_width_le _ _ _ _ _ _ Hout) |].
  split; [rewrite Fc, Fi; exact Fg |].
  split; [exact Hpre |]. split; [exact Ho |]. split; [exact Hfb |]. split; [exact Hfa |].
  split; [| exact Hlines].
  apply delta_app. rewrite Tc, Ti, Tg, Tb, T1. unfold returned.
  rewrite <- !app_assoc. simpl. reflexivity.
Qed.

(** The photograph of the sample store with the caption [hi]. *)
Lemma print_image_emission_witness :
  let w' := snd (print_image Sample.quiet 7 (Some "store/photo.png") (Some "hi") "large"
                   false Sample.photo_world) in
  exists src img out dots pre o p feed_before feed_after closed lines,
    let processed := path_join (path_parent Sample.quiet src)
                       ("processed_" +:+ path_name Sample.quiet src) in
    Some "store/photo.png" = Some src
    /\ get_int Sample.quiet "printer.dots_per_line" 384 = Ok dots
    /\ files Sample.photo_world !! src = Some img
    /\ pipeline Sample.quiet dots false true img = Ok out
    /\ img_width out <= dots
    /\ files w' = <[processed := out]> (files Sample.photo_world)
    /\ Forall off_device pre /\ opened o p
    /\ get_int Sample.quiet "printer.feed_before_lines" 1 = Ok feed_before
    /\ get_int Sample.quiet "printer.feed_after_lines" 3 = Ok feed_after
    /\ delta Sample.photo_world w'
       = (pre ++ (o, None) :: returned feed_before (DevText p nl)
          ++ [(ImgOpen src, None); (ImgSave processed, None);
              (DevImage p processed, None)]
          ++ lines
          ++ returned feed_after (DevText p nl)
          ++ (if get_bool Sample.quiet "printer.cut_paper" true
              then [(DevCut p, None)] else [])
          ++ [(DevClose p, closed)])%list
    /\ if truthy (Some "hi") && negb false
       then exists t max_chars prepared,
              Some "hi" = Some t
              /\ _get_font_size_config Sample.quiet "large" false = Ok max_chars
              /\ wrap_text_for_printer Sample.quiet
                   (unidecode Sample.quiet (demojize Sample.quiet t)) max_chars
                 = Ok prepared
              /\ lines = [(DevText p nl, None);
                          (DevRaw p [29; 33; 0], None);
                          (DevRaw p [29; 33; configured_size_byte Sample.quiet "large"], None);
                          (DevText p prepared, None);
                          (DevText p nl, None);
                          (DevRaw p [29; 33; 0], None)]
       else lines = [].
Proof.
  apply (print_image_emission Sample.quiet 7 (Some "store/photo.png") (Some "hi") "large"
           false Sample.photo_world _ tt).
  vm_compute. reflexivity.
Defined.

Lemma banner_image_height (h : Host) (text : string) (dots_per_line : Z) (img : image) :
  banner_image h text dots_per_line = Ok img -> img_height img = dots_per_line.
Proof.
  unfold banner_image.
  destruct (float_of_int dots_per_line) as [dots | e]; [| discriminate].
  destruct (int_of_float (fmul dots float_0_7)) as [target | e]; [| discriminate].
  destruct (textbbox h text (find_monospace_font h (calculate_font_size h text target 20)))
    as [[[x0 y0] x1] y1].
  destruct (PIL.new_rgb (x1 - x0 + 2 * 20, dots_per_line) white) as [canvas | e] eqn:En;
    [| discriminate].
  intros E. inversion E; subst img. simpl.
  unfold PIL.new_rgb in En.
  destruct ((fst (x1 - x0 + 2 * 20, dots_per_line) <? 0)
            || (snd (x1 - x0 + 2 * 20, dots_per_line) <? 0)); [discriminate |].
  inversion En. reflexivity.
Qed.

(** X21. The calls of a banner print that completes, in order: the
    banner is rendered and saved to the temporary file of the job, read
    back, turned by a quarter and saved as the banner file of the job,
    all before the printer is opened; then the connection, the line feeds
    before, the banner file as an image, the line feeds after and the
    cut; then the temporary file is removed, and the printer is closed.
    Of the two files the banner file alone is left, and the image it
    holds is exactly as wide as the printer. *)
Theorem banner_print_emission (h : Host) (job_id : Z) (text : option string)
    (w w' : world) (u : unit) :
  _print_text_banner h job_id text w = (Ok u, w') ->
  exists t dots img pre o p feed_before feed_after closed,
    text = Some t
    /\ blank t = false
    /\ get_int h "printer.dots_per_line" 384 = Ok dots
    /\ banner_image h t dots = Ok img
    /\ files w' = delete (banner_temp_path h job_id)
                    (<[banner_path h job_id := PIL.rotate_90 img]>
                       (<[banner_temp_path h job_id := img]> (files w)))
    /\ files w' !! banner_temp_path h job_id = None
    /\ files w' !! banner_path h job_id = Some (PIL.rotate_90 img)
    /\ img_width (PIL.rotate_90 img) = dots
    /\ Forall off_device pre /\ opened o p
    /\ get_int h "printer.feed_before_lines" 1 = Ok feed_before
    /\ get_int h "printer.feed_after_lines" 3 = Ok feed_after
    /\ delta w w'
       = ([(ImgSave (banner_temp_path h job_id), None);
           (ImgOpen (banner_temp_path h job_id), None);
           (ImgSave (banner_path h job_id), None)]
          ++ pre ++ (o, None) :: returned feed_before (DevText p nl)
          ++ [(DevImage p (banner_path h job_id), None)]
          ++ returned feed_after (DevText p nl)
          ++ (if get_bool h "printer.cut_paper" true then [(DevCut p, None)] else [])
          ++ [(Unlink (banner_temp_path h job_id), None); (DevClose p, closed)])%list.
Proof.
  unfold _print_text_banner. intros E.
  apply guarded_ok in E. destruct E as (ls1 & ls2 & u' & Ebody & Efin & ->).
  apply bind_ok_inv in Ebody. destruct Ebody as (u1 & s1 & Epre & Ebody).
  apply lift_ok_inv in Epre. destruct Epre as (w1 & Epre & ->). simpl in Epre.
  apply bind_ok_inv in Ebody. destruct Ebody as (p & s2 & Econ & Ebody).
  apply lift_ok_inv in Econ. destruct Econ as (w2 & Econ & ->). simpl in Econ.
  apply bind_ok_inv in Ebody. destruct Ebody as (u2 & s3 & Eset & Epost).
  inversion Eset; subst s3. clear Eset. simpl in Epost.
  apply lift_ok_inv in Epost. destruct Epost as (w3 & Epost & ->). simpl in Epost.
  simpl in Efin. apply close_local_trace in Efin. destruct Efin as (closed & Tc & Fc).
  (* rendering and turning *)
  apply bind_ok_inv in Epre. destruct Epre as (dots & wa & Edots & Epre).
  apply lift_result_ok_inv in Edots. destruct Edots as [Hdots ->].
  apply bind_ok_inv in Epre. destruct Epre as (r & wb & Erender & Epre).
  apply render_ok_inv in Erender. destruct Erender as (t & img & -> & Hblank & Himg & ->).
  apply bind_ok_inv in Epre. destruct Epre as (img' & wc & Eopen & Esave).
  apply image_open_ok_inv in Eopen. destruct Eopen as [Hlook ->].
  simpl in Hlook. rewrite lookup_insert_eq in Hlook. inversion Hlook; subst img'.
  apply image_save_ok_inv in Esave. subst w1.
  (* the connection *)
  destruct (connect_session _ _ _ _ Econ) as (d1 & T1 & pre & o & -> & Hpre & Ho).
  pose proof (connect_appends h _ _ _ Econ) as [F1 _].
  (* feeding and sending *)
  apply bind_ok_inv in Epost. destruct Epost as (fb & wd & Efb & Epost).
  apply lift_result_ok_inv in Efb. destruct Efb as [Hfb ->].
  apply bind_ok_inv in Epost. destruct Epost as (u3 & we & Efeed & Epost).
  apply repeat_perform_ok in Efeed. destruct Efeed as [Te Fe].
  apply bind_ok_inv in Epost. destruct Epost as (u4 & wf & Eimg & Epost).
  apply perform_ok_inv in Eimg. destruct Eimg as [_ ->].
  apply bind_ok_inv in Epost. destruct Epost as (u5 & wg & Ecut & Eunlink).
  apply feed_and_cut_ok in Ecut. destruct Ecut as (fa & Hfa & Tg & Fg).
  apply unlink_ok_inv in Eunlink. subst w3.
  assert (Hfiles : files ls2.2
                   = delete (banner_temp_path h job_id)
                       (<[banner_path h job_id := PIL.rotate_90 img]>
                          (<[banner_temp_path h job_id := img]> (files w)))).
  { rewrite Fc. simpl. rewrite Fg. simpl. rewrite Fe, F1. reflexivity. }
  exists t, dots, img, pre, o, p, fb, fa, closed.
  split; [reflexivity |]. split; [exact Hblank |]. split; [exact Hdots |].
  split; [exact Himg |]. split; [exact Hfiles |].
  split; [rewrite Hfiles; apply lookup_delete_eq |].
  split.
  { rewrite Hfiles.
    rewrite lookup_delete_ne by (intros E; symmetry in E; revert E; apply banner_paths_differ).
    apply lookup_insert_eq. }
  split; [exact (banner_image_height _ _ _ _ Himg) |].
  split; [exact Hpre |]. split; [exact Ho |]. split; [exact Hfb |]. split; [exact Hfa |].
  apply delta_app. rewrite Tc. simpl. rewrite Tg. simpl. rewrite Te, T1. simpl.
  unfold returned. rewrite <- !app_assoc. simpl. rewrite <- ?app_assoc. reflexivity.
Qed.

(** Job 7 of the sample store, [hi] as a banner. *)
Lemma banner_print_emission_witness :
  let w' := snd (_print_text_banner Sample.with_font 7 (Some "hi") Sample.empty_world) in
  exists t dots img pre o p feed_before feed_after closed,
    Some "hi" = Some t
    /\ blank t = false
    /\ get_int Sample.with_font "printer.dots_per_line" 384 = Ok dots
    /\ banner_image Sample.with_font t dots = Ok img
    /\ files w' = delete (banner_temp_path Sample.with_font 7)
                    (<[banner_path Sample.with_font 7 := PIL.rotate_90 img]>
                       (<[banner_temp_path Sample.with_font 7 := img]>
                          (files Sample.empty_world)))
    /\ files w' !! banner_temp_path Sample.with_font 7 = None
    /\ files w' !! banner_path Sample.with_font 7 = Some (PIL.rotate_90 img)
    /\ img_width (PIL.rotate_90 img) = dots
    /\ Forall off_device pre /\ opened o p
    /\ get_int Sample.with_font "printer.feed_before_lines" 1 = Ok feed_before
    /\ get_int Sample.with_font "printer.feed_after_lines" 3 = Ok feed_after
    /\ delta Sample.empty_world w'
       = ([(ImgSave (banner_temp_path Sample.with_font 7), None);
           (ImgOpen (banner_temp_path Sample.with_font 7), None);
           (ImgSave (banner_path Sample.with_font 7), None)]
          ++ pre ++ (o, None) :: returned feed_before (DevText p nl)
          ++ [(DevImage p (banner_path Sample.with_font 7), None)]
          ++ returned feed_after (DevText p nl)
          ++ (if get_bool Sample.with_font "printer.cut_paper" true
              then [(DevCut p, None)] else [])
          ++ [(Unlink (banner_temp_path Sample.with_font 7), None);
              (DevClose p, closed)])%list.
Proof.
  apply (banner_print_emission Sample.with_font 7 (Some "hi") Sample.empty_world _ tt).
  vm_compute. reflexivity.
Defined.

(** On the host without a printer the banner print fails after the
    rendering: both files of the job are left in the store. *)
Example banner_print_offline :
  let run := _print_text_banner Sample.offline 7 (Some "hi") Sample.empty_world in
  is_raise (fst run) = true
  /\ is_Some (files (snd run) !! banner_temp_path Sample.offline 7)
  /\ is_Some (files (snd run) !! banner_path Sample.offline 7).
Proof. vm_compute. repeat split; eexists; reflexivity. Qed.

(** ** A font size the configuration does not know *)

Lemma split_on_cons (sep : ascii) (s : string) : exists l ls, split_on sep s = l :: ls.
Proof.
  destruct s as [| c s]; simpl; [now eexists; eexists |].
  destruct (Ascii.eqb c sep); [now eexists; eexists |].
  destruct (split_on sep s); now eexists; eexists.
Qed.

Lemma split_on_app (sep : ascii) (s t : string) :
  split_on sep (s +:+ String sep t) = (split_on sep s ++ split_on sep t)%list.
Proof.
  induction s as [| c s IH].
  - simpl. now rewrite Ascii.eqb_refl.
  - rewrite append_cons. simpl. rewrite IH.
    destruct (Ascii.eqb c sep); [reflexivity |].
    destruct (split_on_cons sep s) as (l & ls & ->). reflexivity.
Qed.

Lemma string_app_assoc (s t v : string) : (s +:+ t) +:+ v = s +:+ (t +:+ v).
Proof.
  induction s as [| c s IH]; [reflexivity |].
  rewrite !append_cons. now rewrite IH.
Qed.

Lemma yaml_walk_app_none (ks1 ks2 : list string) :
  forall v, yaml_walk ks1 v = None -> yaml_walk (ks1 ++ ks2) v = None.
Proof.
  induction ks1 as [| k ks IH]; intros v; simpl; [discriminate |].
  destruct v; try reflexivity.
  destruct (dict_get k entries) as [[] |]; try reflexivity; apply IH.
Qed.

Lemma get_int_below_missing (h : Host) (key rest : string) (default : Z) :
  yaml_walk (split_on "."%char key) (yaml_config h) = None ->
  get_int h (key +:+ "." +:+ rest) default = Ok default.
Proof.
  intros Hmiss. unfold get_int.
  change ("." +:+ rest) with (String "."%char rest).
  rewrite split_on_app, (yaml_walk_app_none _ _ _ Hmiss). reflexivity.
Qed.

(** X22. For a font size that has no entry in the configuration (the
    lookup of [fonts.<size>] gives nothing), every number of the size
    falls back to its default: the line length is 32 characters, for
    plain and stylized text alike, and the size command that
    [_set_font_size] sends after the reset is the reset itself, scale
    1x1. No font size is refused. *)
Theorem unknown_font_size_defaults (h : Host) (font_size : string) :
  yaml_walk (split_on "."%char ("fonts." +:+ font_size)) (yaml_config h) = None ->
  (forall is_cowsay, _get_font_size_config h font_size is_cowsay = Ok 32)
  /\ configured_size_byte h font_size = 0
  /\ forall p w,
       _set_font_size h p font_size w
       = (perform h (DevRaw p [29; 33; 0]) ;; perform h (DevRaw p [29; 33; 0])) w.
Proof.
  intros Hmiss.
  assert (Hw : get_int h ("fonts." +:+ font_size +:+ ".width") 1 = Ok 1).
  { rewrite <- string_app_assoc. now apply (get_int_below_missing h _ "width"). }
  assert (Hh : get_int h ("fonts." +:+ font_size +:+ ".height") 1 = Ok 1).
  { rewrite <- string_app_assoc. now apply (get_int_below_missing h _ "height"). }
  split; [| split].
  - intros is_cowsay. unfold _get_font_size_config.
    rewrite <- string_app_assoc.
    change ("." +:+ (if is_cowsay then "cowsay" else "text") +:+ "_chars_per_line")
      with ("." +:+ ((if is_cowsay then "cowsay" else "text") +:+ "_chars_per_line")).
    now apply get_int_below_missing.
  - unfold configured_size_byte. now rewrite Hw, Hh.
  - intros p w. unfold _set_font_size. rewrite Hw, Hh. reflexivity.
Qed.

(** The size [huge] in the sample configuration. *)
Lemma unknown_font_size_defaults_witness :
  (forall is_cowsay, _get_font_size_config Sample.quiet "huge" is_cowsay = Ok 32)
  /\ configured_size_byte Sample.quiet "huge" = 0
  /\ forall p w,
       _set_font_size Sample.quiet p "huge" w
       = (perform Sample.quiet (DevRaw p [29; 33; 0]) ;;
          perform Sample.quiet (DevRaw p [29; 33; 0])) w.
Proof.
  apply (unknown_font_size_defaults Sample.quiet "huge").
  reflexivity.
Defined.

(** ** A banner job with nothing to print *)

(** X23. A stored text job at the banner size whose text is empty or
    whitespace only fails before anything happens: no call is made, no
    printer is opened, no file is written, and the job is left failed
    with the message of the renderer under the prefixes of both print
    operations it went through. *)
Theorem blank_banner_job_fails (h : Host) (job_id : Z) (job : DingJob) (text : string)
    (dots : Z) (w : world) :
  jobs w !! job_id = Some job ->
  job_type job = "text" ->
  font_size job = Some "banner" ->
  text_content job = Some text ->
  blank text = true ->
  get_int h "printer.dots_per_line" 384 = Ok dots ->
  process_job h job_id w
  = (Ok tt,
     set_jobs
       (<[job_id := set_completed_at (Some (utcnow h (trace w)))
                      (set_error_message
                         (Some "Error printing text: Error printing banner: Text cannot be empty")
                         (set_status "failed" job))]> (jobs w)) w).
Proof.
  intros Hjob Htype Hfont Htext Hblank Hdots.
  assert (Hrun : forall w0,
             dispatch h job_id job w0
             = (Raise (Exn "Exception"
                         "Error printing text: Error printing banner: Text cannot be empty"),
                w0)).
  { intros w0. unfold dispatch. rewrite Htype, Hfont, Htext. simpl.
    unfold print_text. simpl.
    unfold with_local, try_finally, try_except, lift, bind, get_local, raise.
    unfold _print_text_banner.
    unfold with_local, try_finally, try_except, lift, bind, get_local, raise, lift_result.
    simpl. rewrite Hdots. unfold render_text_banner. rewrite strip_empty_blank, Hblank.
    unfold raise, _close_printer, try_except, ret. simpl. destruct w0; reflexivity. }
  rewrite (process_job_run h job_id job w _ _ Hjob (Hrun _)). reflexivity.
Qed.

(** Job 7 of the sample store, with a text of two spaces. *)
Lemma blank_banner_job_fails_witness :
  let job := Sample.text_job "plain" (Some "banner") "  " in
  let w := Sample.world_with 7 job in
  process_job Sample.quiet 7 w
  = (Ok tt,
     set_jobs
       (<[7 := set_completed_at (Some (utcnow Sample.quiet (trace w)))
                 (set_error_message
                    (Some "Error printing text: Error printing banner: Text cannot be empty")
                    (set_status "failed" job))]> (jobs w)) w).
Proof.
  apply (blank_banner_job_fails Sample.quiet 7 (Sample.text_job "plain" (Some "banner") "  ")
           "  " 384 (Sample.world_with 7 (Sample.text_job "plain" (Some "banner") "  "))).
  - reflexivity.
  - reflexivity.
  - reflexivity.
  - reflexivity.
  - reflexivity.
  - reflexivity.
Defined.

(** ** The font of the banner *)

(** X24. [find_monospace_font] returns, at the size asked for, the first
    font file of its list that exists and loads; a file that exists but
    does not load is passed over. It falls back to the built-in font
    exactly when no file of the list exists and loads. *)
Theorem find_monospace_font_priority (h : Host) (size : Z) :
  match find_monospace_font h size with
  | TrueType path size' =>
      size' = size
      /\ path_exists h path = true /\ truetype_loads h path size = true
      /\ exists before after,
           font_paths = (before ++ path :: after)%list
           /\ Forall (fun q => path_exists h q && truetype_loads h q size = false) before
  | DefaultFont =>
      Forall (fun q => path_exists h q && truetype_loads h q size = false) font_paths
  end.
Proof.
  unfold find_monospace_font.
  pose proof (find_first (fun q => path_exists h q && truetype_loads h q size) font_paths)
    as Hf.
  destruct (List.find (fun q => path_exists h q && truetype_loads h q size) font_paths)
    as [path |].
  - destruct Hf as (before & after & E & Hp & Hb).
    apply andb_prop in Hp. destruct Hp as [Hp1 Hp2].
    split; [reflexivity |]. split; [exact Hp1 |]. split; [exact Hp2 |].
    now exists before, after.
  - exact Hf.
Qed.
